(** * Backtest engine of the sentiment portfolio script

    A shallow embedding of [sentiment_trading_strategy],
    [buy_and_hold_strategy] and [calculate_metrics], together with the
    part of pandas/numpy they rely on, and of the functions around
    them: [fetch_stock_data], [simulate_news_sentiment],
    [compute_daily_sentiment] and [main].

    Numbers.  The script computes with binary64 floats.  Here a number
    is an exact rational extended with the three special values of
    IEEE-754 ([+inf], [-inf], [NaN]); the special values follow the
    IEEE rules, rounding and overflow of finite results are abstracted
    away, and zero carries no sign (a zero divisor counts as [+0]).
    A missing price or score is [NaN], as in pandas.  An equality
    proved here is one the script meets up to rounding.  Where the
    script branches on a rounded number, as in the guard of the Sharpe
    ratio, the computation is done again on binary64 floats
    ([Binary64]).

    Errors.  Python exceptions are results of the error monad
    [result].

    Library routines.  [sort_values] follows pandas' [nargsort]; the
    sorting kernel behind it is a parameter ([Argsort]) with the
    contract of [numpy.argsort]; two kernels that meet it are given
    to run the model, neither of them numpy's own.  The square root at
    a positive rational and the real power are parameters as well
    ([MathLib]), and so are the download of the closing prices
    ([PriceSource]) and the random generator ([RandomState]), whose
    state is passed along.

    Tables.  Row and column labels of a frame are taken to be distinct,
    so that a label names one row or column. *)

From Stdlib Require Import String Ascii.
From Stdlib Require Import ZArith QArith Qcanon Lqa Lia.
From Stdlib Require Floats.
From Stdlib Require Import List Bool Arith.
From Stdlib Require Import Permutation Sorted.
Import ListNotations.

Close Scope Q_scope.
Close Scope Qc_scope.
Open Scope nat_scope.

(* ================================================================== *)
(** ** Numbers *)
(* ================================================================== *)

Module Num.

Inductive num : Type :=
| Fin (q : Qc)
| PInf
| NInf
| NaN.

Definition Qc_ltb (x y : Qc) : bool :=
  match (x ?= y)%Qc with Lt => true | _ => false end.

Definition Qc_eqb (x y : Qc) : bool :=
  match (x ?= y)%Qc with Eq => true | _ => false end.

Definition of_Q (q : Q) : num := Fin (Q2Qc q).
Definition of_Z (z : Z) : num := of_Q (inject_Z z).
Definition of_nat (n : nat) : num := of_Z (Z.of_nat n).

Definition zero : num := of_Z 0.
Definition one : num := of_Z 1.

(** [pd.isna] on a scalar. *)
Definition isna (x : num) : bool :=
  match x with NaN => true | _ => false end.

(** Sign of a number: [Gt] positive, [Lt] negative, [Eq] zero or NaN. *)
Definition sgn (x : num) : comparison :=
  match x with
  | Fin q => (q ?= 0)%Qc
  | PInf => Gt
  | NInf => Lt
  | NaN => Eq
  end.

Definition sgn_mul (c d : comparison) : comparison :=
  match c, d with
  | Eq, _ | _, Eq => Eq
  | Gt, Gt | Lt, Lt => Gt
  | _, _ => Lt
  end.

(** The infinity of a given sign; no sign gives NaN ([0 * inf], [0 / 0]). *)
Definition inf_of (c : comparison) : num :=
  match c with Gt => PInf | Lt => NInf | Eq => NaN end.

Definition neg (x : num) : num :=
  match x with
  | Fin q => Fin (- q)%Qc
  | PInf => NInf
  | NInf => PInf
  | NaN => NaN
  end.

Definition add (x y : num) : num :=
  match x, y with
  | NaN, _ | _, NaN => NaN
  | Fin a, Fin b => Fin (a + b)%Qc
  | PInf, NInf | NInf, PInf => NaN
  | PInf, _ | _, PInf => PInf
  | NInf, _ | _, NInf => NInf
  end.

Definition sub (x y : num) : num := add x (neg y).

Definition mul (x y : num) : num :=
  match x, y with
  | NaN, _ | _, NaN => NaN
  | Fin a, Fin b => Fin (a * b)%Qc
  | _, _ => inf_of (sgn_mul (sgn x) (sgn y))
  end.

(** numpy division: a zero divisor gives an infinity or NaN, never an
    exception. *)
Definition div (x y : num) : num :=
  match x, y with
  | NaN, _ | _, NaN => NaN
  | Fin a, Fin b => if Qc_eqb b 0%Qc then inf_of (sgn x) else Fin (a / b)%Qc
  | Fin _, _ => zero
  | _, Fin b => if Qc_eqb b 0%Qc then x else inf_of (sgn_mul (sgn x) (sgn y))
  | _, _ => NaN
  end.

(** Comparisons; every comparison with NaN is false. *)
Definition ltb (x y : num) : bool :=
  match x, y with
  | NaN, _ | _, NaN => false
  | Fin a, Fin b => Qc_ltb a b
  | _, NInf => false
  | NInf, _ => true
  | PInf, _ => false
  | _, PInf => true
  end.

Definition eqb (x y : num) : bool :=
  match x, y with
  | Fin a, Fin b => Qc_eqb a b
  | PInf, PInf | NInf, NInf => true
  | _, _ => false
  end.

Definition leb (x y : num) : bool := ltb x y || eqb x y.

(** Python [x != y]: true as soon as one side is NaN. *)
Definition neb (x y : num) : bool := negb (eqb x y).

(** The order numpy sorts floats by: the usual one, NaN after
    everything else. *)
Definition np_less (x y : num) : bool :=
  ltb x y || (isna y && negb (isna x)).

(** Structural equality test (NaN equals NaN), for stating results. *)
Definition same (x y : num) : bool :=
  match x, y with
  | NaN, NaN => true
  | _, _ => eqb x y
  end.

End Num.
Export Num.

Declare Scope num_scope.
Delimit Scope num_scope with num.
Bind Scope num_scope with num.
Infix "+" := add : num_scope.
Infix "-" := sub : num_scope.
Infix "*" := mul : num_scope.
Infix "/" := div : num_scope.

(* ================================================================== *)
(** ** Python exceptions *)
(* ================================================================== *)

Inductive exn : Type :=
| IndexError
| KeyError
| ValueError
| ZeroDivisionError.

Inductive result (A : Type) : Type :=
| Ok (a : A)
| Raise (e : exn).

Arguments Ok {A} a.
Arguments Raise {A} e.

Definition bind {A B : Type} (r : result A) (k : A -> result B) : result B :=
  match r with
  | Ok a => k a
  | Raise e => Raise e
  end.

Notation "x <- e ;; k" := (bind e (fun x => k))
  (at level 61, e at next level, right associativity).

(** A [for] loop whose body may raise: the state is threaded through
    the items from left to right. *)
Fixpoint for_each {S A : Type} (body : S -> A -> result S)
    (items : list A) (s : S) : result S :=
  match items with
  | [] => Ok s
  | x :: rest => s' <- body s x ;; for_each body rest s'
  end.

(** A comprehension [[f x for x in items]] whose element may raise. *)
Fixpoint map_result {A B : Type} (f : A -> result B) (items : list A)
    : result (list B) :=
  match items with
  | [] => Ok []
  | x :: rest => y <- f x ;; ys <- map_result f rest ;; Ok (y :: ys)
  end.

(* ================================================================== *)
(** ** The part of pandas the script uses *)
(* ================================================================== *)

Definition asset := string.
Definition date := string.

(** A Series: labelled values, in order. *)
Definition Series := list (asset * num).

(** A DataFrame of prices or scores: the date index, the column labels
    and the cell at a row position and a column label.  Labels of one
    frame are taken to be distinct, as they are for the frames the
    script builds. *)
Record DataFrame : Type := {
  index : list date;
  columns : list asset;
  cell : nat -> asset -> num
}.

(** [len(df)] *)
Definition len (df : DataFrame) : nat := length (index df).

Definition has_column (df : DataFrame) (stock : asset) : bool :=
  existsb (String.eqb stock) (columns df).

(** [df.index[t]] *)
Definition index_at (df : DataFrame) (t : nat) : result date :=
  match nth_error (index df) t with
  | Some d => Ok d
  | None => Raise IndexError
  end.

(** [df.loc[df.index[t], stock]] *)
Definition loc (df : DataFrame) (t : nat) (stock : asset) : result num :=
  _ <- index_at df t ;;
  if has_column df stock then Ok (cell df t stock) else Raise KeyError.

(** Row [t] as a Series over the columns. *)
Definition row_of (df : DataFrame) (t : nat) : Series :=
  map (fun c => (c, cell df t c)) (columns df).

(** [df.iloc[t]] *)
Definition iloc (df : DataFrame) (t : nat) : result Series :=
  if t <? len df then Ok (row_of df t) else Raise IndexError.

(** Position of a label in a list of labels. *)
Fixpoint position (c : asset) (cols : list asset) : nat :=
  match cols with
  | [] => 0
  | c' :: rest => if String.eqb c c' then 0 else S (position c rest)
  end.

(** A frame given by its rows, for concrete tables. *)
Definition frame_of (idx : list date) (cols : list asset)
    (rows : list (list num)) : DataFrame :=
  {| index := idx;
     columns := cols;
     cell := fun t c => nth (position c cols) (nth t rows []) NaN |}.

(** *** Sorting *)

(** [ndarray.argsort(kind=...)]: the positions of the keys in ascending
    order.  The script leaves [kind] at its default, so the kernel is a
    parameter of the simulator. *)
Class Argsort : Type := argsort : list num -> list nat.

Definition key_at (keys : list num) (i : nat) : num := nth i keys NaN.

Definition ascending (keys : list num) (i j : nat) : Prop :=
  np_less (key_at keys j) (key_at keys i) = false.

(** What every numpy kind guarantees: the result is a rearrangement of
    the positions and the keys read through it never go down. *)
Class ArgsortSpec (K : Argsort) : Prop := {
  argsort_perm : forall keys,
      Permutation (argsort keys) (seq 0 (length keys));
  argsort_sorted : forall keys,
      StronglySorted (ascending keys) (argsort keys)
}.

(** A stable kind moreover keeps equal keys in their input order. *)
Definition stable_ascending (keys : list num) (i j : nat) : Prop :=
  np_less (key_at keys i) (key_at keys j) = true \/
  (np_less (key_at keys j) (key_at keys i) = false /\ i < j).

Class ArgsortStable (K : Argsort) : Prop :=
  argsort_stable : forall keys,
      StronglySorted (stable_ascending keys) (argsort keys).

(** Insertion of position [i] into sorted positions, moving it left
    only past strictly larger keys. *)
Fixpoint insert_right (keys : list num) (i : nat) (sorted : list nat)
    : list nat :=
  match sorted with
  | [] => [i]
  | j :: rest =>
      if np_less (key_at keys i) (key_at keys j)
      then i :: j :: rest
      else j :: insert_right keys i rest
  end.

(** Insertion sort of the positions [ps]. *)
Definition insertion_on (keys : list num) (ps : list nat) : list nat :=
  fold_left (fun sorted i => insert_right keys i sorted) ps [].

(** Insertion sort as a kernel; it is stable. *)
Definition insertion_argsort : Argsort :=
  fun keys => insertion_on keys (seq 0 (length keys)).

(** A quicksort on positions, as a second kernel that meets the
    contract: the positions are split around the middle one, those
    whose key is not above the pivot's going to its left and the others
    to its right.  It is not stable.  It is not numpy's code either:
    which kernel numpy runs for the default kind depends on the build
    and on the processor, and none of them is modelled. *)
Fixpoint quicksort_from (fuel : nat) (keys : list num) (ps : list nat)
    : list nat :=
  match fuel, ps with
  | O, _ | _, [] => ps
  | S fuel', _ :: _ =>
      let m := Nat.div2 (length ps) in
      let p := nth m ps 0 in
      let others := firstn m ps ++ skipn (S m) ps in
      let above j := np_less (key_at keys p) (key_at keys j) in
      quicksort_from fuel' keys (filter (fun j => negb (above j)) others)
        ++ p :: quicksort_from fuel' keys (filter above others)
  end.

Definition quicksort_argsort : Argsort :=
  fun keys => quicksort_from (length keys) keys (seq 0 (length keys)).

(** The positions of a key array that hold a number, and those that
    hold none. *)
Definition scored_positions (items : list num) : list nat :=
  filter (fun i => negb (isna (key_at items i))) (seq 0 (length items)).

Definition unscored_positions (items : list num) : list nat :=
  filter (fun i => isna (key_at items i)) (seq 0 (length items)).

Section Ranking.

Context {K : Argsort}.

(** pandas' [nargsort(items, kind, ascending=False, na_position="last")]:
    the positions without a key are set aside; the others are reversed,
    sorted ascending by the kernel and reversed again; the positions
    without a key come last, in their input order. *)
Definition nargsort_desc (items : list num) : list nat :=
  let non_nan_idx := scored_positions items in
  let nan_idx := unscored_positions items in
  let non_nans := map (key_at items) non_nan_idx in
  let non_nans := rev non_nans in
  let non_nan_idx := rev non_nan_idx in
  let indexer := map (fun k => nth k non_nan_idx 0) (argsort non_nans) in
  rev indexer ++ nan_idx.

(** [s.sort_values(ascending=False)] *)
Definition sort_values_desc (s : Series) : Series :=
  map (fun i => nth i s (EmptyString, NaN)) (nargsort_desc (map snd s)).

End Ranking.

(** [s.head(n)] and [s.index] *)
Definition head (n : nat) (s : Series) : Series := firstn n s.
Definition labels (s : Series) : list asset := map fst s.

(* ================================================================== *)
(** ** Constants of the script *)
(* ================================================================== *)

Definition INITIAL_CAPITAL : Z := 100000.
Definition TOP_N : nat := 2.

(* ================================================================== *)
(** ** Step 4: the sentiment-based strategy *)
(* ================================================================== *)

(** The frame a strategy returns, after [set_index('Date')]. *)
Record PortfolioFrame : Type := {
  Date : list date;
  Portfolio_Value : list num;
  Daily_Return : list num
}.

(** [pd.DataFrame({...})] raises when its columns differ in length. *)
Definition make_portfolio_df (dates : list date) (values returns : list num)
    : result PortfolioFrame :=
  if (length dates =? length values) && (length values =? length returns)
  then Ok {| Date := dates; Portfolio_Value := values; Daily_Return := returns |}
  else Raise ValueError.

(** The lists the loop appends to.  [report] holds, for every line the
    loop prints, the [weights] dict of that line. *)
Record sim_state : Type := {
  portfolio_value : list num;
  daily_returns : list num;
  holdings : list (list asset);
  report : list (list (asset * num))
}.

(** [xs[-1]] on a list that is never empty when it is read. *)
Definition last_of (xs : list num) : num := last xs NaN.

(** [[stock for stock in top_stocks if not pd.isna(price_data.loc[...])]] *)
Fixpoint valid_among (price_data : DataFrame) (t : nat)
    (top_stocks : list asset) : result (list asset) :=
  match top_stocks with
  | [] => Ok []
  | stock :: rest =>
      p <- loc price_data t stock ;;
      valid <- valid_among price_data t rest ;;
      Ok (if isna p then valid else stock :: valid)
  end.

(** Body of the inner loop over [valid_stocks]; [n] is
    [len(valid_stocks)]. *)
Definition add_stock_return (price_data : DataFrame) (t : nat) (n : num)
    (portfolio_return : num) (stock : asset) : result num :=
  price_t <- loc price_data t stock ;;
  price_t1 <- loc price_data (t + 1) stock ;;
  if isna price_t1 then Ok portfolio_return
  else
    let stock_return := ((price_t1 - price_t) / price_t)%num in
    Ok (portfolio_return + stock_return / n)%num.

Section Simulator.

Context {K : Argsort}.

(** [sentiment_today.sort_values(ascending=False).head(TOP_N).index] *)
Definition top_stocks_of (sentiment_today : Series) : list asset :=
  labels (head TOP_N (sort_values_desc sentiment_today)).

(** Body of the loop over [t].  The [shares] dict of the script is
    built and never read; its divisions cannot raise and it is left
    out. *)
Definition rebalance (price_data sentiment_data : DataFrame)
    (st : sim_state) (t : nat) : result sim_state :=
  sentiment_today <- iloc sentiment_data t ;;
  let top_stocks := top_stocks_of sentiment_today in
  valid_stocks <- valid_among price_data t top_stocks ;;
  if length valid_stocks =? 0 then Ok st
  else
    let n := of_nat (length valid_stocks) in
    let allocation := (last_of (portfolio_value st) / n)%num in
    portfolio_return <-
      for_each (add_stock_return price_data t n) valid_stocks zero ;;
    let new_value := (last_of (portfolio_value st) * (one + portfolio_return))%num in
    let portfolio_value' := portfolio_value st ++ [new_value] in
    let weights :=
      map (fun stock => (stock, (allocation / last_of portfolio_value')%num))
          valid_stocks in
    Ok {| portfolio_value := portfolio_value';
          daily_returns := daily_returns st ++ [portfolio_return];
          holdings := holdings st ++ [valid_stocks];
          report := report st ++ [weights] |}.

Definition initial_state : sim_state :=
  {| portfolio_value := [of_Z INITIAL_CAPITAL];
     daily_returns := [];
     holdings := [];
     report := [] |}.

(** What the function returns, and what it printed on the way. *)
Record strategy_output : Type := {
  portfolio_df : PortfolioFrame;
  holdings_out : list (list asset);
  printed : list (list (asset * num))
}.

Definition sentiment_trading_strategy (price_data sentiment_data : DataFrame)
    : result strategy_output :=
  _ <- index_at price_data 0 ;;
  st <- for_each (rebalance price_data sentiment_data)
                 (seq 0 (len price_data - 1)) initial_state ;;
  df <- make_portfolio_df
          (firstn (length (portfolio_value st)) (index price_data))
          (portfolio_value st)
          (zero :: daily_returns st) ;;
  Ok {| portfolio_df := df;
        holdings_out := holdings st;
        printed := report st |}.

End Simulator.

(* ================================================================== *)
(** ** Step 5: buy and hold *)
(* ================================================================== *)

(** [xs[-2]] *)
Definition before_last (xs : list num) : num :=
  nth (length xs - 2) xs NaN.

(** [{stock: initial_investment_per_stock / price_data[stock].iloc[0]
      for stock in price_data.columns}] *)
Definition initial_shares (price_data : DataFrame) (per_stock : num)
    : result (list (asset * num)) :=
  map_result
    (fun stock =>
       p0 <- loc price_data 0 stock ;;
       Ok (stock, (per_stock / p0)%num))
    (columns price_data).

(** One term of the generator summed into [total_value]. *)
Definition add_holding (price_data : DataFrame) (t : nat)
    (total : num) (holding : asset * num) : result num :=
  p <- loc price_data t (fst holding) ;;
  Ok (if isna p then total else (total + snd holding * p)%num).

(** Body of the loop over the dates; the state is [portfolio_value] and
    [daily_returns].  The weights it prints are not kept. *)
Definition revalue (price_data : DataFrame) (shares : list (asset * num))
    (st : list num * list num) (t : nat) : result (list num * list num) :=
  let (portfolio_value, daily_returns) := st in
  total_value <- for_each (add_holding price_data t) shares zero ;;
  let value :=
    if ltb zero total_value then total_value
    else if 0 <? t then last_of portfolio_value
    else of_Z INITIAL_CAPITAL in
  let portfolio_value := portfolio_value ++ [value] in
  let daily_return :=
    if 0 <? t
    then ((last_of portfolio_value - before_last portfolio_value)
          / before_last portfolio_value)%num
    else zero in
  Ok (portfolio_value, daily_returns ++ [daily_return]).

Definition buy_and_hold_strategy (price_data : DataFrame)
    : result PortfolioFrame :=
  if length (columns price_data) =? 0 then Raise ZeroDivisionError
  else
    let initial_investment_per_stock :=
      (of_Z INITIAL_CAPITAL / of_nat (length (columns price_data)))%num in
    shares <- initial_shares price_data initial_investment_per_stock ;;
    st <- for_each (revalue price_data shares)
                   (seq 0 (len price_data)) ([], []) ;;
    make_portfolio_df (index price_data) (fst st) (snd st).

(* ================================================================== *)
(** ** Step 6: financial metrics *)
(* ================================================================== *)

(** The two numeric routines whose values are not rational: the square
    root at a positive rational and the real power.  The exact cases of
    the square root are spelled out in [np_sqrt]. *)
Class MathLib : Type := {
  sqrt_pos : Qc -> Qc;
  np_pow : num -> num -> num
}.

Record MetricsRecord : Type := {
  Total_Return : num;
  Annualized_Return : num;
  Sharpe_Ratio : num;
  Max_Drawdown : num;
  Volatility : num
}.

(** The values pandas reductions look at ([skipna=True]). *)
Definition dropna (xs : list num) : list num :=
  filter (fun x => negb (isna x)) xs.

Definition total (xs : list num) : num := fold_left add xs zero.

(** [s.mean()] *)
Definition mean (xs : list num) : num :=
  let values := dropna xs in
  if length values =? 0 then NaN
  else (total values / of_nat (length values))%num.

(** The variance behind [s.std()], with [ddof=1].  It is exact, as
    all of [Num] is: the variance of equal values is 0 here, which the
    rounded variance of the script need not be (see [Binary64]). *)
Definition var (xs : list num) : num :=
  let values := dropna xs in
  let count := length values in
  if count <=? 1 then NaN
  else
    let avg := (total values / of_nat count)%num in
    (total (map (fun x => ((avg - x) * (avg - x))%num) values)
     / of_nat (count - 1))%num.

(** [s.cummax()]: the running maximum; a NaN entry stays NaN and is
    skipped by the maximum. *)
Fixpoint cummax_from (running : option num) (xs : list num) : list num :=
  match xs with
  | [] => []
  | x :: rest =>
      if isna x then NaN :: cummax_from running rest
      else
        let m := match running with
                 | None => x
                 | Some r => if ltb r x then x else r
                 end in
        m :: cummax_from (Some m) rest
  end.

Definition cummax (xs : list num) : list num := cummax_from None xs.

(** [s.min()] *)
Definition series_min (xs : list num) : num :=
  match dropna xs with
  | [] => NaN
  | x :: rest => fold_left (fun m y => if ltb y m then y else m) rest x
  end.

(** Elementwise operation on two aligned Series. *)
Fixpoint zip_with (f : num -> num -> num) (xs ys : list num) : list num :=
  match xs, ys with
  | x :: xs', y :: ys' => f x y :: zip_with f xs' ys'
  | _, _ => []
  end.

(** [s.iloc[-1]] *)
Definition iloc_last (xs : list num) : result num :=
  match xs with
  | [] => Raise IndexError
  | _ :: _ => Ok (last xs NaN)
  end.

(** The default [risk_free_rate=0.06/252]. *)
Definition default_risk_free_rate : num :=
  Fin (Q2Qc (6 # 100) / Q2Qc (252 # 1))%Qc.

Section Metrics.

Context {M : MathLib}.

(** [np.sqrt] *)
Definition np_sqrt (x : num) : num :=
  match x with
  | Fin q =>
      match (q ?= 0)%Qc with
      | Eq => zero
      | Lt => NaN
      | Gt => Fin (sqrt_pos q)
      end
  | PInf => PInf
  | NInf | NaN => NaN
  end.

(** [s.std()] *)
Definition std (xs : list num) : num := np_sqrt (var xs).

Definition calculate_metrics (portfolio_df : PortfolioFrame)
    (risk_free_rate : num) : result MetricsRecord :=
  final_value <- iloc_last (Portfolio_Value portfolio_df) ;;
  let total_return :=
    ((final_value - of_Z INITIAL_CAPITAL) / of_Z INITIAL_CAPITAL)%num in
  let daily_returns := Daily_Return portfolio_df in
  if length daily_returns =? 0 then Raise ZeroDivisionError
  else
    let annualized_return :=
      (np_pow (one + total_return)
              (of_Z 252 / of_nat (length daily_returns)) - one)%num in
    let excess_returns :=
      map (fun r => (r - risk_free_rate)%num) daily_returns in
    let sharpe_ratio :=
      if neb (std excess_returns) zero
      then (mean excess_returns / std excess_returns * np_sqrt (of_Z 252))%num
      else zero in
    let rolling_max := cummax (Portfolio_Value portfolio_df) in
    let drawdowns :=
      zip_with div
        (zip_with sub (Portfolio_Value portfolio_df) rolling_max)
        rolling_max in
    let max_drawdown := series_min drawdowns in
    let volatility := (std daily_returns * np_sqrt (of_Z 252))%num in
    Ok {| Total_Return := total_return;
          Annualized_Return := annualized_return;
          Sharpe_Ratio := sharpe_ratio;
          Max_Drawdown := max_drawdown;
          Volatility := volatility |}.

End Metrics.

(* ================================================================== *)
(** ** Step 6 in binary64: the Sharpe ratio *)
(* ================================================================== *)

(** Whether the standard deviation of the excess returns is 0 decides
    the branch of the Sharpe ratio, and for the script that is a
    question about a rounded number.  The lines of [calculate_metrics]
    that compute the ratio are therefore repeated here on binary64
    floats, each operation rounded as in the script: the reductions
    are those of pandas' [nanops] (the path taken without the optional
    bottleneck package) over numpy's summation.  The sign of a zero sum
    is not followed. *)
Module Binary64.

Import PrimFloat.

(** An integer as a float; exact below 2^53. *)
Definition of_Z (z : Z) : float := of_uint63 (Uint63.of_Z z).
Definition of_nat (n : nat) : float := of_Z (Z.of_nat n).

Definition isnan (x : float) : bool := negb (eqb x x).

(** The plain loop [res += a[i]]. *)
Definition sum_loop (res : float) (a : list float) : float :=
  fold_left add a res.

Fixpoint add_lanes (r block : list float) : list float :=
  match r, block with
  | x :: r', y :: block' => add x y :: add_lanes r' block'
  | _, _ => []
  end.

(** Eight accumulators over the blocks of eight values, summed in
    pairs, then the values left over. *)
Fixpoint unrolled_sum (blocks : nat) (r a : list float) : float :=
  match blocks with
  | S blocks' => unrolled_sum blocks' (add_lanes r (firstn 8 a)) (skipn 8 a)
  | O =>
      match r with
      | [r0; r1; r2; r3; r4; r5; r6; r7] =>
          sum_loop (add (add (add r0 r1) (add r2 r3))
                        (add (add r4 r5) (add r6 r7))) a
      | _ => nan
      end
  end.

(** numpy's pairwise summation of a contiguous array: fewer than 8
    values are added from left to right, up to 128 values go through
    the eight accumulators, a longer array is halved. *)
Fixpoint pairwise_sum (fuel : nat) (a : list float) : float :=
  let n := length a in
  if n <? 8 then sum_loop zero a
  else if n <=? 128 then unrolled_sum (n / 8 - 1) (firstn 8 a) (skipn 8 a)
  else
    match fuel with
    | O => sum_loop zero a
    | S fuel' =>
        let n2 := n / 2 - (n / 2) mod 8 in
        add (pairwise_sum fuel' (firstn n2 a))
            (pairwise_sum fuel' (skipn n2 a))
    end.

(** [values.sum()] *)
Definition np_sum (a : list float) : float := pairwise_sum (length a) a.

(** The values with the missing ones set to 0, and the number of
    values that are present. *)
Definition fill_zero (xs : list float) : list float :=
  map (fun x => if isnan x then zero else x) xs.

Definition count (xs : list float) : nat :=
  length (filter (fun x => negb (isnan x)) xs).

(** [s.mean()] *)
Definition nanmean (xs : list float) : float :=
  if count xs =? 0 then nan
  else div (np_sum (fill_zero xs)) (of_nat (count xs)).

(** The variance behind [s.std()]: two passes, [ddof=1]. *)
Definition nanvar (xs : list float) : float :=
  if count xs <=? 1 then nan
  else
    let avg := div (np_sum (fill_zero xs)) (of_nat (count xs)) in
    let sqr :=
      map (fun x => if isnan x then zero else mul (sub avg x) (sub avg x))
          xs in
    div (np_sum sqr) (of_nat (count xs - 1)).

(** [s.std()] *)
Definition nanstd (xs : list float) : float := sqrt (nanvar xs).

(** The default [risk_free_rate=0.06/252]; the literal [0.06] is the
    float nearest to 6/100, which the rounded division yields. *)
Definition default_risk_free_rate : float :=
  div (div (of_nat 6) (of_nat 100)) (of_nat 252).

(** [excess_returns] and [sharpe_ratio] of [calculate_metrics]. *)
Definition excess_returns (daily_returns : list float)
    (risk_free_rate : float) : list float :=
  map (fun r => sub r risk_free_rate) daily_returns.

Definition sharpe_ratio (daily_returns : list float)
    (risk_free_rate : float) : float :=
  let excess := excess_returns daily_returns risk_free_rate in
  if negb (eqb (nanstd excess) zero)
  then mul (div (nanmean excess) (nanstd excess)) (sqrt (of_nat 252))
  else zero.

End Binary64.

(* ================================================================== *)
(** ** Steps 1 to 3: the price table and the score table *)
(* ================================================================== *)

(** [yf.download(tickers, start=..., end=...)['Close']]: the table of
    closing prices, a parameter. *)
Class PriceSource : Type :=
  yf_download_close : list asset -> date -> date -> DataFrame.

(** Every cell of row [t] is missing. *)
Definition row_all_na (df : DataFrame) (t : nat) : bool :=
  forallb (fun c => isna (cell df t c)) (columns df).

(** [df.dropna(how='all')]: the rows with a value, in order. *)
Definition dropna_all (df : DataFrame) : DataFrame :=
  let kept := filter (fun t => negb (row_all_na df t)) (seq 0 (len df)) in
  {| index := map (fun t => nth t (index df) EmptyString) kept;
     columns := columns df;
     cell := fun t c => cell df (nth t kept (len df)) c |}.

Definition fetch_stock_data {P : PriceSource} (tickers : list asset)
    (start_date end_date : date) : DataFrame :=
  let price_data := yf_download_close tickers start_date end_date in
  dropna_all price_data.

(** The global generator of [np.random]: its state is threaded through
    the draws.  [uniform] is [np.random.uniform(-1, 1)] and
    [uniform_array] is [np.random.uniform(-1, 1, n)]. *)
Class RandomState : Type := {
  rng : Type;
  uniform : rng -> Qc * rng;
  uniform_array : rng -> nat -> list Qc * rng
}.

(** A draw lies in the half-open interval from -1 to 1. *)
Definition in_unit_range (q : Qc) : Prop :=
  (- (1) <= q)%Qc /\ (q < 1)%Qc.

(** What numpy documents of the draws. *)
Class RandomStateSpec (R : RandomState) : Prop := {
  uniform_range : forall g, in_unit_range (fst (uniform g));
  uniform_array_length : forall g n, length (fst (uniform_array g n)) = n;
  uniform_array_range :
    forall g n, Forall in_unit_range (fst (uniform_array g n))
}.

(** [pd.DataFrame(index=dates, columns=tickers)]: every cell missing. *)
Definition new_frame (dates : list date) (tickers : list asset) : DataFrame :=
  {| index := dates; columns := tickers; cell := fun _ _ => NaN |}.

(** [df[ticker] = values]: the column is replaced, or added at the end
    when there is none of that name; the length must be that of the
    index. *)
Definition set_column (df : DataFrame) (ticker : asset) (values : list num)
    : result DataFrame :=
  if length values =? len df
  then Ok {| index := index df;
             columns := if has_column df ticker then columns df
                        else columns df ++ [ticker];
             cell := fun t c => if String.eqb c ticker then nth t values NaN
                                else cell df t c |}
  else Raise ValueError.

(** [df.loc[date, ticker] = x] for labels of the frame: the cell of
    that column in the rows that carry the date. *)
Definition set_cell (df : DataFrame) (d : date) (ticker : asset) (x : num)
    : DataFrame :=
  {| index := index df;
     columns := columns df;
     cell := fun t c =>
               if String.eqb (nth t (index df) EmptyString) d
                  && String.eqb c ticker
               then x else cell df t c |}.

Section Scores.

Context {R : RandomState}.

(** Body of the loop over the tickers. *)
Definition fill_column (dates : list date) (st : DataFrame * rng)
    (ticker : asset) : result (DataFrame * rng) :=
  let (sentiment_data, g) := st in
  let (draws, g') := uniform_array g (length dates) in
  sentiment_data' <- set_column sentiment_data ticker (map Fin draws) ;;
  Ok (sentiment_data', g').

Definition simulate_news_sentiment (tickers : list asset) (dates : list date)
    (g : rng) : result (DataFrame * rng) :=
  for_each (fill_column dates) tickers (new_frame dates tickers, g).

(** Body of the inner loop over the tickers, on one date. *)
Definition fill_cell (d : date) (st : DataFrame * rng) (ticker : asset)
    : DataFrame * rng :=
  let (sentiment_data, g) := st in
  let (draw, g') := uniform g in
  (set_cell sentiment_data d ticker (Fin draw), g').

(** The argument [news_data] is only tested against [None]. *)
Definition compute_daily_sentiment {News : Type} (tickers : list asset)
    (dates : list date) (news_data : option News) (g : rng)
    : result (DataFrame * rng) :=
  match news_data with
  | None => simulate_news_sentiment tickers dates g
  | Some _ =>
      Ok (fold_left
            (fun st d => fold_left (fill_cell d) tickers st)
            dates
            (new_frame dates tickers, g))
  end.

End Scores.

(* ================================================================== *)
(** ** Step 5: the weights the buy-and-hold loop prints *)
(* ================================================================== *)

(** The [weights] dict of day [t], for the value just appended to
    [portfolio_value]; the prices it reads were read without error when
    the total was summed. *)
Definition hold_weights (price_data : DataFrame) (t : nat)
    (shares : list (asset * num)) (value : num) : list (asset * num) :=
  map (fun holding =>
         (fst holding,
          if isna (cell price_data t (fst holding)) then zero
          else (snd holding * cell price_data t (fst holding) / value)%num))
      shares.

(** The entries the printed line lists: [if weights[stock] > 0]. *)
Definition hold_weights_listed (price_data : DataFrame) (t : nat)
    (shares : list (asset * num)) (value : num) : list (asset * num) :=
  filter (fun w => ltb zero (snd w)) (hold_weights price_data t shares value).

(* ================================================================== *)
(** ** Main execution *)
(* ================================================================== *)

Definition START_DATE : date := "2025-01-21"%string.
Definition END_DATE : date := "2025-02-28"%string.

Definition NIFTY_50_TICKERS : list asset :=
  ["RELIANCE.NS"; "HDFCBANK.NS"; "INFY.NS"; "ICICIBANK.NS"; "TCS.NS";
   "KOTAKBANK.NS"; "HINDUNILVR.NS"; "SBIN.NS"; "BAJFINANCE.NS";
   "BHARTIARTL.NS"; "ASIANPAINT.NS"; "ITC.NS"; "AXISBANK.NS"; "LT.NS";
   "MARUTI.NS"]%string.

(** [df.empty]: an axis of length 0. *)
Definition empty (df : DataFrame) : bool :=
  (len df =? 0) || (length (columns df) =? 0).

Section Main.

Context {K : Argsort} {M : MathLib} {P : PriceSource} {R : RandomState}.

(** [main], without its printing and plotting: [None] stands for the
    early return after "No data fetched", and otherwise the two metric
    dicts are returned, the sentiment strategy's first. *)
Definition main (g : rng) : result (option (MetricsRecord * MetricsRecord)) :=
  let price_data := fetch_stock_data NIFTY_50_TICKERS START_DATE END_DATE in
  if empty price_data then Ok None
  else
    scores <- compute_daily_sentiment (News := unit) NIFTY_50_TICKERS
                (index price_data) None g ;;
    let sentiment_data := fst scores in
    out <- sentiment_trading_strategy price_data sentiment_data ;;
    bh_portfolio <- buy_and_hold_strategy price_data ;;
    sentiment_metrics <-
      calculate_metrics (portfolio_df out) default_risk_free_rate ;;
    bh_metrics <- calculate_metrics bh_portfolio default_risk_free_rate ;;
    Ok (Some (sentiment_metrics, bh_metrics)).

End Main.

(* ================================================================== *)
(** ** Vocabulary of the properties *)
(* ================================================================== *)

(** The two frames fit together: there is a first date, every day the
    loop visits has a row of scores and every scored asset has a price
    column. *)
Definition aligned (price_data sentiment_data : DataFrame) : Prop :=
  0 < len price_data /\
  len price_data - 1 <= len sentiment_data /\
  incl (columns sentiment_data) (columns price_data).

(** The candidates of day [t] that have a price on day [t]. *)
Definition valid_stocks_at {K : Argsort} (price_data sentiment_data : DataFrame)
    (t : nat) : list asset :=
  filter (fun stock => negb (isna (cell price_data t stock)))
         (top_stocks_of (row_of sentiment_data t)).

(** A degenerate day: no candidate has a price. *)
Definition degenerate {K : Argsort} (price_data sentiment_data : DataFrame)
    (t : nat) : bool :=
  length (valid_stocks_at price_data sentiment_data t) =? 0.

(** The return of one held asset over day [t], and the portfolio return
    the inner loop accumulates over the held assets, as plain
    functions of the price table. *)
Definition stock_return_at (price_data : DataFrame) (t : nat) (stock : asset)
    : num :=
  ((cell price_data (t + 1) stock - cell price_data t stock)
   / cell price_data t stock)%num.

Definition portfolio_return_at (price_data : DataFrame) (t : nat)
    (valid_stocks : list asset) : num :=
  fold_left
    (fun portfolio_return stock =>
       if isna (cell price_data (t + 1) stock) then portfolio_return
       else (portfolio_return
             + stock_return_at price_data t stock
               / of_nat (length valid_stocks))%num)
    valid_stocks zero.

(** The share counts bought on the first date and the value of the
    holdings on day [t], as plain functions of the price table. *)
Definition shares_of (price_data : DataFrame) : list (asset * num) :=
  map (fun stock =>
         (stock,
          (of_Z INITIAL_CAPITAL / of_nat (length (columns price_data))
           / cell price_data 0 stock)%num))
      (columns price_data).

Definition holdings_value (price_data : DataFrame) (t : nat)
    (shares : list (asset * num)) : num :=
  fold_left
    (fun total holding =>
       if isna (cell price_data t (fst holding)) then total
       else (total + snd holding * cell price_data t (fst holding))%num)
    shares zero.

(** The value the buy-and-hold loop appends on day [t], given the value
    of the day before. *)
Definition held_value (price_data : DataFrame) (t : nat) (previous : num)
    : num :=
  let total_value := holdings_value price_data t (shares_of price_data) in
  if ltb zero total_value then total_value
  else if 0 <? t then previous
  else of_Z INITIAL_CAPITAL.

(** One number ranks strictly before another in the descending order
    with the missing ones last. *)
Definition outranks (x y : num) : bool :=
  ltb y x || (isna y && negb (isna x)).

(** Positions [i] then [j] respect the descending order of the keys. *)
Definition descending (keys : list num) (i j : nat) : Prop :=
  outranks (key_at keys j) (key_at keys i) = false.

(** They respect it and, on a tie, the input order. *)
Definition descending_stable (keys : list num) (i j : nat) : Prop :=
  outranks (key_at keys i) (key_at keys j) = true \/
  (outranks (key_at keys j) (key_at keys i) = false /\ i < j).

(** A present price is a positive number. *)
Definition positive_price (p : num) : Prop :=
  p = NaN \/ exists q, p = Fin q /\ (0 < q)%Qc.

Definition positive_prices (price_data : DataFrame) : Prop :=
  forall t stock, t < len price_data -> In stock (columns price_data) ->
    positive_price (cell price_data t stock).

(** A present price is a number that is not negative. *)
Definition nonnegative_price (p : num) : Prop :=
  p = NaN \/ exists q, p = Fin q /\ (0 <= q)%Qc.




(** A positive real number. *)
Definition positive_real (x : num) : Prop :=
  exists q, x = Fin q /\ (0 < q)%Qc.

(** Each value is at least the one before it. *)
Definition non_decreasing (xs : list num) : Prop :=
  Sorted (fun x y => leb x y = true) xs.

(** Reading a component off a result. *)
Definition result_map {A B : Type} (f : A -> B) (r : result A) : result B :=
  match r with
  | Ok a => Ok (f a)
  | Raise e => Raise e
  end.

(** An entry of a Series carries a score. *)
Definition scored (e : asset * num) : Prop := isna (snd e) = false.

(** Evaluation stand-in for the irrational routines: a few Newton
    steps for the square root, and no power. *)
Definition newton_sqrt (q : Qc) : Qc :=
  Nat.iter 6 (fun x => ((x + q / x) / Q2Qc 2)%Qc) (Q2Qc 1).

Definition eval_math : MathLib :=
  {| sqrt_pos := newton_sqrt; np_pow := fun _ _ => NaN |}.

(** Concrete tables. *)
Module Tables.

Open Scope string_scope.

Definition days2 : list date := ["2025-01-21"; "2025-01-22"].
Definition days3 : list date := ["2025-01-21"; "2025-01-22"; "2025-01-23"].

Definition AB : list asset := ["A"; "B"].
Definition ABC : list asset := ["A"; "B"; "C"].

(** The end-to-end scenario: A = 10, 11, 9; B = 20, 19, 22; C = 5. *)
Definition scenario_prices : DataFrame :=
  frame_of days3 ABC
    [[of_Z 10; of_Z 20; of_Z 5];
     [of_Z 11; of_Z 19; of_Z 5];
     [of_Z 9; of_Z 22; of_Z 5]].

(** Scores that favour A, then B, every day. *)
Definition scenario_scores : DataFrame :=
  frame_of days3 ABC
    [[of_Q (9 # 10); of_Q (5 # 10); of_Q (1 # 10)];
     [of_Q (9 # 10); of_Q (5 # 10); of_Q (1 # 10)];
     [of_Q (9 # 10); of_Q (5 # 10); of_Q (1 # 10)]].

(** A and B have no price on the first day. *)
Definition late_prices : DataFrame :=
  frame_of days3 ABC
    [[NaN; NaN; of_Z 5];
     [of_Z 10; of_Z 20; of_Z 5];
     [of_Z 11; of_Z 19; of_Z 5]].

(** A has no price on the second day. *)
Definition halt_prices : DataFrame :=
  frame_of days2 AB [[of_Z 10; of_Z 20]; [NaN; of_Z 22]].



(** A has no score, B has one. *)
Definition flat_prices : DataFrame :=
  frame_of days2 AB [[of_Z 100; of_Z 200]; [of_Z 100; of_Z 200]].

Definition partial_scores : DataFrame :=
  frame_of days2 AB [[NaN; of_Q (5 # 10)]; [NaN; of_Q (5 # 10)]].

(** Eighteen assets: A01 scores 3, A09 and A10 both score 2, all
    others 1. *)
Definition eighteen : list asset :=
  ["A01"; "A02"; "A03"; "A04"; "A05"; "A06"; "A07"; "A08"; "A09";
   "A10"; "A11"; "A12"; "A13"; "A14"; "A15"; "A16"; "A17"; "A18"].

Definition tied_scores : Series :=
  combine eighteen
    (map of_Z [3; 1; 1; 1; 1; 1; 1; 1; 2; 2; 1; 1; 1; 1; 1; 1; 1; 1]%Z).

(** Five assets: A01 scores 1, A02, A03 and A04 all score 2, A05
    scores 3. *)
Definition five_scores : Series :=
  combine ["A01"; "A02"; "A03"; "A04"; "A05"]
          (map of_Z [1; 2; 2; 2; 3]%Z).

(** A has no price on the first two days, B rises. *)
Definition gap_prices : DataFrame :=
  frame_of days3 AB
    [[NaN; of_Z 100];
     [NaN; of_Z 110];
     [of_Z 10; of_Z 120]].

End Tables.

(** ** More vocabulary *)

(** The price table in another unit: every price multiplied by [c]. *)
Definition scale_prices (c : Qc) (df : DataFrame) : DataFrame :=
  {| index := index df;
     columns := columns df;
     cell := fun t stock => (Fin c * cell df t stock)%num |}.

(** The days on which the loop of the sentiment strategy appends. *)
Definition step_days {K : Argsort} (price_data sentiment_data : DataFrame)
    : list nat :=
  filter (fun t => negb (degenerate price_data sentiment_data t))
         (seq 0 (len price_data - 1)).

(** A value compounded by a list of returns: the value, then the value
    after the first return, and so on. *)
Fixpoint compound (value : num) (returns : list num) : list num :=
  match returns with
  | [] => [value]
  | r :: rest => value :: compound (value * (one + r))%num rest
  end.

(** The price of an asset on day [t] relative to its price on the
    first date. *)
Definition price_relative (price_data : DataFrame) (t : nat)
    (stock : asset) : num :=
  (cell price_data t stock / cell price_data 0 stock)%num.

(** The growth factor of a list of returns: the product of one plus
    each return. *)
Definition growth (returns : list num) : num :=
  fold_left (fun acc r => (acc * (one + r))%num) returns one.

(** A score that is present: a real number in the range of the
    draws. *)
Definition unit_score (x : num) : Prop :=
  exists q, x = Fin q /\ in_unit_range q.

(** More concrete tables. *)
Module Cases.

Open Scope string_scope.

(** Scores for an asset C that the two-asset price tables do not
    have. *)
Definition stray_scores : DataFrame :=
  frame_of Tables.days2 ["C"; "A"] [[of_Z 1; of_Z 0]; [of_Z 1; of_Z 0]].

(** A score table without rows. *)
Definition no_scores : DataFrame := new_frame [] Tables.ABC.

(** No asset has a price on the second of three dates. *)
Definition closed_day_prices : DataFrame :=
  frame_of Tables.days3 Tables.AB
    [[of_Z 100; of_Z 200]; [NaN; NaN]; [of_Z 110; of_Z 190]].

(** B has no price on the second of three dates. *)
Definition thin_day_prices : DataFrame :=
  frame_of Tables.days3 Tables.AB
    [[of_Z 10; of_Z 20]; [of_Z 11; NaN]; [of_Z 12; of_Z 22]].

(** The scenario scores with other scores on the last date, and a
    further row. *)
Definition late_news_scores : DataFrame :=
  frame_of (Tables.days3 ++ ["2025-01-24"]) Tables.ABC
    [[of_Q (9 # 10); of_Q (5 # 10); of_Q (1 # 10)];
     [of_Q (9 # 10); of_Q (5 # 10); of_Q (1 # 10)];
     [of_Q (-1 # 10); NaN; of_Q (7 # 10)];
     [of_Q (3 # 10); of_Q (3 # 10); NaN]].

(** A generator that alternates between 1/2 and -1/2; its state counts
    the draws. *)
Definition alternating_draw (g : nat) : Qc :=
  if Nat.even g then Q2Qc (1 # 2) else Q2Qc (-1 # 2).

Fixpoint alternating_array (g n : nat) : list Qc * nat :=
  match n with
  | 0 => ([], g)
  | S n' =>
      let (draws, g') := alternating_array (S g) n' in
      (alternating_draw g :: draws, g')
  end.

Definition alternating_draws : RandomState :=
  {| rng := nat;
     uniform := fun g => (alternating_draw g, S g);
     uniform_array := alternating_array |}.

(** A download with a price of 100 for every ticker asked for, on two
    dates. *)
Definition steady_source : PriceSource :=
  fun tickers _ _ =>
    {| index := Tables.days2;
       columns := tickers;
       cell := fun _ _ => of_Z 100 |}.

(** A download whose second date is a holiday: no ticker has a price
    on it. *)
Definition holiday_source : PriceSource :=
  fun _ _ _ => closed_day_prices.

End Cases.


(** Moving an order statement on [Qc] to [Q], where [lra] works. *)
Ltac to_Q :=
  unfold Qcle, Qclt, Qcdiv, Qcminus, Qcplus, Qcmult, Qcopp, Qcinv, Q2Qc in *;
  cbn [this] in *;
  rewrite ?Qred_correct in *;
  change (inject_Z 0) with 0%Q in *;
  change (inject_Z 1) with 1%Q in *.

(* ================================================================== *)
(** * Properties *)
(* ================================================================== *)

(** ** Numbers *)

Lemma Qc_eqb_eq (a b : Qc) : Qc_eqb a b = true <-> a = b.
Proof.
  unfold Qc_eqb. rewrite Qceq_alt.
  destruct (a ?= b)%Qc; split; congruence.
Qed.

Lemma Qc_ltb_lt (a b : Qc) : Qc_ltb a b = true <-> (a < b)%Qc.
Proof.
  unfold Qc_ltb. rewrite Qclt_alt.
  destruct (a ?= b)%Qc; split; congruence.
Qed.

Lemma Qc_eqb_refl (a : Qc) : Qc_eqb a a = true.
Proof. now apply Qc_eqb_eq. Qed.

Lemma Qc_pos_neq0 (a : Qc) : (0 < a)%Qc -> a <> 0%Qc.
Proof. intros H E. subst. revert H. apply Qcle_not_lt, Qcle_refl. Qed.

Lemma Qc_eqb_neq (a b : Qc) : a <> b -> Qc_eqb a b = false.
Proof.
  intros H. destruct (Qc_eqb a b) eqn:E; [|reflexivity].
  apply Qc_eqb_eq in E. contradiction.
Qed.

(** ** Loops *)

Lemma for_each_app {S A : Type} (body : S -> A -> result S)
    (xs ys : list A) (s : S) :
  for_each body (xs ++ ys) s = (s' <- for_each body xs s ;; for_each body ys s').
Proof.
  revert s. induction xs as [|x xs IH]; intros s; simpl; [reflexivity|].
  destruct (body s x); simpl; auto.
Qed.

(** An item on which the body changes nothing can be dropped from the
    loop. *)
Lemma for_each_skip {S A : Type} (body : S -> A -> result S)
    (x : A) (before after : list A) (s : S) :
  (forall s', body s' x = Ok s') ->
  for_each body (before ++ x :: after) s = for_each body (before ++ after) s.
Proof.
  intros H. rewrite !for_each_app.
  destruct (for_each body before s); simpl; [|reflexivity].
  now rewrite H.
Qed.

(** ** Frame access *)

Lemma index_at_ok (df : DataFrame) (t : nat) :
  t < len df -> exists d, index_at df t = Ok d.
Proof.
  unfold index_at, len. intros H.
  destruct (nth_error (index df) t) eqn:E; [eauto|].
  apply nth_error_None in E. lia.
Qed.

Lemma has_column_In (df : DataFrame) (stock : asset) :
  has_column df stock = true <-> In stock (columns df).
Proof.
  unfold has_column. rewrite existsb_exists. split.
  - intros (c & Hc & E). apply String.eqb_eq in E. now subst.
  - intros H. exists stock. split; [assumption|apply String.eqb_refl].
Qed.

Lemma loc_ok (df : DataFrame) (t : nat) (stock : asset) :
  t < len df -> In stock (columns df) ->
  loc df t stock = Ok (cell df t stock).
Proof.
  intros Ht Hc. unfold loc.
  destruct (index_at_ok df t Ht) as (d & ->). simpl.
  apply has_column_In in Hc. now rewrite Hc.
Qed.

Lemma iloc_ok (df : DataFrame) (t : nat) :
  t < len df -> iloc df t = Ok (row_of df t).
Proof.
  unfold iloc. intros H. apply Nat.ltb_lt in H. now rewrite H.
Qed.

Lemma valid_among_ok (price_data : DataFrame) (t : nat) (stocks : list asset) :
  t < len price_data -> incl stocks (columns price_data) ->
  valid_among price_data t stocks
  = Ok (filter (fun stock => negb (isna (cell price_data t stock))) stocks).
Proof.
  intros Ht. induction stocks as [|s rest IH]; intros Hin; simpl; [reflexivity|].
  rewrite loc_ok; [|assumption|apply Hin; now left]. simpl.
  rewrite IH by (intros x Hx; apply Hin; now right). simpl.
  now destruct (isna (cell price_data t s)).
Qed.

(** ** The inner loop: a held asset without a next price *)

Lemma add_stock_return_missing (price_data : DataFrame) (t : nat) (n : num)
    (portfolio_return : num) (stock : asset) :
  t + 1 < len price_data -> In stock (columns price_data) ->
  isna (cell price_data (t + 1) stock) = true ->
  add_stock_return price_data t n portfolio_return stock = Ok portfolio_return.
Proof.
  intros Ht Hc Hna. unfold add_stock_return.
  rewrite !loc_ok by (assumption || lia). simpl. now rewrite Hna.
Qed.

(** C4.  A held asset whose price on day t+1 is missing leaves the
    step's portfolio return as it was, without an error: the loop over
    the held assets gives the same return as the loop without that
    asset, while the divisor stays the number of all held assets, the
    asset included. *)
Theorem missing_next_price_contributes_zero
    (price_data : DataFrame) (t : nat) (stock : asset)
    (before after : list asset) :
  t + 1 < len price_data -> In stock (columns price_data) ->
  isna (cell price_data (t + 1) stock) = true ->
  let valid_stocks := before ++ stock :: after in
  let n := of_nat (length valid_stocks) in
  (forall portfolio_return,
      add_stock_return price_data t n portfolio_return stock
      = Ok portfolio_return) /\
  for_each (add_stock_return price_data t n) valid_stocks zero
  = for_each (add_stock_return price_data t n) (before ++ after) zero.
Proof.
  intros Ht Hc Hna valid_stocks n. split.
  - intros r. now apply add_stock_return_missing.
  - apply for_each_skip. intros r. now apply add_stock_return_missing.
Qed.

Lemma missing_next_price_witness :
  0 + 1 < len Tables.halt_prices /\
  In "A"%string (columns Tables.halt_prices) /\
  isna (cell Tables.halt_prices (0 + 1) "A"%string) = true /\
  let valid_stocks := [] ++ "A"%string :: ["B"%string] in
  let n := of_nat (length valid_stocks) in
  (forall portfolio_return,
      add_stock_return Tables.halt_prices 0 n portfolio_return "A"%string
      = Ok portfolio_return) /\
  for_each (add_stock_return Tables.halt_prices 0 n) valid_stocks zero
  = for_each (add_stock_return Tables.halt_prices 0 n)
             ([] ++ ["B"%string]) zero.
Proof.
  assert (H1 : 0 + 1 < len Tables.halt_prices) by (unfold len; simpl; lia).
  assert (H2 : In "A"%string (columns Tables.halt_prices))
    by (simpl; now left).
  assert (H3 : isna (cell Tables.halt_prices (0 + 1) "A"%string) = true)
    by reflexivity.
  split; [exact H1|]. split; [exact H2|]. split; [exact H3|].
  exact (missing_next_price_contributes_zero Tables.halt_prices 0
           "A"%string [] ["B"%string] H1 H2 H3).
Defined.

(** ** The outer loop on a degenerate day *)

Section Degenerate.

Context {K : Argsort}.

Lemma filter_none {A : Type} (f : A -> bool) (xs : list A) :
  (forall x, In x xs -> f x = false) -> filter f xs = [].
Proof.
  induction xs as [|x xs IH]; intros H; simpl; [reflexivity|].
  rewrite (H x) by now left. apply IH. intros y Hy. apply H. now right.
Qed.

Lemma rebalance_degenerate (price_data sentiment_data : DataFrame)
    (st : sim_state) (t : nat) :
  t < len sentiment_data -> t < len price_data ->
  (forall stock, In stock (top_stocks_of (row_of sentiment_data t)) ->
     In stock (columns price_data) /\ isna (cell price_data t stock) = true) ->
  rebalance price_data sentiment_data st t = Ok st.
Proof.
  intros Hs Hp Hall. unfold rebalance.
  rewrite iloc_ok by assumption. simpl.
  rewrite valid_among_ok;
    [|assumption|intros x Hx; now apply Hall]. simpl.
  rewrite filter_none; [reflexivity|].
  intros x Hx. destruct (Hall x Hx) as [_ ->]. reflexivity.
Qed.

End Degenerate.
Lemma Qc_ltb_ge (a b : Qc) : Qc_ltb a b = false <-> (b <= a)%Qc.
Proof.
  split; intros H.
  - apply Qcnot_lt_le. intros L. apply Qc_ltb_lt in L. congruence.
  - destruct (Qc_ltb a b) eqn:E; [|reflexivity].
    apply Qc_ltb_lt in E. exfalso. revert E. now apply Qcle_not_lt.
Qed.

Ltac num_cases :=
  repeat match goal with
         | x : num |- _ => destruct x
         end;
  unfold np_less, outranks, leb in *; simpl in *;
  rewrite ?orb_false_r, ?orb_true_r, ?andb_false_r, ?andb_true_r in *;
  try congruence; try reflexivity.

Lemma np_less_asym (a b : num) : np_less a b = true -> np_less b a = false.
Proof.
  num_cases. intros H. apply Qc_ltb_lt in H. apply Qc_ltb_ge.
  now apply Qclt_le_weak.
Qed.

Lemma np_less_le_trans (a b c : num) :
  np_less a b = true -> np_less c b = false -> np_less a c = true.
Proof.
  num_cases. intros H1 H2. apply Qc_ltb_lt in H1. apply Qc_ltb_ge in H2.
  apply Qc_ltb_lt. eapply Qclt_le_trans; eauto.
Qed.

(** ** Sorted lists *)

Section SortedFacts.

Context {A : Type}.

Lemma StronglySorted_app (R : A -> A -> Prop) (l1 l2 : list A) :
  StronglySorted R l1 -> StronglySorted R l2 ->
  (forall x y, In x l1 -> In y l2 -> R x y) ->
  StronglySorted R (l1 ++ l2).
Proof.
  intros H1 H2 H. induction H1 as [|a l Hl IH Ha]; simpl; [assumption|].
  constructor.
  - apply IH. intros x y Hx Hy. apply H; [now right|assumption].
  - apply Forall_app. split; [assumption|].
    apply Forall_forall. intros y Hy. apply H; [now left|assumption].
Qed.

Lemma StronglySorted_rev (R : A -> A -> Prop) (l : list A) :
  StronglySorted R l -> StronglySorted (fun x y => R y x) (rev l).
Proof.
  induction 1 as [|a l Hl IH Ha]; simpl; [constructor|].
  apply StronglySorted_app; [assumption|repeat constructor|].
  intros x y Hx [<-|[]]. apply in_rev in Hx.
  rewrite Forall_forall in Ha. now apply Ha.
Qed.

Lemma StronglySorted_map_in {B : Type} (f : B -> A)
    (R : A -> A -> Prop) (R' : B -> B -> Prop) (l : list B) :
  StronglySorted R' l ->
  (forall x y, In x l -> In y l -> R' x y -> R (f x) (f y)) ->
  StronglySorted R (map f l).
Proof.
  induction 1 as [|a l Hl IH Ha]; intros H; simpl; constructor.
  - apply IH. intros x y Hx Hy. apply H; now right.
  - apply Forall_forall. intros y Hy. apply in_map_iff in Hy.
    destruct Hy as (b & <- & Hb). rewrite Forall_forall in Ha.
    apply H; [now left|now right|now apply Ha].
Qed.

Lemma StronglySorted_weaken (R R' : A -> A -> Prop) (l : list A) :
  StronglySorted R l ->
  (forall x y, In x l -> In y l -> R x y -> R' x y) ->
  StronglySorted R' l.
Proof.
  intros H HR. rewrite <- (map_id l).
  eapply StronglySorted_map_in; eauto.
Qed.

Lemma StronglySorted_filter (R : A -> A -> Prop) (f : A -> bool) (l : list A) :
  StronglySorted R l -> StronglySorted R (filter f l).
Proof.
  induction 1 as [|a l Hl IH Ha]; simpl; [constructor|].
  destruct (f a); [|assumption]. constructor; [assumption|].
  rewrite Forall_forall in *. intros y Hy. apply filter_In in Hy.
  now apply Ha.
Qed.

Lemma StronglySorted_nth (R : A -> A -> Prop) (l : list A) (d : A) :
  StronglySorted R l ->
  forall i j, i < j -> j < length l -> R (nth i l d) (nth j l d).
Proof.
  induction 1 as [|a l Hl IH Ha]; intros i j Hij Hj; simpl in *; [lia|].
  destruct j as [|j]; [lia|]. destruct i as [|i].
  - rewrite Forall_forall in Ha. apply Ha, nth_In. lia.
  - apply IH; lia.
Qed.

Lemma filter_split_perm (f : A -> bool) (l : list A) :
  Permutation (filter f l ++ filter (fun x => negb (f x)) l) l.
Proof.
  induction l as [|a l IH]; simpl; [constructor|].
  destruct (f a); simpl.
  - now constructor.
  - apply Permutation_sym, Permutation_cons_app. now apply Permutation_sym.
Qed.

Lemma map_nth_seq (l : list A) (d : A) :
  map (fun k => nth k l d) (seq 0 (length l)) = l.
Proof.
  induction l as [|a l IH]; simpl; [reflexivity|].
  f_equal. rewrite <- seq_shift, map_map. exact IH.
Qed.

Lemma filter_positions (f : A -> bool) (l : list A) (d : A) :
  map (fun k => nth k l d)
      (filter (fun k => f (nth k l d)) (seq 0 (length l)))
  = filter f l.
Proof.
  assert (G : forall ks,
             map (fun k => nth k l d) (filter (fun k => f (nth k l d)) ks)
             = filter f (map (fun k => nth k l d) ks)).
  { induction ks as [|k ks IH]; simpl; [reflexivity|].
    destruct (f (nth k l d)); simpl; now rewrite IH. }
  now rewrite G, map_nth_seq.
Qed.

End SortedFacts.

Lemma In_firstn {A : Type} (n : nat) (l : list A) (x : A) :
  In x (firstn n l) -> In x l.
Proof.
  intros H. rewrite <- (firstn_skipn n l). apply in_or_app. now left.
Qed.

Lemma StronglySorted_seq (a n : nat) : StronglySorted lt (seq a n).
Proof.
  revert a. induction n as [|n IH]; intros a; simpl; constructor.
  - apply IH.
  - apply Forall_forall. intros y Hy. apply in_seq in Hy. lia.
Qed.

(** ** The descending ranking *)

Lemma outranks_np_less (x y : num) :
  isna x = false -> isna y = false -> outranks y x = np_less x y.
Proof. destruct x, y; simpl; intros; try discriminate; reflexivity. Qed.

Lemma key_at_map (items : list num) (idx : list nat) (k : nat) :
  k < length idx ->
  key_at (map (key_at items) idx) k = key_at items (nth k idx 0).
Proof.
  intros H. unfold key_at at 1.
  rewrite (nth_indep _ NaN (key_at items 0)) by (now rewrite length_map).
  apply map_nth.
Qed.

Lemma scored_positions_spec (items : list num) (i : nat) :
  In i (scored_positions items) <->
  i < length items /\ isna (key_at items i) = false.
Proof.
  unfold scored_positions. rewrite filter_In, in_seq, negb_true_iff.
  intuition lia.
Qed.

Lemma unscored_positions_spec (items : list num) (i : nat) :
  In i (unscored_positions items) <->
  i < length items /\ isna (key_at items i) = true.
Proof.
  unfold unscored_positions. rewrite filter_In, in_seq. intuition lia.
Qed.

Lemma positions_split (items : list num) :
  Permutation (scored_positions items ++ unscored_positions items)
              (seq 0 (length items)).
Proof.
  unfold scored_positions, unscored_positions.
  rewrite (filter_ext (fun i => isna (key_at items i))
                      (fun i => negb (negb (isna (key_at items i)))))
    by (intros; now rewrite negb_involutive).
  apply (filter_split_perm (fun i => negb (isna (key_at items i)))).
Qed.

Section RankingFacts.

Context {K : Argsort} {KS : ArgsortSpec K}.

Lemma argsort_in_range (keys : list num) (k : nat) :
  In k (argsort keys) -> k < length keys.
Proof.
  intros H. apply (Permutation_in _ (argsort_perm keys)) in H.
  apply in_seq in H. lia.
Qed.

Lemma indexer_perm (keys : list num) (idx : list nat) :
  length keys = length idx ->
  Permutation (map (fun k => nth k idx 0) (argsort keys)) idx.
Proof.
  intros H.
  eapply Permutation_trans; [apply Permutation_map, argsort_perm|].
  rewrite H, map_nth_seq. apply Permutation_refl.
Qed.

(** The ranking is the scored positions, rearranged, followed by the
    unscored ones in input order. *)
Lemma nargsort_desc_shape (items : list num) :
  exists ranked,
    nargsort_desc items = ranked ++ unscored_positions items /\
    Permutation ranked (scored_positions items) /\
    StronglySorted (descending items) ranked /\
    (ArgsortStable K -> StronglySorted (descending_stable items) ranked).
Proof.
  unfold nargsort_desc.
  set (sp := scored_positions items).
  set (idx := rev sp).
  assert (Ekeys : rev (map (key_at items) sp) = map (key_at items) idx)
    by (unfold idx; now rewrite map_rev).
  rewrite Ekeys.
  set (keys := map (key_at items) idx).
  assert (Hlen : length keys = length idx) by apply length_map.
  assert (Hperm := indexer_perm keys idx Hlen).
  set (indexer := map (fun k => nth k idx 0) (argsort keys)) in *.
  assert (Hscored : forall i, In i (rev indexer) ->
                              isna (key_at items i) = false).
  { intros i Hi. apply in_rev in Hi.
    apply (Permutation_in _ Hperm) in Hi. unfold idx in Hi.
    apply in_rev in Hi. now apply scored_positions_spec in Hi. }
  exists (rev indexer). split; [reflexivity|]. split; [|split].
  - etransitivity; [apply Permutation_sym, Permutation_rev|].
    etransitivity; [exact Hperm|]. apply Permutation_sym, Permutation_rev.
  - apply StronglySorted_weaken
      with (R := fun i j => np_less (key_at items i) (key_at items j) = false).
    + apply (StronglySorted_rev
               (fun i j => np_less (key_at items j) (key_at items i) = false)).
      apply StronglySorted_map_in with (R' := ascending keys);
        [apply argsort_sorted|].
      intros k k' Hk Hk' Hasc. unfold ascending in Hasc.
      apply argsort_in_range in Hk, Hk'.
      unfold keys in Hasc.
      now rewrite !key_at_map in Hasc by (rewrite <- Hlen; assumption).
    + intros i j Hi Hj H. unfold descending.
      now rewrite outranks_np_less by auto.
  - intros KT.
    apply StronglySorted_weaken
      with (R := fun i j =>
                   np_less (key_at items j) (key_at items i) = true \/
                   (np_less (key_at items i) (key_at items j) = false /\ i < j)).
    + apply (StronglySorted_rev
               (fun i j =>
                  np_less (key_at items i) (key_at items j) = true \/
                  (np_less (key_at items j) (key_at items i) = false /\ j < i))).
      apply StronglySorted_map_in with (R' := stable_ascending keys);
        [apply argsort_stable|].
      intros k k' Hk Hk' Hst.
      apply argsort_in_range in Hk, Hk'.
      unfold stable_ascending, keys in Hst.
      rewrite !key_at_map in Hst by (rewrite <- Hlen; assumption).
      destruct Hst as [Hst|[Hst Hlt]]; [now left|right].
      split; [assumption|].
      assert (Hdec : StronglySorted (fun x y => y < x) idx).
      { unfold idx. apply StronglySorted_rev.
        apply StronglySorted_filter, StronglySorted_seq. }
      apply (StronglySorted_nth _ _ 0 Hdec); [assumption|].
      now rewrite <- Hlen.
    + intros i j Hi Hj H. unfold descending_stable.
      now rewrite !outranks_np_less by auto.
Qed.

Lemma nargsort_desc_perm (items : list num) :
  Permutation (nargsort_desc items) (seq 0 (length items)).
Proof.
  destruct (nargsort_desc_shape items) as (ranked & -> & Hp & _).
  etransitivity; [|apply positions_split].
  now apply Permutation_app_tail.
Qed.

Lemma sort_values_desc_perm (s : Series) :
  Permutation (sort_values_desc s) s.
Proof.
  unfold sort_values_desc.
  eapply Permutation_trans;
    [apply Permutation_map, nargsort_desc_perm|].
  rewrite length_map, map_nth_seq. apply Permutation_refl.
Qed.

Lemma top_stocks_incl (s : Series) : incl (top_stocks_of s) (labels s).
Proof.
  unfold top_stocks_of, labels, head. intros x Hx.
  apply in_map_iff in Hx. destruct Hx as (e & <- & He).
  apply in_map. apply In_firstn in He.
  now apply (Permutation_in _ (sort_values_desc_perm s)).
Qed.

End RankingFacts.

(** ** The two sorting kernels *)

Lemma stable_ascending_ascending (keys : list num) (i j : nat) :
  stable_ascending keys i j -> ascending keys i j.
Proof.
  unfold stable_ascending, ascending. intros [H|[H _]]; [|assumption].
  now apply np_less_asym.
Qed.

Lemma insert_right_perm (keys : list num) (i : nat) (sorted : list nat) :
  Permutation (insert_right keys i sorted) (i :: sorted).
Proof.
  induction sorted as [|j rest IH]; simpl; [apply Permutation_refl|].
  destruct (np_less (key_at keys i) (key_at keys j)).
  - apply Permutation_refl.
  - etransitivity; [apply perm_skip, IH|apply perm_swap].
Qed.

Lemma insert_right_sorted (keys : list num) (i : nat) (sorted : list nat) :
  StronglySorted (stable_ascending keys) sorted ->
  (forall j, In j sorted -> j < i) ->
  StronglySorted (stable_ascending keys) (insert_right keys i sorted).
Proof.
  induction 1 as [|j rest Hrest IH Hj]; intros Hlt; simpl.
  - repeat constructor.
  - destruct (np_less (key_at keys i) (key_at keys j)) eqn:E.
    + constructor; [now constructor|]. constructor; [now left|].
      rewrite Forall_forall in *. intros j' Hj'. left.
      apply np_less_le_trans with (b := key_at keys j); [assumption|].
      now apply stable_ascending_ascending, Hj.
    + constructor.
      * apply IH. intros j' Hj'. apply Hlt. now right.
      * rewrite Forall_forall in *. intros j' Hj'.
        apply (Permutation_in _ (insert_right_perm keys i rest)) in Hj'.
        destruct Hj' as [<-|Hj']; [|now apply Hj].
        right. split; [assumption|]. apply Hlt. now left.
Qed.

Lemma insert_right_ascending (keys : list num) (i : nat) (sorted : list nat) :
  StronglySorted (ascending keys) sorted ->
  StronglySorted (ascending keys) (insert_right keys i sorted).
Proof.
  induction 1 as [|j rest Hrest IH Hj]; simpl.
  - repeat constructor.
  - destruct (np_less (key_at keys i) (key_at keys j)) eqn:E.
    + constructor; [now constructor|].
      constructor; [now apply np_less_asym|].
      rewrite Forall_forall in *. intros j' Hj'.
      apply np_less_asym.
      apply np_less_le_trans with (b := key_at keys j); [assumption|].
      now apply Hj.
    + constructor; [assumption|].
      rewrite Forall_forall in *. intros j' Hj'.
      apply (Permutation_in _ (insert_right_perm keys i rest)) in Hj'.
      destruct Hj' as [<-|Hj']; [assumption|now apply Hj].
Qed.

Lemma insertion_fold_spec (keys : list num) (ps acc : list nat) :
  StronglySorted (ascending keys) acc ->
  Permutation
    (fold_left (fun sorted i => insert_right keys i sorted) ps acc)
    (ps ++ acc) /\
  StronglySorted (ascending keys)
    (fold_left (fun sorted i => insert_right keys i sorted) ps acc).
Proof.
  revert acc. induction ps as [|p ps IH]; intros acc Hacc; simpl.
  - split; [apply Permutation_refl|assumption].
  - destruct (IH (insert_right keys p acc)) as [Hp Hs];
      [now apply insert_right_ascending|].
    split; [|assumption].
    etransitivity; [exact Hp|].
    etransitivity;
      [apply Permutation_app_head, insert_right_perm|].
    apply Permutation_sym, Permutation_middle.
Qed.

Lemma insertion_on_spec (keys : list num) (ps : list nat) :
  Permutation (insertion_on keys ps) ps /\
  StronglySorted (ascending keys) (insertion_on keys ps).
Proof.
  destruct (insertion_fold_spec keys ps []) as [Hp Hs];
    [constructor|].
  split; [|assumption]. now rewrite app_nil_r in Hp.
Qed.

(** Fed the positions in increasing order, insertion keeps equal keys
    in that order. *)
Lemma insertion_prefix (keys : list num) (k : nat) :
  StronglySorted (stable_ascending keys) (insertion_on keys (seq 0 k)).
Proof.
  unfold insertion_on.
  induction k as [|k IH]; [constructor|].
  rewrite seq_S, fold_left_app. cbn [fold_left Nat.add].
  apply insert_right_sorted; [assumption|].
  intros j Hj.
  apply (Permutation_in _ (proj1 (insertion_on_spec keys (seq 0 k)))) in Hj.
  apply in_seq in Hj. lia.
Qed.

Lemma insertion_argsort_stable : ArgsortStable insertion_argsort.
Proof. intros keys. apply insertion_prefix. Qed.

Lemma insertion_argsort_spec : ArgsortSpec insertion_argsort.
Proof. split; intros keys; apply insertion_on_spec. Qed.

Lemma filter_length_le {A : Type} (f : A -> bool) (l : list A) :
  length (filter f l) <= length l.
Proof.
  induction l as [|a l IH]; simpl; [lia|]. destruct (f a); simpl; lia.
Qed.

Lemma quicksort_from_spec (keys : list num) (fuel : nat) (ps : list nat) :
  length ps <= fuel ->
  Permutation (quicksort_from fuel keys ps) ps /\
  StronglySorted (ascending keys) (quicksort_from fuel keys ps).
Proof.
  revert ps. induction fuel as [|fuel IH]; intros ps Hlen.
  - destruct ps; simpl in *; [split; constructor|lia].
  - destruct ps as [|p0 ps0]; [split; constructor|].
    cbn [quicksort_from].
    set (ps := p0 :: ps0) in *.
    set (m := Nat.div2 (length ps)).
    set (p := nth m ps 0).
    set (others := firstn m ps ++ skipn (S m) ps).
    set (above := fun j => np_less (key_at keys p) (key_at keys j)).
    assert (Hm : m < length ps).
    { apply Nat.lt_div2. change (0 < S (length ps0)). lia. }
    assert (Hps : Permutation ps (p :: others)).
    { rewrite <- (firstn_skipn_middle m ps (x := p)) at 1
        by (now apply nth_error_nth').
      apply Permutation_sym, Permutation_middle. }
    assert (Hothers : length others <= fuel).
    { apply Permutation_length in Hps.
      change (length ps = S (length others)) in Hps. lia. }
    destruct (IH (filter (fun j => negb (above j)) others)) as [Lp Ls].
    { etransitivity; [apply filter_length_le|assumption]. }
    destruct (IH (filter above others)) as [Rp Rs].
    { etransitivity; [apply filter_length_le|assumption]. }
    split.
    + etransitivity; [|apply Permutation_sym, Hps].
      etransitivity; [apply Permutation_sym, Permutation_middle|].
      apply perm_skip.
      etransitivity; [apply Permutation_app; eassumption|].
      etransitivity; [apply Permutation_app_comm|].
      apply filter_split_perm.
    + apply StronglySorted_app; [assumption| |].
      * constructor; [assumption|].
        apply Forall_forall. intros y Hy.
        apply (Permutation_in _ Rp), filter_In in Hy.
        destruct Hy as [_ Hy]. now apply np_less_asym.
      * intros x y Hx Hy.
        apply (Permutation_in _ Lp), filter_In in Hx.
        destruct Hx as [_ Hx]. apply negb_true_iff in Hx.
        unfold above in Hx. unfold ascending.
        destruct Hy as [<-|Hy]; [assumption|].
        apply (Permutation_in _ Rp), filter_In in Hy.
        destruct Hy as [_ Hy]. unfold above in Hy.
        destruct (np_less (key_at keys y) (key_at keys x)) eqn:Eyx;
          [|reflexivity].
        apply np_less_asym in Eyx.
        rewrite (np_less_le_trans _ _ _ Hy Eyx) in Hx. discriminate.
Qed.

Lemma quicksort_argsort_spec : ArgsortSpec quicksort_argsort.
Proof.
  split; intros keys; unfold argsort, quicksort_argsort.
  - rewrite <- (length_seq (length keys) 0) at 1.
    apply quicksort_from_spec. now rewrite length_seq.
  - apply quicksort_from_spec. now rewrite length_seq.
Qed.

(** ** Ranking: order, ties and missing scores *)

Lemma score_at (s : Series) (i : nat) :
  key_at (map snd s) i = snd (nth i s (EmptyString, NaN)).
Proof. unfold key_at. apply (map_nth snd s (EmptyString, NaN)). Qed.

Section RankingOrder.

Context {K : Argsort} {KS : ArgsortSpec K}.

Lemma nargsort_desc_descending (items : list num) :
  StronglySorted (descending items) (nargsort_desc items).
Proof.
  destruct (nargsort_desc_shape items) as (ranked & -> & Hp & Hd & _).
  apply StronglySorted_app; [assumption| |].
  - apply StronglySorted_weaken with (R := lt).
    + apply StronglySorted_filter, StronglySorted_seq.
    + intros i j Hi Hj _. unfold descending.
      apply unscored_positions_spec in Hi, Hj.
      destruct Hi as [_ Hi], Hj as [_ Hj].
      destruct (key_at items i), (key_at items j); try discriminate.
      reflexivity.
  - intros i j Hi Hj. unfold descending.
    apply (Permutation_in _ Hp), scored_positions_spec in Hi.
    apply unscored_positions_spec in Hj.
    destruct Hi as [_ Hi], Hj as [_ Hj].
    destruct (key_at items i), (key_at items j); try discriminate;
      reflexivity.
Qed.

Lemma nargsort_desc_stable (items : list num) :
  ArgsortStable K ->
  StronglySorted (descending_stable items) (nargsort_desc items).
Proof.
  intros KT.
  destruct (nargsort_desc_shape items) as (ranked & -> & Hp & _ & Hd).
  apply StronglySorted_app; [now apply Hd| |].
  - apply StronglySorted_weaken with (R := lt).
    + apply StronglySorted_filter, StronglySorted_seq.
    + intros i j Hi Hj Hlt. right. split; [|assumption].
      apply unscored_positions_spec in Hi, Hj.
      destruct Hi as [_ Hi], Hj as [_ Hj].
      destruct (key_at items i), (key_at items j); try discriminate.
      reflexivity.
  - intros i j Hi Hj. left.
    apply (Permutation_in _ Hp), scored_positions_spec in Hi.
    apply unscored_positions_spec in Hj.
    destruct Hi as [_ Hi], Hj as [_ Hj].
    destruct (key_at items i), (key_at items j); try discriminate;
      reflexivity.
Qed.

Lemma sort_values_desc_shape (s : Series) :
  exists ranked,
    sort_values_desc s = ranked ++ filter (fun e => isna (snd e)) s /\
    Forall scored ranked /\
    length ranked = length (dropna (map snd s)).
Proof.
  unfold sort_values_desc.
  destruct (nargsort_desc_shape (map snd s)) as (ranked & -> & Hp & _).
  exists (map (fun i => nth i s (EmptyString, NaN)) ranked).
  rewrite map_app. split; [|split].
  - f_equal. unfold unscored_positions. rewrite length_map.
    rewrite (filter_ext _ (fun i => isna (snd (nth i s (EmptyString, NaN)))))
      by (intros i; now rewrite score_at).
    apply (filter_positions (fun e => isna (snd e))).
  - apply Forall_forall. intros e He. apply in_map_iff in He.
    destruct He as (i & <- & Hi).
    apply (Permutation_in _ Hp), scored_positions_spec in Hi.
    unfold scored. rewrite <- score_at. apply Hi.
  - rewrite length_map, (Permutation_length Hp).
    unfold dropna.
    rewrite <- (filter_positions (fun x => negb (isna x)) (map snd s) NaN).
    now rewrite length_map.
Qed.

End RankingOrder.

(** C5, as amended.  The daily ranking lists every position once, the
    scores never go up along it (assets without a score come last), and
    this holds for every sorting kernel.  Assets with equal scores keep
    their input order when the kernel is stable; the call leaves the
    kind at its default, so the order among ties is the kernel's. *)
Theorem ranking_is_descending (K : Argsort) (KS : ArgsortSpec K)
    (sentiment_today : Series) :
  let items := map snd sentiment_today in
  Permutation (sort_values_desc sentiment_today) sentiment_today /\
  Permutation (nargsort_desc items) (seq 0 (length items)) /\
  StronglySorted (descending items) (nargsort_desc items) /\
  (ArgsortStable K ->
   StronglySorted (descending_stable items) (nargsort_desc items)).
Proof.
  intros items. split; [|split; [|split]].
  - apply sort_values_desc_perm.
  - apply nargsort_desc_perm.
  - apply nargsort_desc_descending.
  - apply nargsort_desc_stable.
Qed.

Lemma ranking_is_descending_witness :
  let items := map snd Tables.tied_scores in
  Permutation (sort_values_desc (K := insertion_argsort) Tables.tied_scores)
              Tables.tied_scores /\
  Permutation (nargsort_desc (K := insertion_argsort) items)
              (seq 0 (length items)) /\
  StronglySorted (descending items)
                 (nargsort_desc (K := insertion_argsort) items) /\
  StronglySorted (descending_stable items)
                 (nargsort_desc (K := insertion_argsort) items).
Proof.
  destruct (ranking_is_descending insertion_argsort insertion_argsort_spec
                                  Tables.tied_scores)
    as (H1 & H2 & H3 & H4).
  split; [exact H1|]. split; [exact H2|]. split; [exact H3|].
  exact (H4 insertion_argsort_stable).
Defined.

(** C5 as stated fails: of five assets A05 scores 3 and A02, A03 and
    A04 all score 2.  A kernel that meets the contract of the sort
    orders the scores correctly and still ranks A03 before A02, so that
    A03 and not A02 enters the top two beside A05; under a stable
    kernel it is A02. *)
Lemma tie_break_counterexample :
  ArgsortSpec quicksort_argsort /\
  top_stocks_of (K := quicksort_argsort) Tables.five_scores
  = ["A05"; "A03"]%string /\
  top_stocks_of (K := insertion_argsort) Tables.five_scores
  = ["A05"; "A02"]%string /\
  ~ StronglySorted
      (descending_stable (map snd Tables.five_scores))
      (nargsort_desc (K := quicksort_argsort) (map snd Tables.five_scores)).
Proof.
  split; [exact quicksort_argsort_spec|].
  split; [vm_compute; reflexivity|].
  split; [vm_compute; reflexivity|].
  intros H.
  assert (E : nargsort_desc (K := quicksort_argsort)
                (map snd Tables.five_scores)
              = [4; 2; 1; 3; 0])
    by (vm_compute; reflexivity).
  rewrite E in H. clear E.
  apply StronglySorted_inv in H. destruct H as [H _].
  apply StronglySorted_inv in H. destruct H as [_ H].
  apply Forall_inv in H. destruct H as [H|[_ H]].
  - vm_compute in H. discriminate.
  - lia.
Qed.

(** C6, as amended.  The ranking puts every asset without a score after
    all assets with one, in input order; such an asset is among the
    top [TOP_N] only when fewer than [TOP_N] assets have a score. *)
Theorem unscored_assets_rank_last (K : Argsort) (KS : ArgsortSpec K)
    (sentiment_today : Series) :
  (exists ranked,
      sort_values_desc sentiment_today
      = ranked ++ filter (fun e => isna (snd e)) sentiment_today /\
      Forall scored ranked) /\
  (forall e,
      In e (head TOP_N (sort_values_desc sentiment_today)) ->
      isna (snd e) = true ->
      length (dropna (map snd sentiment_today)) < TOP_N).
Proof.
  destruct (sort_values_desc_shape sentiment_today)
    as (ranked & E & Hs & Hlen).
  split; [exists ranked; now split|].
  intros e He Hna. rewrite <- Hlen.
  destruct (Nat.lt_ge_cases (length ranked) TOP_N) as [|Hge]; [assumption|].
  exfalso. unfold head in He. rewrite E, firstn_app in He.
  replace (TOP_N - length ranked) with 0 in He by lia.
  rewrite firstn_0, app_nil_r in He.
  apply In_firstn in He. rewrite Forall_forall in Hs.
  apply Hs in He. unfold scored in He. congruence.
Qed.

Lemma unscored_assets_rank_last_witness :
  let sentiment_today := row_of Tables.partial_scores 0 in
  (exists ranked,
      sort_values_desc (K := insertion_argsort) sentiment_today
      = ranked ++ filter (fun e => isna (snd e)) sentiment_today /\
      Forall scored ranked) /\
  (forall e,
      In e (head TOP_N (sort_values_desc (K := insertion_argsort)
                                         sentiment_today)) ->
      isna (snd e) = true ->
      length (dropna (map snd sentiment_today)) < TOP_N).
Proof.
  exact (unscored_assets_rank_last insertion_argsort insertion_argsort_spec
                                   (row_of Tables.partial_scores 0)).
Defined.

(** C6 as stated fails: A has no score on the first day and B has one;
    the top two are B and A, and A is held with half of the capital. *)
Lemma unscored_asset_selected_counterexample :
  cell Tables.partial_scores 0 "A"%string = NaN /\
  top_stocks_of (K := insertion_argsort) (row_of Tables.partial_scores 0)
  = ["B"; "A"]%string /\
  result_map holdings_out
    (sentiment_trading_strategy (K := insertion_argsort)
       Tables.flat_prices Tables.partial_scores)
  = Ok [["B"; "A"]%string] /\
  result_map
    (fun out => map (map (fun w => (fst w, same (snd w) (of_Q (1 # 2)))))
                    (printed out))
    (sentiment_trading_strategy (K := insertion_argsort)
       Tables.flat_prices Tables.partial_scores)
  = Ok [[("B", true); ("A", true)]%string].
Proof. repeat split; vm_compute; reflexivity. Qed.

(** ** The loop of the sentiment strategy never raises *)

(** An invariant indexed by the items already visited. *)
Lemma for_each_inv {S A : Type} (body : S -> A -> result S)
    (I : list A -> S -> Prop) (items : list A) (s : S) :
  I [] s ->
  (forall visited x rest s, items = visited ++ x :: rest -> I visited s ->
     exists s', body s x = Ok s' /\ I (visited ++ [x]) s') ->
  exists s', for_each body items s = Ok s' /\ I items s'.
Proof.
  intros H0 Hstep.
  assert (G : forall rest visited s,
             items = visited ++ rest -> I visited s ->
             exists s', for_each body rest s = Ok s' /\ I items s').
  { induction rest as [|x rest IH]; intros visited s0 E Hs; simpl.
    - rewrite app_nil_r in E. subst. eauto.
    - destruct (Hstep visited x rest s0 E Hs) as (s1 & E1 & H1).
      rewrite E1. simpl. apply (IH (visited ++ [x])); [|assumption].
      now rewrite <- app_assoc. }
  now apply (G items []).
Qed.

(** The item of [range(n)] that follows [visited] is the number of
    items visited. *)
Lemma seq_split (n x : nat) (visited rest : list nat) :
  seq 0 n = visited ++ x :: rest -> x = length visited /\ x < n.
Proof.
  intros E.
  assert (Hlen : length visited < n).
  { rewrite <- (length_seq n 0), E, length_app. simpl. lia. }
  split; [|].
  - assert (Hnth := @seq_nth n 0 (length visited) 0 Hlen).
    rewrite E, nth_middle in Hnth. exact Hnth.
  - assert (Hx : In x (seq 0 n))
      by (rewrite E; apply in_or_app; right; now left).
    apply in_seq in Hx. lia.
Qed.

Lemma add_stock_returns_ok (price_data : DataFrame) (t : nat) (n : num)
    (stocks : list asset) (acc : num) :
  t + 1 < len price_data -> incl stocks (columns price_data) ->
  for_each (add_stock_return price_data t n) stocks acc
  = Ok (fold_left
          (fun portfolio_return stock =>
             if isna (cell price_data (t + 1) stock) then portfolio_return
             else (portfolio_return + stock_return_at price_data t stock / n)%num)
          stocks acc).
Proof.
  intros Ht. revert acc.
  induction stocks as [|s rest IH]; intros acc Hin; simpl; [reflexivity|].
  unfold add_stock_return at 1.
  rewrite !loc_ok by (try lia; apply Hin; now left). simpl.
  assert (Hrest : incl rest (columns price_data))
    by (intros x Hx; apply Hin; now right).
  destruct (isna (cell price_data (t + 1) s)); simpl; now rewrite IH.
Qed.

Section Totality.

Context {K : Argsort} {KS : ArgsortSpec K}.

Lemma top_stocks_in_columns (price_data sentiment_data : DataFrame) (t : nat) :
  incl (columns sentiment_data) (columns price_data) ->
  incl (top_stocks_of (row_of sentiment_data t)) (columns price_data).
Proof.
  intros Hcols x Hx. apply Hcols.
  apply top_stocks_incl in Hx. unfold labels, row_of in Hx.
  rewrite map_map in Hx. simpl in Hx. now rewrite map_id in Hx.
Qed.

(** What the body of the loop does on day [t]. *)
Lemma rebalance_eq (price_data sentiment_data : DataFrame)
    (st : sim_state) (t : nat) :
  t < len sentiment_data -> t + 1 < len price_data ->
  incl (columns sentiment_data) (columns price_data) ->
  let valid_stocks := valid_stocks_at price_data sentiment_data t in
  let value := last_of (portfolio_value st) in
  let portfolio_return := portfolio_return_at price_data t valid_stocks in
  let new_value := (value * (one + portfolio_return))%num in
  rebalance price_data sentiment_data st t
  = if degenerate price_data sentiment_data t then Ok st
    else Ok {| portfolio_value := portfolio_value st ++ [new_value];
               daily_returns := daily_returns st ++ [portfolio_return];
               holdings := holdings st ++ [valid_stocks];
               report :=
                 report st ++
                 [map (fun stock =>
                         (stock,
                          (value / of_nat (length valid_stocks) / new_value)%num))
                      valid_stocks] |}.
Proof.
  intros Hs Hp Hcols valid_stocks value portfolio_return new_value.
  unfold rebalance. rewrite iloc_ok by assumption. cbn [bind].
  rewrite valid_among_ok;
    [|lia|now apply top_stocks_in_columns]. cbn [bind].
  change (filter (fun stock => negb (isna (cell price_data t stock)))
                 (top_stocks_of (row_of sentiment_data t)))
    with valid_stocks.
  unfold degenerate.
  change (valid_stocks_at price_data sentiment_data t) with valid_stocks.
  destruct (length valid_stocks =? 0); [reflexivity|].
  rewrite add_stock_returns_ok; [|assumption|].
  - cbn [bind]. unfold last_of at 3. rewrite last_last. reflexivity.
  - intros x Hx. unfold valid_stocks, valid_stocks_at in Hx.
    apply filter_In in Hx. destruct Hx as [Hx _].
    revert x Hx. now apply top_stocks_in_columns.
Qed.

End Totality.

(** ** The whole run of the sentiment strategy *)

Section Run.

Context {K : Argsort} {KS : ArgsortSpec K}.

(** The loop ends without an exception; its four lists grow by one on
    each day that is not degenerate; and any property of the state
    that the body preserves holds at the end. *)
Lemma run_invariant (price_data sentiment_data : DataFrame)
    (J : sim_state -> Prop) :
  aligned price_data sentiment_data ->
  J initial_state ->
  (forall st t st', t < len price_data - 1 -> J st ->
     rebalance price_data sentiment_data st t = Ok st' -> J st') ->
  exists st,
    for_each (rebalance price_data sentiment_data)
             (seq 0 (len price_data - 1)) initial_state = Ok st /\
    J st /\
    let steps :=
      filter (fun t => negb (degenerate price_data sentiment_data t))
             (seq 0 (len price_data - 1)) in
    length (holdings st) = length steps /\
    length (portfolio_value st) = S (length steps) /\
    length (daily_returns st) = length steps /\
    length (report st) = length steps.
Proof.
  intros (Hlen & Hrows & Hcols) J0 Jstep.
  destruct (for_each_inv (rebalance price_data sentiment_data)
              (fun visited st =>
                 let steps :=
                   filter (fun t =>
                             negb (degenerate price_data sentiment_data t))
                          visited in
                 J st /\
                 length (holdings st) = length steps /\
                 length (portfolio_value st) = S (length steps) /\
                 length (daily_returns st) = length steps /\
                 length (report st) = length steps)
              (seq 0 (len price_data - 1)) initial_state)
    as (st & E & H).
  - simpl. auto.
  - intros visited t rest st Ht (HJ & Hh & Hv & Hd & Hr).
    apply seq_split in Ht. destruct Ht as [_ Ht].
    assert (E := rebalance_eq price_data sentiment_data st t).
    cbv zeta in E. rewrite E by (assumption || lia).
    cbv zeta in *. rewrite filter_app. simpl.
    destruct (degenerate price_data sentiment_data t) eqn:D; simpl.
    + exists st. rewrite app_nil_r. repeat split; assumption.
    + eexists. split; [reflexivity|]. simpl.
      rewrite !length_app. simpl.
      repeat split; try lia.
      apply (Jstep st t); [lia|exact HJ|].
      now rewrite E by (assumption || lia).
  - exists st. split; [assumption|].
    destruct H as (HJ & Hh & Hv & Hd & Hr). cbv zeta in *. tauto.
Qed.

(** What the function returns, in terms of the final state of its
    loop. *)
Lemma strategy_eq (price_data sentiment_data : DataFrame) (st : sim_state) :
  0 < len price_data ->
  for_each (rebalance price_data sentiment_data)
           (seq 0 (len price_data - 1)) initial_state = Ok st ->
  length (portfolio_value st) <= len price_data ->
  length (daily_returns st) + 1 = length (portfolio_value st) ->
  sentiment_trading_strategy price_data sentiment_data
  = Ok {| portfolio_df :=
            {| Date := firstn (length (portfolio_value st)) (index price_data);
               Portfolio_Value := portfolio_value st;
               Daily_Return := zero :: daily_returns st |};
          holdings_out := holdings st;
          printed := report st |}.
Proof.
  intros Hlen E Hle Hdr. unfold sentiment_trading_strategy.
  destruct (index_at_ok price_data 0 Hlen) as (d & ->). cbn [bind].
  rewrite E. cbn [bind]. unfold make_portfolio_df.
  rewrite length_firstn. fold (len price_data).
  replace (Nat.min (length (portfolio_value st)) (len price_data))
    with (length (portfolio_value st)) by lia.
  rewrite Nat.eqb_refl. cbn [length andb].
  replace (length (portfolio_value st) =? S (length (daily_returns st)))
    with true by (symmetry; apply Nat.eqb_eq; lia).
  reflexivity.
Qed.

End Run.

(** C3, as amended.  On aligned tables the function returns, and the
    value series has one entry more than there are days that are not
    degenerate, the holdings one entry for each such day; with no
    degenerate day that is one value per date and one holdings record
    per transition. *)
Theorem output_lengths (K : Argsort) (KS : ArgsortSpec K)
    (price_data sentiment_data : DataFrame) :
  aligned price_data sentiment_data ->
  exists out,
    sentiment_trading_strategy price_data sentiment_data = Ok out /\
    let steps :=
      filter (fun t => negb (degenerate price_data sentiment_data t))
             (seq 0 (len price_data - 1)) in
    length (Portfolio_Value (portfolio_df out)) = S (length steps) /\
    length (Daily_Return (portfolio_df out)) = S (length steps) /\
    length (Date (portfolio_df out)) = S (length steps) /\
    length (holdings_out out) = length steps /\
    ((forall t, t < len price_data - 1 ->
                degenerate price_data sentiment_data t = false) ->
     length (Portfolio_Value (portfolio_df out)) = len price_data /\
     length (holdings_out out) = len price_data - 1).
Proof.
  intros Hal.
  destruct (run_invariant price_data sentiment_data (fun _ => True) Hal I)
    as (st & E & _ & Hh & Hv & Hd & Hr); [auto|].
  cbv zeta in *.
  set (steps := filter _ _) in *.
  assert (Hsteps : length steps <= len price_data - 1).
  { unfold steps. etransitivity; [apply filter_length_le|].
    now rewrite length_seq. }
  destruct Hal as (Hlen & _).
  eexists. split; [apply strategy_eq with (st := st); try assumption; lia|].
  simpl. rewrite length_firstn. fold (len price_data).
  repeat split; try lia.
  - assert (Hall : steps = seq 0 (len price_data - 1)).
    { unfold steps. apply forallb_filter_id. apply forallb_forall.
      intros t Ht. apply in_seq in Ht. rewrite H by lia. reflexivity. }
    rewrite Hv, Hall, length_seq. lia.
  - assert (Hall : steps = seq 0 (len price_data - 1)).
    { unfold steps. apply forallb_filter_id. apply forallb_forall.
      intros t Ht. apply in_seq in Ht. rewrite H by lia. reflexivity. }
    rewrite Hh, Hall, length_seq. lia.
Qed.

(** ** Reported weights *)

Lemma nat_Qc_pos (n : nat) :
  0 < n -> (0 < Q2Qc (inject_Z (Z.of_nat n)))%Qc.
Proof. intros H. to_Q. unfold Qlt. simpl. lia. Qed.

Lemma nat_Qc_succ (n : nat) :
  Q2Qc (inject_Z (Z.of_nat (S n)))
  = (Q2Qc (inject_Z (Z.of_nat n)) + Q2Qc 1)%Qc.
Proof.
  apply Qc_is_canon. to_Q.
  rewrite Nat2Z.inj_succ. unfold Z.succ. rewrite inject_Z_plus.
  reflexivity.
Qed.

(** The sum of equal finite terms. *)
Lemma total_fin_copies {A : Type} (q acc : Qc) (l : list A) :
  fold_left add (map (fun _ => Fin q) l) (Fin acc)
  = Fin (acc + Q2Qc (inject_Z (Z.of_nat (length l))) * q)%Qc.
Proof.
  revert acc. induction l as [|x l IH]; intros acc.
  - simpl. f_equal. change (Q2Qc (inject_Z 0)) with 0%Qc. ring.
  - cbn [map fold_left length add]. rewrite IH, nat_Qc_succ.
    f_equal. change (Q2Qc 1) with 1%Qc. ring.
Qed.


Lemma sgn_div_pos (a n : Qc) :
  (0 < n)%Qc -> ((a / n ?= 0) = (a ?= 0))%Qc.
Proof.
  intros Hn.
  assert (Hinv : (0 < / n)%Q) by (apply Qinv_lt_0_compat; exact Hn).
  destruct (Qc_dec a 0) as [[Hlt|Hgt]|Heq].
  - rewrite (proj1 (Qclt_alt a 0) Hlt). apply (proj1 (Qclt_alt _ _)).
    to_Q. apply (Qmult_lt_compat_r _ _ _ Hinv) in Hlt. lra.
  - rewrite (proj1 (Qcgt_alt a 0) Hgt). apply (proj1 (Qcgt_alt _ _)).
    to_Q. apply (Qmult_lt_compat_r _ _ _ Hinv) in Hgt. lra.
  - subst. rewrite (proj1 (Qceq_alt 0 0) eq_refl). apply (proj1 (Qceq_alt _ _)).
    unfold Qcdiv. ring.
Qed.


Lemma output_lengths_witness :
  aligned Tables.scenario_prices Tables.scenario_scores /\
  exists out,
    sentiment_trading_strategy (K := insertion_argsort)
      Tables.scenario_prices Tables.scenario_scores = Ok out /\
    let steps :=
      filter (fun t => negb (degenerate (K := insertion_argsort)
                               Tables.scenario_prices
                               Tables.scenario_scores t))
             (seq 0 (len Tables.scenario_prices - 1)) in
    length (Portfolio_Value (portfolio_df out)) = S (length steps) /\
    length (Daily_Return (portfolio_df out)) = S (length steps) /\
    length (Date (portfolio_df out)) = S (length steps) /\
    length (holdings_out out) = length steps /\
    ((forall t, t < len Tables.scenario_prices - 1 ->
                degenerate (K := insertion_argsort) Tables.scenario_prices
                           Tables.scenario_scores t = false) ->
     length (Portfolio_Value (portfolio_df out))
     = len Tables.scenario_prices /\
     length (holdings_out out) = len Tables.scenario_prices - 1).
Proof.
  assert (Hal : aligned Tables.scenario_prices Tables.scenario_scores).
  { repeat split; [unfold len; simpl; lia|unfold len; simpl; lia|apply incl_refl]. }
  split; [exact Hal|].
  exact (output_lengths insertion_argsort insertion_argsort_spec
                        Tables.scenario_prices Tables.scenario_scores Hal).
Defined.

(** C3 as stated fails: three dates, and on the first one neither of
    the two candidates has a price; the value series has two entries
    and there is one holdings record. *)
Lemma output_lengths_counterexample :
  aligned Tables.late_prices Tables.scenario_scores /\
  len Tables.late_prices = 3 /\
  result_map
    (fun out => (length (Portfolio_Value (portfolio_df out)),
                 length (holdings_out out)))
    (sentiment_trading_strategy (K := insertion_argsort)
       Tables.late_prices Tables.scenario_scores)
  = Ok (2, 1).
Proof.
  split; [|split; vm_compute; reflexivity].
  repeat split; [unfold len; simpl; lia|unfold len; simpl; lia|apply incl_refl].
Qed.

(** C2, as amended.  On a day on which every candidate lacks a price
    the body of the loop returns its state unchanged, without an
    exception: the running value is carried into the next day, and no
    value, no return and no holdings record is appended, so the run is
    the run without that day. *)
Theorem degenerate_day_is_skipped (K : Argsort) (KS : ArgsortSpec K)
    (price_data sentiment_data : DataFrame) (t : nat) :
  aligned price_data sentiment_data ->
  t < len price_data - 1 ->
  (forall stock, In stock (top_stocks_of (row_of sentiment_data t)) ->
                 isna (cell price_data t stock) = true) ->
  degenerate price_data sentiment_data t = true /\
  (forall st, rebalance price_data sentiment_data st t = Ok st) /\
  (forall before after st,
      for_each (rebalance price_data sentiment_data)
               (before ++ t :: after) st
      = for_each (rebalance price_data sentiment_data)
                 (before ++ after) st).
Proof.
  intros (Hlen & Hrows & Hcols) Ht Hall.
  assert (Hstep : forall st, rebalance price_data sentiment_data st t = Ok st).
  { intros st. apply rebalance_degenerate; [lia|lia|].
    intros stock Hs. split; [|now apply Hall].
    revert stock Hs. now apply top_stocks_in_columns. }
  split; [|split].
  - unfold degenerate, valid_stocks_at.
    rewrite filter_none; [reflexivity|].
    intros stock Hs. now rewrite Hall.
  - exact Hstep.
  - intros before after st. now apply for_each_skip.
Qed.

Lemma degenerate_day_is_skipped_witness :
  aligned Tables.late_prices Tables.scenario_scores /\
  0 < len Tables.late_prices - 1 /\
  (forall stock,
      In stock (top_stocks_of (K := insertion_argsort)
                              (row_of Tables.scenario_scores 0)) ->
      isna (cell Tables.late_prices 0 stock) = true) /\
  degenerate (K := insertion_argsort)
             Tables.late_prices Tables.scenario_scores 0 = true /\
  (forall st,
      rebalance (K := insertion_argsort)
                Tables.late_prices Tables.scenario_scores st 0 = Ok st) /\
  (forall before after st,
      for_each (rebalance (K := insertion_argsort)
                          Tables.late_prices Tables.scenario_scores)
               (before ++ 0 :: after) st
      = for_each (rebalance (K := insertion_argsort)
                            Tables.late_prices Tables.scenario_scores)
                 (before ++ after) st).
Proof.
  assert (Hal : aligned Tables.late_prices Tables.scenario_scores).
  { repeat split; [unfold len; simpl; lia|unfold len; simpl; lia|apply incl_refl]. }
  assert (Ht : 0 < len Tables.late_prices - 1) by (unfold len; simpl; lia).
  assert (Hall : forall stock,
             In stock (top_stocks_of (K := insertion_argsort)
                                     (row_of Tables.scenario_scores 0)) ->
             isna (cell Tables.late_prices 0 stock) = true).
  { intros stock H. vm_compute in H.
    destruct H as [<-|[<-|[]]]; reflexivity. }
  split; [exact Hal|]. split; [exact Ht|]. split; [exact Hall|].
  exact (degenerate_day_is_skipped insertion_argsort insertion_argsort_spec
           Tables.late_prices Tables.scenario_scores 0 Hal Ht Hall).
Defined.

(** C2 as stated fails: the first day is degenerate, yet the frame has
    no entry that repeats the first value with a return of 0; its
    second entry, dated with the second day, is the value after the
    second day's step, 102500, with that step's return. *)
Lemma degenerate_day_counterexample :
  degenerate (K := insertion_argsort)
             Tables.late_prices Tables.scenario_scores 0 = true /\
  result_map
    (fun out => Date (portfolio_df out))
    (sentiment_trading_strategy (K := insertion_argsort)
       Tables.late_prices Tables.scenario_scores)
  = Ok ["2025-01-21"; "2025-01-22"]%string /\
  result_map
    (fun out => map (fun v => same v (of_Z 100000))
                    (Portfolio_Value (portfolio_df out)))
    (sentiment_trading_strategy (K := insertion_argsort)
       Tables.late_prices Tables.scenario_scores)
  = Ok [true; false] /\
  result_map
    (fun out => map (fun v => same v (of_Z 102500))
                    (Portfolio_Value (portfolio_df out)))
    (sentiment_trading_strategy (K := insertion_argsort)
       Tables.late_prices Tables.scenario_scores)
  = Ok [false; true] /\
  result_map
    (fun out => map (fun r => same r zero) (Daily_Return (portfolio_df out)))
    (sentiment_trading_strategy (K := insertion_argsort)
       Tables.late_prices Tables.scenario_scores)
  = Ok [true; false].
Proof. repeat split; vm_compute; reflexivity. Qed.


Lemma last_of_snoc (xs : list num) (x : num) : last_of (xs ++ [x]) = x.
Proof. apply last_last. Qed.




(** ** Buy and hold *)

Lemma initial_shares_ok (price_data : DataFrame) (per_stock : num)
    (stocks : list asset) :
  0 < len price_data -> incl stocks (columns price_data) ->
  map_result
    (fun stock =>
       p0 <- loc price_data 0 stock ;;
       Ok (stock, (per_stock / p0)%num))
    stocks
  = Ok (map (fun stock => (stock, (per_stock / cell price_data 0 stock)%num))
            stocks).
Proof.
  intros Hlen. induction stocks as [|s rest IH]; intros Hin; simpl;
    [reflexivity|].
  rewrite loc_ok; [|assumption|apply Hin; now left]. simpl.
  rewrite IH by (intros x Hx; apply Hin; now right). reflexivity.
Qed.

Lemma add_holdings_ok (price_data : DataFrame) (t : nat)
    (shares : list (asset * num)) (acc : num) :
  t < len price_data ->
  (forall h, In h shares -> In (fst h) (columns price_data)) ->
  for_each (add_holding price_data t) shares acc
  = Ok (fold_left
          (fun total holding =>
             if isna (cell price_data t (fst holding)) then total
             else (total + snd holding * cell price_data t (fst holding))%num)
          shares acc).
Proof.
  intros Ht. revert acc.
  induction shares as [|h rest IH]; intros acc Hin; simpl; [reflexivity|].
  unfold add_holding at 1.
  rewrite loc_ok; [|assumption|apply Hin; now left]. simpl.
  apply IH. intros x Hx. apply Hin. now right.
Qed.

Lemma shares_of_columns (price_data : DataFrame) (h : asset * num) :
  In h (shares_of price_data) -> In (fst h) (columns price_data).
Proof.
  unfold shares_of. intros H. apply in_map_iff in H.
  destruct H as (stock & <- & Hs). exact Hs.
Qed.

Lemma before_last_snoc (xs : list num) (x : num) :
  xs <> [] -> before_last (xs ++ [x]) = last_of xs.
Proof.
  intros H. unfold before_last, last_of.
  destruct (exists_last H) as (ys & y & ->).
  rewrite last_last, !length_app. simpl.
  replace (length ys + 1 + 1 - 2) with (length ys) by lia.
  rewrite <- app_assoc. simpl. now rewrite nth_middle.
Qed.

Lemma last_of_nth (xs : list num) :
  last_of xs = nth (length xs - 1) xs NaN.
Proof.
  unfold last_of. destruct xs as [|x xs]; [reflexivity|].
  destruct (exists_last (l := x :: xs)) as (ys & y & E); [discriminate|].
  rewrite E, last_last, length_app. simpl.
  replace (length ys + 1 - 1) with (length ys) by lia.
  now rewrite nth_middle.
Qed.

(** What the body of the loop does on day [t]. *)
Lemma revalue_eq (price_data : DataFrame) (t : nat)
    (portfolio_value daily_returns : list num) :
  t < len price_data -> length portfolio_value = t ->
  let value := held_value price_data t (last_of portfolio_value) in
  revalue price_data (shares_of price_data)
          (portfolio_value, daily_returns) t
  = Ok (portfolio_value ++ [value],
        daily_returns ++
        [if 0 <? t
         then ((value - last_of portfolio_value)
               / last_of portfolio_value)%num
         else zero]).
Proof.
  intros Ht Hlen value. unfold revalue.
  rewrite add_holdings_ok; [|assumption|apply shares_of_columns].
  cbn [bind]. fold (holdings_value price_data t (shares_of price_data)).
  fold (held_value price_data t (last_of portfolio_value)). fold value.
  rewrite last_of_snoc.
  destruct (Nat.ltb_spec 0 t) as [Hpos|Hz]; [|reflexivity].
  rewrite before_last_snoc; [reflexivity|].
  intros ->. simpl in Hlen. lia.
Qed.

(** The frame [buy_and_hold_strategy] returns, by its recurrence: the
    value of a day is the value of the holdings when that is positive,
    and else the value of the day before (the initial capital on the
    first day). *)
Lemma buy_and_hold_eq (price_data : DataFrame) :
  columns price_data <> [] -> 0 < len price_data ->
  exists values returns,
    buy_and_hold_strategy price_data
    = Ok {| Date := index price_data;
            Portfolio_Value := values;
            Daily_Return := returns |} /\
    length values = len price_data /\
    length returns = len price_data /\
    forall t, t < len price_data ->
      nth t values NaN
      = held_value price_data t (nth (t - 1) values NaN) /\
      nth t returns NaN
      = if 0 <? t
        then ((nth t values NaN - nth (t - 1) values NaN)
              / nth (t - 1) values NaN)%num
        else zero.
Proof.
  intros Hcols Hlen. unfold buy_and_hold_strategy.
  destruct (length (columns price_data) =? 0) eqn:E.
  { apply Nat.eqb_eq, length_zero_iff_nil in E. contradiction. }
  unfold initial_shares.
  rewrite initial_shares_ok; [|assumption|apply incl_refl].
  cbn [bind]. fold (shares_of price_data).
  destruct (for_each_inv (revalue price_data (shares_of price_data))
              (fun visited st =>
                 length (fst st) = length visited /\
                 length (snd st) = length visited /\
                 forall t, t < length visited ->
                   nth t (fst st) NaN
                   = held_value price_data t (nth (t - 1) (fst st) NaN) /\
                   nth t (snd st) NaN
                   = if 0 <? t
                     then ((nth t (fst st) NaN - nth (t - 1) (fst st) NaN)
                           / nth (t - 1) (fst st) NaN)%num
                     else zero)
              (seq 0 (len price_data)) ([], []))
    as ([values returns] & Erun & Hv & Hr & Hrec).
  - simpl. repeat split; try reflexivity; lia.
  - intros visited t rest [pv dr] Hsplit (Hv & Hr & Hrec).
    apply seq_split in Hsplit. destruct Hsplit as [Ht Hlt].
    cbn [fst snd] in *.
    assert (Erev := revalue_eq price_data t pv dr Hlt).
    cbv zeta in Erev. rewrite Erev by lia.
    eexists. split; [reflexivity|]. cbn [fst snd].
    rewrite !length_app. simpl.
    split; [lia|]. split; [lia|].
    intros t' Ht'.
    assert (Hlast : last_of pv = nth (t - 1) pv NaN)
      by (rewrite last_of_nth; f_equal; lia).
    destruct (Nat.eq_dec t' t) as [->|Hne].
    + rewrite (app_nth2 pv) by lia. rewrite (app_nth2 dr) by lia.
      replace (t - length pv) with 0 by lia.
      replace (t - length dr) with 0 by lia.
      cbn [nth].
      destruct (Nat.ltb_spec 0 t) as [Hpos|Hz].
      * rewrite (app_nth1 pv) by lia. rewrite <- Hlast. now split.
      * replace t with 0 by lia. split; [|reflexivity].
        unfold held_value. now replace (0 <? 0) with false by reflexivity.
    + rewrite !(app_nth1 pv) by lia. rewrite (app_nth1 dr) by lia.
      apply Hrec. lia.
  - rewrite Erun. cbn [bind fst snd] in *. unfold make_portfolio_df.
    rewrite length_seq in *. fold (len price_data).
    rewrite Hv, Hr, !Nat.eqb_refl. cbn [andb].
    exists values, returns. repeat split; try assumption; now apply Hrec.
Qed.

(** ** Values are never negative *)

Lemma hold_values_positive (price_data : DataFrame) (values : list num) :
  length values = len price_data ->
  (forall t, t < len price_data ->
     nth t values NaN
     = held_value price_data t (nth (t - 1) values NaN)) ->
  Forall (fun v => ltb zero v = true) values.
Proof.
  intros Hlen Hrec.
  assert (G : forall t, t < len price_data ->
                        ltb zero (nth t values NaN) = true).
  { induction t as [t IH] using lt_wf_ind. intros Ht.
    rewrite Hrec by assumption. unfold held_value.
    destruct (ltb zero (holdings_value price_data t (shares_of price_data)))
      eqn:E; [assumption|].
    destruct (Nat.ltb_spec 0 t) as [Hpos|Hz]; [apply IH; lia|reflexivity]. }
  apply Forall_forall. intros v Hv.
  destruct (In_nth values v NaN Hv) as (t & Ht & <-).
  apply G. lia.
Qed.

(** The return of a held asset is at least -1 when its price stays
    non-negative. *)
Lemma stock_return_ge (p0 p1 : Qc) :
  (0 < p0)%Qc -> (0 <= p1)%Qc -> (- (1) <= (p1 + - p0) / p0)%Qc.
Proof.
  intros Hb Ha.
  assert (E : ((p1 + - p0) / p0 = p1 / p0 - 1)%Qc)
    by (field; now apply Qc_pos_neq0).
  rewrite E. to_Q.
  assert (0 <= p1 * / p0)%Q.
  { apply Qmult_le_0_compat; [assumption|].
    apply Qinv_le_0_compat. lra. }
  lra.
Qed.

Lemma fold_return_bound (price_data : DataFrame) (t : nat) (n : Qc)
    (stocks : list asset) (acc : Qc) :
  (0 < n)%Qc ->
  (forall stock, In stock stocks ->
     positive_real (cell price_data t stock) /\
     nonnegative_price (cell price_data (t + 1) stock)) ->
  exists r,
    fold_left
      (fun portfolio_return stock =>
         if isna (cell price_data (t + 1) stock) then portfolio_return
         else (portfolio_return + stock_return_at price_data t stock / Fin n)%num)
      stocks (Fin acc)
    = Fin r /\
    (acc - Q2Qc (inject_Z (Z.of_nat (length stocks))) / n <= r)%Qc.
Proof.
  intros Hn. revert acc.
  assert (Hinv : (0 < / n)%Q) by (apply Qinv_lt_0_compat; exact Hn).
  induction stocks as [|s rest IH]; intros acc Hall.
  - exists acc. split; [reflexivity|]. simpl. to_Q. lra.
  - destruct (Hall s (or_introl eq_refl)) as ((p0 & E0 & Hp0) & H1).
    assert (Hrest : forall stock, In stock rest ->
               positive_real (cell price_data t stock) /\
               nonnegative_price (cell price_data (t + 1) stock))
      by (intros x Hx; apply Hall; now right).
    cbn [fold_left length]. rewrite nat_Qc_succ.
    destruct H1 as [E1|(p1 & E1 & Hp1)].
    + rewrite E1. cbn [isna].
      destruct (IH acc Hrest) as (r & Er & Hr).
      exists r. split; [exact Er|]. to_Q. lra.
    + unfold stock_return_at. rewrite E0, E1. cbn [isna sub neg add div].
      rewrite (Qc_eqb_neq _ _ (Qc_pos_neq0 _ Hp0)). cbn [add div].
      rewrite (Qc_eqb_neq _ _ (Qc_pos_neq0 _ Hn)).
      destruct (IH (acc + (p1 + - p0) / p0 / n)%Qc Hrest) as (r & Er & Hr).
      exists r. split; [exact Er|].
      assert (Hret := stock_return_ge p0 p1 Hp0 Hp1).
      set (ret := ((p1 + - p0) / p0)%Qc) in *.
      clearbody ret. to_Q.
      assert (0 <= (ret + 1) * / n)%Q
        by (apply Qmult_le_0_compat; lra).
      lra.
Qed.

Lemma portfolio_return_ge (price_data : DataFrame) (t : nat)
    (valid_stocks : list asset) :
  valid_stocks <> [] ->
  (forall stock, In stock valid_stocks ->
     positive_real (cell price_data t stock) /\
     nonnegative_price (cell price_data (t + 1) stock)) ->
  exists r,
    portfolio_return_at price_data t valid_stocks = Fin r /\
    (- (1) <= r)%Qc.
Proof.
  intros Hne Hall. unfold portfolio_return_at.
  assert (Hn : 0 < length valid_stocks)
    by (destruct valid_stocks; [contradiction|simpl; lia]).
  assert (Hpos := nat_Qc_pos _ Hn).
  unfold of_nat, of_Z, of_Q.
  change zero with (Fin 0%Qc).
  destruct (fold_return_bound price_data t _ valid_stocks 0%Qc Hpos Hall)
    as (r & -> & Hr).
  exists r. split; [reflexivity|].
  set (n := Q2Qc (inject_Z (Z.of_nat (length valid_stocks)))) in *.
  assert (E : (0 - n / n = - (1))%Qc)
    by (field; now apply Qc_pos_neq0).
  now rewrite E in Hr.
Qed.






Section RankedValues.

Context {K : Argsort} {KS : ArgsortSpec K}.


Lemma valid_stock_facts (price_data sentiment_data : DataFrame) (t : nat)
    (stock : asset) :
  incl (columns sentiment_data) (columns price_data) ->
  In stock (valid_stocks_at price_data sentiment_data t) ->
  In stock (columns price_data) /\ isna (cell price_data t stock) = false.
Proof.
  intros Hcols H. unfold valid_stocks_at in H. apply filter_In in H.
  destruct H as [Hin Hna]. apply negb_true_iff in Hna. split; [|assumption].
  now apply (top_stocks_in_columns price_data sentiment_data t Hcols).
Qed.

Lemma degenerate_false_nonempty (price_data sentiment_data : DataFrame)
    (t : nat) :
  degenerate price_data sentiment_data t = false ->
  valid_stocks_at price_data sentiment_data t <> [].
Proof. unfold degenerate. intros H E. rewrite E in H. discriminate. Qed.


End RankedValues.


Lemma scenario_prices_positive : positive_prices Tables.scenario_prices.
Proof.
  intros t stock Ht Hs. unfold len in Ht. simpl in Ht, Hs.
  destruct Hs as [<-|[<-|[<-|[]]]];
    destruct t as [|[|[|t]]]; try lia;
    right; eexists; (split; [reflexivity|vm_compute; reflexivity]).
Qed.




(** ** Buy and hold with a missing initial price *)

Lemma holdings_fold_nan (price_data : DataFrame) (t : nat)
    (shares : list (asset * num)) :
  fold_left
    (fun total holding =>
       if isna (cell price_data t (fst holding)) then total
       else (total + snd holding * cell price_data t (fst holding))%num)
    shares NaN
  = NaN.
Proof.
  induction shares as [|h rest IH]; [reflexivity|]. cbn [fold_left].
  now destruct (isna (cell price_data t (fst h))).
Qed.

Lemma holdings_value_nan (price_data : DataFrame) (t : nat)
    (shares : list (asset * num)) (stock : asset) :
  In (stock, NaN) shares ->
  isna (cell price_data t stock) = false ->
  holdings_value price_data t shares = NaN.
Proof.
  unfold holdings_value. generalize zero as acc.
  induction shares as [|h rest IH]; intros acc Hin Hna; [destruct Hin|].
  cbn [fold_left]. destruct Hin as [->|Hin].
  - cbn [fst snd]. rewrite Hna.
    assert (E : (acc + NaN * cell price_data t stock)%num = NaN)
      by (destruct acc; reflexivity).
    rewrite E. apply holdings_fold_nan.
  - now apply IH.
Qed.

Lemma zero_return (q : Qc) :
  (0 < q)%Qc -> ((Fin q - Fin q) / Fin q)%num = zero.
Proof.
  intros Hq. cbn [sub neg add div].
  rewrite (Qc_eqb_neq _ _ (Qc_pos_neq0 _ Hq)).
  change zero with (Fin 0%Qc). f_equal. field. now apply Qc_pos_neq0.
Qed.

Lemma holdings_value_without (price_data : DataFrame) (t : nat)
    (shares : list (asset * num)) (stock : asset) :
  isna (cell price_data t stock) = true ->
  holdings_value price_data t shares
  = holdings_value price_data t
      (filter (fun h => negb (String.eqb (fst h) stock)) shares).
Proof.
  intros Hna. unfold holdings_value. generalize zero as acc.
  induction shares as [|h rest IH]; intros acc; [reflexivity|].
  cbn [fold_left filter].
  match goal with
  | |- context [String.eqb ?a ?b] =>
      destruct (String.eqb_spec a b) as [E|_]
  end; cbn [negb fold_left]; cbv beta.
  - unfold asset in *. rewrite E, Hna. cbv iota. apply IH.
  - apply IH.
Qed.

(** C10, as amended.  When an asset has no price on the first date its
    share count is NaN and raises nothing; on every later date on
    which that asset has a price the total is NaN, the fallback
    repeats the value of the day before, and the return of that day is
    0 (the value of the day before being a real number).  On the first
    date, and on every date on which that asset has no price, the
    asset is passed over: the total is the value of the other
    holdings, which is the emitted value when it is positive; when it
    is not, the value of the day before is repeated, or, on the first
    date, the initial capital is emitted. *)
Theorem missing_initial_price_carries_forward
    (price_data : DataFrame) (stock : asset) :
  In stock (columns price_data) ->
  0 < len price_data ->
  isna (cell price_data 0 stock) = true ->
  let per_stock :=
    (of_Z INITIAL_CAPITAL / of_nat (length (columns price_data)))%num in
  exists shares values returns,
    initial_shares price_data per_stock = Ok shares /\
    In (stock, NaN) shares /\
    buy_and_hold_strategy price_data
    = Ok {| Date := index price_data;
            Portfolio_Value := values;
            Daily_Return := returns |} /\
    (forall t, 0 < t -> t < len price_data ->
      isna (cell price_data t stock) = false ->
      for_each (add_holding price_data t) shares zero = Ok NaN /\
      nth t values NaN = nth (t - 1) values NaN /\
      (forall q, nth (t - 1) values NaN = Fin q ->
                 nth t returns NaN = zero)) /\
    (forall t, t < len price_data ->
      isna (cell price_data t stock) = true ->
      let others :=
        holdings_value price_data t
          (filter (fun h => negb (String.eqb (fst h) stock)) shares) in
      for_each (add_holding price_data t) shares zero = Ok others /\
      nth t values NaN
      = if ltb zero others then others
        else if 0 <? t then nth (t - 1) values NaN
        else of_Z INITIAL_CAPITAL).
Proof.
  intros Hin Hlen Hna per_stock.
  assert (Hcols : columns price_data <> [])
    by (intros E; rewrite E in Hin; destruct Hin).
  destruct (buy_and_hold_eq price_data Hcols Hlen)
    as (values & returns & E & Hv & _ & Hrec).
  assert (Hshare : In (stock, NaN) (shares_of price_data)).
  { unfold shares_of. apply in_map_iff. exists stock. split; [|assumption].
    f_equal. destruct (cell price_data 0 stock); try discriminate.
    now destruct (_ / _)%num. }
  exists (shares_of price_data), values, returns.
  split; [|split; [assumption|split; [assumption|split]]].
  - unfold initial_shares. apply initial_shares_ok; [assumption|].
    apply incl_refl.
  - intros t Hpos Ht Hpresent.
    assert (Etotal : holdings_value price_data t (shares_of price_data) = NaN)
      by (now apply holdings_value_nan with stock).
    destruct (Hrec t Ht) as [Eval Eret].
    assert (Hcarry : nth t values NaN = nth (t - 1) values NaN).
    { rewrite Eval. unfold held_value. rewrite Etotal. cbn [ltb zero].
      apply Nat.ltb_lt in Hpos. now rewrite Hpos. }
    split; [|split; [exact Hcarry|]].
    + rewrite add_holdings_ok; [|assumption|apply shares_of_columns].
      f_equal. exact Etotal.
    + intros q Hq. rewrite Eret, Hcarry, Hq.
      apply Nat.ltb_lt in Hpos. rewrite Hpos.
      apply zero_return.
      assert (Hall : Forall (fun v => ltb zero v = true) values).
      { apply (hold_values_positive price_data); [assumption|].
        intros t' Ht'. now apply Hrec. }
      rewrite Forall_forall in Hall.
      assert (Hprev : ltb zero (nth (t - 1) values NaN) = true)
        by (apply Hall, nth_In; lia).
      rewrite Hq in Hprev. now apply Qc_ltb_lt in Hprev.
  - intros t Ht Hmissing others.
    assert (Etotal : holdings_value price_data t (shares_of price_data)
                     = others)
      by (now apply holdings_value_without).
    split.
    + rewrite add_holdings_ok; [|assumption|apply shares_of_columns].
      f_equal. exact Etotal.
    + destruct (Hrec t Ht) as [-> _]. unfold held_value.
      now rewrite Etotal.
Qed.

Lemma missing_initial_price_witness :
  In "A"%string (columns Tables.gap_prices) /\
  0 < len Tables.gap_prices /\
  isna (cell Tables.gap_prices 0 "A"%string) = true /\
  let per_stock :=
    (of_Z INITIAL_CAPITAL / of_nat (length (columns Tables.gap_prices)))%num in
  exists shares values returns,
    initial_shares Tables.gap_prices per_stock = Ok shares /\
    In ("A"%string, NaN) shares /\
    buy_and_hold_strategy Tables.gap_prices
    = Ok {| Date := index Tables.gap_prices;
            Portfolio_Value := values;
            Daily_Return := returns |} /\
    (forall t, 0 < t -> t < len Tables.gap_prices ->
      isna (cell Tables.gap_prices t "A"%string) = false ->
      for_each (add_holding Tables.gap_prices t) shares zero = Ok NaN /\
      nth t values NaN = nth (t - 1) values NaN /\
      (forall q, nth (t - 1) values NaN = Fin q ->
                 nth t returns NaN = zero)) /\
    (forall t, t < len Tables.gap_prices ->
      isna (cell Tables.gap_prices t "A"%string) = true ->
      let others :=
        holdings_value Tables.gap_prices t
          (filter (fun h => negb (String.eqb (fst h) "A"%string)) shares) in
      for_each (add_holding Tables.gap_prices t) shares zero = Ok others /\
      nth t values NaN
      = if ltb zero others then others
        else if 0 <? t then nth (t - 1) values NaN
        else of_Z INITIAL_CAPITAL).
Proof.
  assert (Hin : In "A"%string (columns Tables.gap_prices))
    by (simpl; now left).
  assert (Hlen : 0 < len Tables.gap_prices) by (unfold len; simpl; lia).
  assert (Hna : isna (cell Tables.gap_prices 0 "A"%string) = true)
    by reflexivity.
  split; [exact Hin|]. split; [exact Hlen|]. split; [exact Hna|].
  exact (missing_initial_price_carries_forward Tables.gap_prices "A"%string
           Hin Hlen Hna).
Defined.

(** C10 as stated fails: A has no price on the first date and B costs
    100, 110, 120.  The series starts at 50000, the value of the B
    holding, not at the initial capital; it rises to 55000 on the
    second date, where A still has no price, with a return of 1/10;
    only on the third date, where A has a price, the value is
    carried. *)
Lemma missing_initial_price_counterexample :
  isna (cell Tables.gap_prices 0 "A"%string) = true /\
  result_map
    (fun df => map (fun v => same v (of_Z INITIAL_CAPITAL))
                   (Portfolio_Value df))
    (buy_and_hold_strategy Tables.gap_prices)
  = Ok [false; false; false] /\
  result_map
    (fun df => map (fun v => (same v (of_Z 50000), same v (of_Z 55000)))
                   (Portfolio_Value df))
    (buy_and_hold_strategy Tables.gap_prices)
  = Ok [(true, false); (false, true); (false, true)] /\
  result_map
    (fun df => map (fun r => (same r zero, same r (of_Q (1 # 10))))
                   (Daily_Return df))
    (buy_and_hold_strategy Tables.gap_prices)
  = Ok [(true, false); (false, true); (true, false)].
Proof. repeat split; vm_compute; reflexivity. Qed.

(** ** Metrics: the zero-variance guard *)


Lemma dropna_fin_copies {A : Type} (q : Qc) (l : list A) :
  dropna (map (fun _ => Fin q) l) = map (fun _ => Fin q) l.
Proof. induction l as [|x l IH]; [reflexivity|]. simpl. now rewrite IH. Qed.


Section MetricsFacts.

Context {M : MathLib}.


Lemma calculate_metrics_ok (df : PortfolioFrame) (risk_free_rate : num) :
  Portfolio_Value df <> [] ->
  length (Daily_Return df) = length (Portfolio_Value df) ->
  exists m,
    calculate_metrics df risk_free_rate = Ok m /\
    Sharpe_Ratio m
    = (let excess_returns :=
         map (fun r => (r - risk_free_rate)%num) (Daily_Return df) in
       if neb (std excess_returns) zero
       then (mean excess_returns / std excess_returns
             * np_sqrt (of_Z 252))%num
       else zero) /\
    Max_Drawdown m
    = series_min
        (zip_with div
           (zip_with sub (Portfolio_Value df) (cummax (Portfolio_Value df)))
           (cummax (Portfolio_Value df))).
Proof.
  intros Hne Hlen. unfold calculate_metrics.
  destruct (Portfolio_Value df) as [|v vs] eqn:Ev; [contradiction|].
  cbn [iloc_last bind].
  destruct (length (Daily_Return df) =? 0) eqn:E.
  { apply Nat.eqb_eq in E. rewrite E in Hlen. discriminate. }
  eexists. split; [reflexivity|]. split; reflexivity.
Qed.

End MetricsFacts.

(** C8.  The guard of the Sharpe ratio misses a deviation that is a
    rounding error.  On five daily returns that are all 0, with the
    default risk-free rate, the five excess returns are one and the
    same number, yet their binary64 mean differs from it in the last
    place: the standard deviation is about 3.03e-20 and not 0, the
    test [!= 0] succeeds, and the ratio is about -1.247e17 where the
    claim has 0.  On two, three or four such returns the deviation is
    exactly 0 and the ratio is 0. *)
Theorem sharpe_guard_misses_rounding_error :
  let flat n := repeat PrimFloat.zero n in
  let rate := Binary64.default_risk_free_rate in
  let below := PrimFloat.opp (Binary64.of_Z 130000000000000000) in
  let above := PrimFloat.opp (Binary64.of_Z 120000000000000000) in
  Binary64.excess_returns (flat 5) rate = repeat (PrimFloat.opp rate) 5 /\
  PrimFloat.ltb PrimFloat.zero
                (Binary64.nanstd (Binary64.excess_returns (flat 5) rate))
  = true /\
  PrimFloat.ltb below (Binary64.sharpe_ratio (flat 5) rate) = true /\
  PrimFloat.ltb (Binary64.sharpe_ratio (flat 5) rate) above = true /\
  Forall (fun n =>
            PrimFloat.eqb (Binary64.sharpe_ratio (flat n) rate)
                          PrimFloat.zero = true)
         [2; 3; 4].
Proof.
  repeat split; try (vm_compute; reflexivity).
  repeat constructor; vm_compute; reflexivity.
Qed.

(** ** Metrics: the drawdown bound *)

Lemma fin_zero_iff (q : Qc) : Fin q = zero <-> q = 0%Qc.
Proof.
  change zero with (Fin 0%Qc). split; [now intros [= ->]|now intros ->].
Qed.

Lemma leb_fin (a b : Qc) : leb (Fin a) (Fin b) = true <-> (a <= b)%Qc.
Proof.
  unfold leb. cbn [ltb eqb]. rewrite orb_true_iff, Qc_ltb_lt, Qc_eqb_eq.
  split.
  - intros [H| ->]; [now apply Qclt_le_weak|apply Qcle_refl].
  - intros H. destruct (Qcle_lt_or_eq _ _ H); auto.
Qed.

(** One drawdown: the value against a running maximum that is at
    least the value. *)
Lemma drawdown_at (q m : Qc) :
  (0 < m)%Qc -> (q <= m)%Qc ->
  exists d, ((Fin q - Fin m) / Fin m)%num = Fin d /\
            (d <= 0)%Qc /\ (d = 0%Qc <-> q = m).
Proof.
  intros Hm Hq. cbn [sub neg add div].
  rewrite (Qc_eqb_neq _ _ (Qc_pos_neq0 _ Hm)).
  eexists. split; [reflexivity|].
  assert (Hne := Qc_pos_neq0 _ Hm).
  assert (E : ((q + - m) / m = q / m - 1)%Qc) by (field; assumption).
  assert (Hinv : (0 < / m)%Q) by (apply Qinv_lt_0_compat; exact Hm).
  split.
  - rewrite E. to_Q.
    assert (0 <= (m - q) * / m)%Q by (apply Qmult_le_0_compat; lra).
    assert (m * / m == 1)%Q by (apply Qmult_inv_r; lra).
    lra.
  - split.
    + intros H0.
      assert (Hq0 : (q + - m = 0)%Qc).
      { destruct (Qcmult_integral _ _ H0) as [H|H]; [assumption|].
        exfalso. assert (Hone := Qcmult_inv_r m Hne).
        rewrite H in Hone. rewrite Qcmult_0_r in Hone. discriminate. }
      assert (q = q + - m + m)%Qc by ring. rewrite Hq0 in H. rewrite H. ring.
    + intros ->. field. assumption.
Qed.

(** The drawdowns that follow a running maximum [m]. *)
Lemma drawdowns_from (m : Qc) (xs : list num) :
  (0 < m)%Qc -> Forall positive_real xs ->
  let ds := zip_with div (zip_with sub xs (cummax_from (Some (Fin m)) xs))
                     (cummax_from (Some (Fin m)) xs) in
  Forall (fun d => exists q, d = Fin q /\ (q <= 0)%Qc) ds /\
  (Forall (fun d => d = zero) ds <-> non_decreasing (Fin m :: xs)).
Proof.
  intros Hm Hxs. revert m Hm.
  induction Hxs as [|x xs (q & -> & Hq) _ IH]; intros m Hm.
  - simpl. split; [constructor|]. split; intros _; repeat constructor.
  - cbn [cummax_from isna zip_with].
    destruct (ltb (Fin m) (Fin q)) eqn:Hlt; cbn [ltb] in Hlt.
    + (* a new maximum *)
      apply Qc_ltb_lt in Hlt.
      destruct (IH q Hq) as [IHle IHzero]. cbv zeta in IHle, IHzero.
      destruct (drawdown_at q q Hq (Qcle_refl q)) as (d & Ed & Hd & Hd0).
      rewrite Ed. split.
      * constructor; [exists d; now split|assumption].
      * unfold non_decreasing in *. split.
        -- intros H. apply Forall_inv_tail in H.
           constructor; [now apply IHzero|].
           constructor. apply leb_fin. now apply Qclt_le_weak.
        -- intros H. apply Sorted_inv in H. destruct H as [H _].
           constructor; [|now apply IHzero].
           apply fin_zero_iff. now apply Hd0.
    + (* the maximum stays *)
      assert (Hle : (q <= m)%Qc).
      { apply Qcnot_lt_le. intros H. apply Qc_ltb_lt in H. congruence. }
      destruct (IH m Hm) as [IHle IHzero]. cbv zeta in IHle, IHzero.
      destruct (drawdown_at q m Hm Hle) as (d & Ed & Hd & Hd0).
      rewrite Ed. split.
      * constructor; [exists d; now split|assumption].
      * unfold non_decreasing in *. split.
        -- intros H. assert (Hhd := Forall_inv H).
           apply Forall_inv_tail in H.
           apply fin_zero_iff, Hd0 in Hhd. subst q.
           constructor; [now apply IHzero|].
           constructor. apply leb_fin, Qcle_refl.
        -- intros H. apply Sorted_inv in H. destruct H as [H Hhd].
           apply HdRel_inv in Hhd. apply leb_fin in Hhd.
           assert (q = m) by now apply Qcle_antisym. subst q.
           constructor; [|now apply IHzero].
           apply fin_zero_iff. now apply Hd0.
Qed.

(** The least of a list of real numbers that are not positive. *)
Lemma min_fold_nonpositive (a : Qc) (ds : list num) :
  (a <= 0)%Qc ->
  Forall (fun d => exists q, d = Fin q /\ (q <= 0)%Qc) ds ->
  exists r,
    fold_left (fun m y => if ltb y m then y else m) ds (Fin a) = Fin r /\
    (r <= 0)%Qc /\
    (r = 0%Qc <-> a = 0%Qc /\ Forall (fun d => d = zero) ds).
Proof.
  intros Ha Hds. revert a Ha.
  induction Hds as [|d ds (b & -> & Hb) _ IH]; intros a Ha.
  - exists a. split; [reflexivity|]. split; [assumption|].
    split; [intros ->; now split|now intros [-> _]].
  - cbn [fold_left ltb]. destruct (Qc_ltb b a) eqn:Hlt.
    + apply Qc_ltb_lt in Hlt.
      destruct (IH b Hb) as (r & Er & Hr & Hr0).
      exists r. split; [exact Er|]. split; [assumption|].
      assert (Hb0 : b <> 0%Qc).
      { intros ->. revert Hlt. now apply Qcle_not_lt. }
      split.
      * intros H. apply Hr0 in H. destruct H as [H _]. contradiction.
      * intros [_ H]. apply Forall_inv in H. apply fin_zero_iff in H.
        contradiction.
    + assert (Hle : (a <= b)%Qc).
      { apply Qcnot_lt_le. intros H. apply Qc_ltb_lt in H. congruence. }
      destruct (IH a Ha) as (r & Er & Hr & Hr0).
      exists r. split; [exact Er|]. split; [assumption|].
      split.
      * intros H. apply Hr0 in H. destruct H as [-> H].
        split; [reflexivity|]. constructor; [|assumption].
        apply fin_zero_iff. now apply Qcle_antisym.
      * intros [-> H]. apply Hr0. split; [reflexivity|].
        now apply Forall_inv_tail in H.
Qed.

Lemma dropna_reals (ds : list num) :
  Forall (fun d => exists q, d = Fin q /\ (q <= 0)%Qc) ds -> dropna ds = ds.
Proof.
  induction 1 as [|d ds (q & -> & _) _ IH]; [reflexivity|].
  simpl. now rewrite IH.
Qed.

(** C7.  For a series of positive real values (there is at least one),
    the metrics engine returns, and its max_drawdown is at most 0 and
    is 0 exactly when the values never decrease. *)
Theorem max_drawdown_bound (M : MathLib) (df : PortfolioFrame)
    (risk_free_rate : num) :
  Portfolio_Value df <> [] ->
  length (Daily_Return df) = length (Portfolio_Value df) ->
  Forall positive_real (Portfolio_Value df) ->
  exists m,
    calculate_metrics df risk_free_rate = Ok m /\
    leb (Max_Drawdown m) zero = true /\
    (Max_Drawdown m = zero <-> non_decreasing (Portfolio_Value df)).
Proof.
  intros Hne Hlen Hpos.
  destruct (calculate_metrics_ok df risk_free_rate Hne Hlen)
    as (m & Em & _ & Edd).
  exists m. split; [exact Em|]. rewrite Edd. clear Em Edd m.
  destruct (Portfolio_Value df) as [|v vs]; [contradiction|].
  apply Forall_cons_iff in Hpos. destruct Hpos as ((q & -> & Hq) & Hvs).
  unfold cummax. cbn [cummax_from isna zip_with].
  destruct (drawdowns_from q vs Hq Hvs) as [Hle Hzero].
  cbv zeta in Hle, Hzero.
  set (ds := zip_with div (zip_with sub vs (cummax_from (Some (Fin q)) vs))
                      (cummax_from (Some (Fin q)) vs)) in *.
  destruct (drawdown_at q q Hq (Qcle_refl q)) as (d & Ed & Hd & Hd0).
  rewrite Ed. assert (d = 0%Qc) by now apply Hd0. subst d.
  unfold series_min. cbn [dropna filter isna negb].
  fold (dropna ds). rewrite (dropna_reals ds Hle).
  destruct (min_fold_nonpositive 0%Qc ds (Qcle_refl _) Hle)
    as (r & -> & Hr & Hr0).
  split.
  - now apply leb_fin.
  - rewrite fin_zero_iff, Hr0, <- Hzero. tauto.
Qed.

Lemma max_drawdown_bound_witness :
  let df := {| Date := Tables.days3;
               Portfolio_Value := [of_Z 100; of_Z 120; of_Z 90];
               Daily_Return := [zero; of_Q (1 # 5); of_Q (-1 # 4)] |} in
  Portfolio_Value df <> [] /\
  length (Daily_Return df) = length (Portfolio_Value df) /\
  Forall positive_real (Portfolio_Value df) /\
  exists m,
    calculate_metrics (M := eval_math) df default_risk_free_rate = Ok m /\
    leb (Max_Drawdown m) zero = true /\
    (Max_Drawdown m = zero <-> non_decreasing (Portfolio_Value df)).
Proof.
  intros df.
  assert (H1 : Portfolio_Value df <> []) by discriminate.
  assert (H2 : length (Daily_Return df) = length (Portfolio_Value df))
    by reflexivity.
  assert (H3 : Forall positive_real (Portfolio_Value df)).
  { repeat constructor;
      (eexists; split; [reflexivity|vm_compute; reflexivity]). }
  split; [exact H1|]. split; [exact H2|]. split; [exact H3|].
  exact (max_drawdown_bound eval_math df default_risk_free_rate H1 H2 H3).
Defined.

(* ================================================================== *)
(** * Further properties of the code *)
(* ================================================================== *)

(** ** The run of the sentiment strategy in closed form *)

Lemma compound_length (value : num) (returns : list num) :
  length (compound value returns) = S (length returns).
Proof.
  revert value. induction returns as [|r rest IH]; intros value; simpl;
    [reflexivity|]. now rewrite IH.
Qed.

Lemma compound_snoc (value : num) (returns : list num) (r : num) :
  compound value (returns ++ [r])
  = compound value returns
    ++ [(last_of (compound value returns) * (one + r))%num].
Proof.
  revert value. induction returns as [|r0 rest IH]; intros value.
  - reflexivity.
  - cbn [app compound]. rewrite IH. cbn [app]. do 3 f_equal.
    unfold last_of. cbn [last].
    destruct (compound (value * (one + r0))%num rest) eqn:E; [|reflexivity].
    apply (f_equal (@length num)) in E. rewrite compound_length in E.
    discriminate.
Qed.

Lemma compound_nth (value : num) (returns : list num) (i : nat) :
  i < length returns ->
  nth (S i) (compound value returns) NaN
  = (nth i (compound value returns) NaN * (one + nth i returns NaN))%num.
Proof.
  revert value i. induction returns as [|r rest IH]; intros value i Hi.
  - simpl in Hi. lia.
  - cbn [compound]. destruct i as [|i].
    + cbn [nth]. now destruct rest.
    + cbn [length] in Hi.
      change (nth (S (S i)) (value :: compound (value * (one + r))%num rest) NaN)
        with (nth (S i) (compound (value * (one + r))%num rest) NaN).
      rewrite IH by lia. reflexivity.
Qed.

Section RunTrace.

Context {K : Argsort} {KS : ArgsortSpec K}.

Lemma step_days_bound (price_data sentiment_data : DataFrame) :
  length (step_days price_data sentiment_data) <= len price_data - 1.
Proof.
  unfold step_days. etransitivity; [apply filter_length_le|].
  now rewrite length_seq.
Qed.

(** The lists the loop has built when it ends. *)
Lemma run_trace (price_data sentiment_data : DataFrame) :
  aligned price_data sentiment_data ->
  exists st,
    for_each (rebalance price_data sentiment_data)
             (seq 0 (len price_data - 1)) initial_state = Ok st /\
    holdings st
    = map (valid_stocks_at price_data sentiment_data)
          (step_days price_data sentiment_data) /\
    daily_returns st
    = map (fun t => portfolio_return_at price_data t
                      (valid_stocks_at price_data sentiment_data t))
          (step_days price_data sentiment_data) /\
    portfolio_value st
    = compound (of_Z INITIAL_CAPITAL) (daily_returns st) /\
    map (map fst) (report st) = holdings st.
Proof.
  intros (Hlen & Hrows & Hcols). unfold step_days.
  apply (for_each_inv (rebalance price_data sentiment_data)
           (fun visited st =>
              holdings st
              = map (valid_stocks_at price_data sentiment_data)
                    (filter (fun t =>
                               negb (degenerate price_data sentiment_data t))
                            visited) /\
              daily_returns st
              = map (fun t => portfolio_return_at price_data t
                                (valid_stocks_at price_data sentiment_data t))
                    (filter (fun t =>
                               negb (degenerate price_data sentiment_data t))
                            visited) /\
              portfolio_value st
              = compound (of_Z INITIAL_CAPITAL) (daily_returns st) /\
              map (map fst) (report st) = holdings st)).
  - repeat split.
  - intros visited t rest st Ht (Hh & Hd & Hv & Hr).
    apply seq_split in Ht. destruct Ht as [_ Ht].
    assert (E := rebalance_eq price_data sentiment_data st t).
    cbv zeta in E. rewrite E by (assumption || lia).
    rewrite filter_app. cbn [filter].
    destruct (degenerate price_data sentiment_data t) eqn:D; cbn [negb].
    + exists st. rewrite app_nil_r. repeat split; assumption.
    + eexists. split; [reflexivity|].
      cbn [holdings daily_returns portfolio_value report].
      rewrite !map_app. cbn [map]. rewrite <- Hh, <- Hd.
      split; [reflexivity|]. split; [reflexivity|]. split.
      * rewrite compound_snoc, <- Hv. reflexivity.
      * rewrite Hr. f_equal. f_equal. rewrite map_map. apply map_id.
Qed.

(** The frame and the holdings the function returns. *)
Lemma strategy_trace (price_data sentiment_data : DataFrame) :
  aligned price_data sentiment_data ->
  exists out,
    sentiment_trading_strategy price_data sentiment_data = Ok out /\
    holdings_out out
    = map (valid_stocks_at price_data sentiment_data)
          (step_days price_data sentiment_data) /\
    Daily_Return (portfolio_df out)
    = zero :: map (fun t => portfolio_return_at price_data t
                              (valid_stocks_at price_data sentiment_data t))
                  (step_days price_data sentiment_data) /\
    Portfolio_Value (portfolio_df out)
    = compound (of_Z INITIAL_CAPITAL) (tl (Daily_Return (portfolio_df out))) /\
    Date (portfolio_df out)
    = firstn (S (length (step_days price_data sentiment_data)))
             (index price_data) /\
    map (map fst) (printed out) = holdings_out out.
Proof.
  intros Hal.
  destruct (run_trace price_data sentiment_data Hal)
    as (st & E & Hh & Hd & Hv & Hr).
  assert (Hb := step_days_bound price_data sentiment_data).
  assert (Hlv : length (portfolio_value st)
                = S (length (step_days price_data sentiment_data))).
  { rewrite Hv, compound_length, Hd. now rewrite length_map. }
  assert (Hld : length (daily_returns st)
                = length (step_days price_data sentiment_data)).
  { rewrite Hd. now rewrite length_map. }
  destruct Hal as (Hlen & _).
  eexists. split; [apply strategy_eq with (st := st); try assumption; lia|].
  cbn [holdings_out portfolio_df Daily_Return Portfolio_Value Date printed tl].
  rewrite <- Hd, <- Hlv. repeat split; assumption.
Qed.

End RunTrace.

(** X1.  On aligned tables the value series of the sentiment strategy
    is the initial capital compounded by the recorded daily returns:
    it starts at the initial capital and each later value is the value
    before it times one plus the return recorded beside it; the first
    recorded return is 0. *)
Theorem value_series_compounds (K : Argsort) (KS : ArgsortSpec K)
    (price_data sentiment_data : DataFrame) :
  aligned price_data sentiment_data ->
  exists out,
    sentiment_trading_strategy price_data sentiment_data = Ok out /\
    hd NaN (Daily_Return (portfolio_df out)) = zero /\
    Portfolio_Value (portfolio_df out)
    = compound (of_Z INITIAL_CAPITAL) (tl (Daily_Return (portfolio_df out))) /\
    forall i, 0 < i -> i < length (Portfolio_Value (portfolio_df out)) ->
      nth i (Portfolio_Value (portfolio_df out)) NaN
      = (nth (i - 1) (Portfolio_Value (portfolio_df out)) NaN
         * (one + nth i (Daily_Return (portfolio_df out)) NaN))%num.
Proof.
  intros Hal.
  destruct (strategy_trace price_data sentiment_data Hal)
    as (out & E & _ & Hd & Hv & _).
  exists out. split; [exact E|]. split; [now rewrite Hd|].
  split; [exact Hv|].
  rewrite Hv, Hd. cbn [tl].
  generalize (map (fun t => portfolio_return_at price_data t
                              (valid_stocks_at price_data sentiment_data t))
                  (step_days price_data sentiment_data)) as returns.
  generalize (of_Z INITIAL_CAPITAL) as value.
  intros value returns. revert value.
  induction returns as [|r rest IH]; intros value i Hi Hlen.
  - simpl in Hlen. lia.
  - cbn [compound length] in Hlen.
    destruct i as [|i]; [lia|]. cbn [compound nth].
    replace (S i - 1) with i by lia.
    destruct i as [|i].
    + destruct rest; reflexivity.
    + specialize (IH (value * (one + r))%num (S i)).
      replace (S i - 1) with i in IH by lia.
      cbn [nth] in IH. apply IH; lia.
Qed.

Lemma value_series_compounds_witness :
  aligned Tables.scenario_prices Tables.scenario_scores /\
  exists out,
    sentiment_trading_strategy (K := insertion_argsort)
      Tables.scenario_prices Tables.scenario_scores = Ok out /\
    hd NaN (Daily_Return (portfolio_df out)) = zero /\
    Portfolio_Value (portfolio_df out)
    = compound (of_Z INITIAL_CAPITAL) (tl (Daily_Return (portfolio_df out))) /\
    forall i, 0 < i -> i < length (Portfolio_Value (portfolio_df out)) ->
      nth i (Portfolio_Value (portfolio_df out)) NaN
      = (nth (i - 1) (Portfolio_Value (portfolio_df out)) NaN
         * (one + nth i (Daily_Return (portfolio_df out)) NaN))%num.
Proof.
  assert (Hal : aligned Tables.scenario_prices Tables.scenario_scores).
  { repeat split;
      [unfold len; simpl; lia|unfold len; simpl; lia|apply incl_refl]. }
  split; [exact Hal|].
  exact (value_series_compounds insertion_argsort insertion_argsort_spec
           Tables.scenario_prices Tables.scenario_scores Hal).
Defined.

(** X2.  On aligned tables the holdings list has one record per day
    that is not degenerate, in order: the candidates of that day that
    have a price on that day.  A record is never empty, never holds
    more than [TOP_N] assets, names only scored assets with a price
    column, and the line printed for it lists the same assets. *)
Theorem holdings_are_the_priced_candidates (K : Argsort) (KS : ArgsortSpec K)
    (price_data sentiment_data : DataFrame) :
  aligned price_data sentiment_data ->
  exists out,
    sentiment_trading_strategy price_data sentiment_data = Ok out /\
    holdings_out out
    = map (valid_stocks_at price_data sentiment_data)
          (step_days price_data sentiment_data) /\
    map (map fst) (printed out) = holdings_out out /\
    Forall (fun held =>
              held <> [] /\ length held <= TOP_N /\
              incl held (columns sentiment_data) /\
              incl held (columns price_data))
           (holdings_out out) /\
    forall t stock,
      In t (step_days price_data sentiment_data) ->
      In stock (valid_stocks_at price_data sentiment_data t) ->
      isna (cell price_data t stock) = false.
Proof.
  intros Hal.
  destruct (strategy_trace price_data sentiment_data Hal)
    as (out & E & Hh & _ & _ & _ & Hp).
  destruct Hal as (Hlen & Hrows & Hcols).
  exists out. split; [exact E|]. split; [exact Hh|]. split; [exact Hp|].
  split.
  - rewrite Hh. apply Forall_forall. intros held Hheld.
    apply in_map_iff in Hheld. destruct Hheld as (t & <- & Ht).
    unfold step_days in Ht. apply filter_In in Ht.
    destruct Ht as [_ Ht]. apply negb_true_iff in Ht.
    assert (Hsub : incl (valid_stocks_at price_data sentiment_data t)
                        (columns sentiment_data)).
    { intros stock Hs. unfold valid_stocks_at in Hs.
      apply filter_In in Hs. destruct Hs as [Hs _].
      apply top_stocks_incl in Hs. unfold labels, row_of in Hs.
      rewrite map_map in Hs. cbn [fst] in Hs. now rewrite map_id in Hs. }
    split; [now apply degenerate_false_nonempty|]. split; [|split].
    + unfold valid_stocks_at. etransitivity; [apply filter_length_le|].
      unfold top_stocks_of, labels, head. rewrite length_map.
      apply firstn_le_length.
    + exact Hsub.
    + intros stock Hs. apply Hcols, Hsub, Hs.
  - intros t stock _ Hs.
    now destruct (valid_stock_facts _ _ _ _ Hcols Hs).
Qed.

Lemma holdings_are_the_priced_candidates_witness :
  aligned Tables.late_prices Tables.scenario_scores /\
  exists out,
    sentiment_trading_strategy (K := insertion_argsort)
      Tables.late_prices Tables.scenario_scores = Ok out /\
    holdings_out out
    = map (valid_stocks_at (K := insertion_argsort)
                           Tables.late_prices Tables.scenario_scores)
          (step_days (K := insertion_argsort)
                     Tables.late_prices Tables.scenario_scores) /\
    map (map fst) (printed out) = holdings_out out /\
    Forall (fun held =>
              held <> [] /\ length held <= TOP_N /\
              incl held (columns Tables.scenario_scores) /\
              incl held (columns Tables.late_prices))
           (holdings_out out) /\
    forall t stock,
      In t (step_days (K := insertion_argsort)
                      Tables.late_prices Tables.scenario_scores) ->
      In stock (valid_stocks_at (K := insertion_argsort)
                                Tables.late_prices Tables.scenario_scores t) ->
      isna (cell Tables.late_prices t stock) = false.
Proof.
  assert (Hal : aligned Tables.late_prices Tables.scenario_scores).
  { repeat split;
      [unfold len; simpl; lia|unfold len; simpl; lia|apply incl_refl]. }
  split; [exact Hal|].
  exact (holdings_are_the_priced_candidates insertion_argsort
           insertion_argsort_spec Tables.late_prices Tables.scenario_scores
           Hal).
Defined.

(** ** Exceptions of the sentiment strategy *)

Lemma for_each_raise {S A : Type} (body : S -> A -> result S)
    (before after : list A) (x : A) (s s' : S) (e : exn) :
  for_each body before s = Ok s' -> body s' x = Raise e ->
  for_each body (before ++ x :: after) s = Raise e.
Proof.
  intros H1 H2. rewrite for_each_app, H1. cbn [bind for_each].
  now rewrite H2.
Qed.

Lemma valid_among_key_error (price_data : DataFrame) (t : nat)
    (stocks : list asset) (stock : asset) :
  t < len price_data -> In stock stocks ->
  ~ In stock (columns price_data) ->
  valid_among price_data t stocks = Raise KeyError.
Proof.
  intros Ht Hin Hmissing.
  induction stocks as [|s rest IH]; [destruct Hin|]. cbn [valid_among].
  unfold loc at 1. destruct (index_at_ok price_data t Ht) as (d & ->).
  cbn [bind]. destruct (has_column price_data s) eqn:Hs.
  - destruct Hin as [->|Hin].
    + apply has_column_In in Hs. contradiction.
    + now rewrite (IH Hin).
  - reflexivity.
Qed.

Section StrategyErrors.

Context {K : Argsort} {KS : ArgsortSpec K}.

(** The first [k] days of the loop run through when each has a row of
    scores. *)
Lemma run_prefix (price_data sentiment_data : DataFrame) (k : nat) :
  incl (columns sentiment_data) (columns price_data) ->
  k <= len sentiment_data -> k <= len price_data - 1 ->
  exists st,
    for_each (rebalance price_data sentiment_data) (seq 0 k) initial_state
    = Ok st.
Proof.
  intros Hcols Hs Hp.
  destruct (for_each_inv (rebalance price_data sentiment_data)
              (fun _ _ => True) (seq 0 k) initial_state I)
    as (st & E & _); [|eauto].
  intros visited t rest st Ht _.
  apply seq_split in Ht. destruct Ht as [_ Ht].
  assert (E := rebalance_eq price_data sentiment_data st t).
  cbv zeta in E. rewrite E by (assumption || lia).
  destruct (degenerate price_data sentiment_data t); eauto.
Qed.

End StrategyErrors.

(** X3.  When every scored asset has a price column, the sentiment
    strategy raises IndexError if the price table has no row, and also
    if the score table has fewer rows than the loop visits days. *)
Theorem short_tables_raise_index_error (K : Argsort) (KS : ArgsortSpec K)
    (price_data sentiment_data : DataFrame) :
  incl (columns sentiment_data) (columns price_data) ->
  len price_data = 0 \/ len sentiment_data < len price_data - 1 ->
  sentiment_trading_strategy price_data sentiment_data = Raise IndexError.
Proof.
  intros Hcols [Hzero|Hshort]; unfold sentiment_trading_strategy.
  - unfold index_at.
    destruct (nth_error (index price_data) 0) eqn:E; [|reflexivity].
    assert (H : nth_error (index price_data) 0 <> None) by congruence.
    apply nth_error_Some in H. unfold len in Hzero. lia.
  - destruct (index_at_ok price_data 0) as (d & ->); [lia|]. cbn [bind].
    destruct (run_prefix price_data sentiment_data (len sentiment_data)
                         Hcols (Nat.le_refl _)) as (st & E); [lia|].
    replace (len price_data - 1)
      with (len sentiment_data
            + S (len price_data - 1 - S (len sentiment_data))) by lia.
    rewrite seq_app. cbn [seq Nat.add].
    rewrite (for_each_raise _ _ _ _ _ st IndexError E); [reflexivity|].
    unfold rebalance, iloc. now rewrite Nat.ltb_irrefl.
Qed.

Lemma short_tables_witness :
  incl (columns Cases.no_scores) (columns Tables.scenario_prices) /\
  (len Tables.scenario_prices = 0 \/
   len Cases.no_scores < len Tables.scenario_prices - 1) /\
  sentiment_trading_strategy (K := insertion_argsort)
    Tables.scenario_prices Cases.no_scores
  = Raise IndexError.
Proof.
  assert (H1 : incl (columns Cases.no_scores)
                    (columns Tables.scenario_prices)) by apply incl_refl.
  assert (H2 : len Tables.scenario_prices = 0 \/
               len Cases.no_scores
               < len Tables.scenario_prices - 1)
    by (right; unfold len; simpl; lia).
  split; [exact H1|]. split; [exact H2|].
  exact (short_tables_raise_index_error insertion_argsort
           insertion_argsort_spec Tables.scenario_prices
           Cases.no_scores H1 H2).
Defined.

(** X4.  When one of the first day's top-ranked assets has no column in
    the price table, the sentiment strategy raises KeyError. *)
Theorem unpriced_candidate_raises_key_error (K : Argsort)
    (price_data sentiment_data : DataFrame) (stock : asset) :
  1 < len price_data -> 0 < len sentiment_data ->
  In stock (top_stocks_of (row_of sentiment_data 0)) ->
  ~ In stock (columns price_data) ->
  sentiment_trading_strategy price_data sentiment_data = Raise KeyError.
Proof.
  intros Hp Hs Hin Hmissing. unfold sentiment_trading_strategy.
  destruct (index_at_ok price_data 0) as (d & ->); [lia|]. cbn [bind].
  replace (len price_data - 1) with (S (len price_data - 2)) by lia.
  cbn [seq for_each]. unfold rebalance at 1.
  rewrite iloc_ok by assumption. cbn [bind].
  rewrite (valid_among_key_error price_data 0 _ stock); try assumption;
    [reflexivity|lia].
Qed.

Lemma unpriced_candidate_witness :
  1 < len Tables.flat_prices /\ 0 < len Cases.stray_scores /\
  In "C"%string
     (top_stocks_of (K := insertion_argsort)
        (row_of Cases.stray_scores 0)) /\
  ~ In "C"%string (columns Tables.flat_prices) /\
  sentiment_trading_strategy (K := insertion_argsort) Tables.flat_prices
    Cases.stray_scores
  = Raise KeyError.
Proof.
  assert (H1 : 1 < len Tables.flat_prices) by (unfold len; simpl; lia).
  assert (H2 : 0 < len Cases.stray_scores)
    by (unfold len; simpl; lia).
  assert (H3 : In "C"%string
                 (top_stocks_of (K := insertion_argsort)
                    (row_of Cases.stray_scores 0)))
    by (vm_compute; now left).
  assert (H4 : ~ In "C"%string (columns Tables.flat_prices)).
  { simpl. intros [H|[H|[]]]; discriminate. }
  split; [exact H1|]. split; [exact H2|].
  split; [exact H3|]. split; [exact H4|].
  exact (unpriced_candidate_raises_key_error insertion_argsort
           Tables.flat_prices _ "C"%string H1 H2 H3 H4).
Defined.

(** ** The unit of the prices does not matter *)

Lemma sgn_scale (c x : Qc) :
  (0 < c)%Qc -> ((c * x ?= 0) = (x ?= 0))%Qc.
Proof.
  intros Hc.
  assert (E : (c * x = x / / c)%Qc)
    by (field; split; [now apply Qc_pos_neq0|discriminate]).
  rewrite E. apply sgn_div_pos.
  to_Q. now apply Qinv_lt_0_compat.
Qed.

Lemma Qc_eqb_scale (c x : Qc) :
  (0 < c)%Qc -> Qc_eqb (c * x) 0 = Qc_eqb x 0.
Proof. intros Hc. unfold Qc_eqb. now rewrite sgn_scale. Qed.

Lemma scale_special (c : Qc) (p : num) :
  (0 < c)%Qc -> (forall q, p <> Fin q) -> (Fin c * p)%num = p.
Proof.
  intros Hc Hp. apply (proj1 (Qcgt_alt _ _)) in Hc.
  destruct p as [q| | |]; [now destruct (Hp q)| | |reflexivity];
    cbn [mul sgn]; now rewrite Hc.
Qed.

Lemma scale_isna (c : Qc) (p : num) :
  (0 < c)%Qc -> isna (Fin c * p)%num = isna p.
Proof.
  intros Hc. destruct p as [q| | |]; [reflexivity| | |reflexivity];
    now rewrite scale_special by (assumption || discriminate).
Qed.

(** The return of an asset is the same in every unit. *)
Lemma scale_return (c : Qc) (p0 p1 : num) :
  (0 < c)%Qc ->
  ((Fin c * p1 - Fin c * p0) / (Fin c * p0))%num = ((p1 - p0) / p0)%num.
Proof.
  intros Hc. assert (Hne := Qc_pos_neq0 _ Hc).
  destruct p0 as [b| | |]; destruct p1 as [a| | |];
    rewrite ?(scale_special c PInf), ?(scale_special c NInf),
      ?(scale_special c NaN) by (assumption || discriminate);
    try reflexivity;
    cbn [mul sub neg add div sgn]; rewrite Qc_eqb_scale by assumption.
  - (* both prices are real *)
    assert (E : (c * a + - (c * b) = c * (a + - b))%Qc) by ring.
    destruct (Qc_eqb b 0) eqn:Eb.
    + cbn [sgn]. now rewrite E, sgn_scale.
    + f_equal. field. split; [|assumption].
      intros ->. now rewrite Qc_eqb_refl in Eb.
  - now rewrite sgn_scale.
  - now rewrite sgn_scale.
Qed.

Lemma for_each_ext {S A : Type} (body body' : S -> A -> result S)
    (items : list A) (s : S) :
  (forall s x, body s x = body' s x) ->
  for_each body items s = for_each body' items s.
Proof.
  intros H. revert s. induction items as [|x rest IH]; intros s; simpl;
    [reflexivity|].
  rewrite H. destruct (body' s x); simpl; auto.
Qed.

Lemma loc_scale (c : Qc) (df : DataFrame) (t : nat) (stock : asset) :
  loc (scale_prices c df) t stock
  = result_map (mul (Fin c)) (loc df t stock).
Proof.
  unfold loc, index_at, has_column. cbn [scale_prices index columns cell].
  destruct (nth_error (index df) t); cbn [bind result_map]; [|reflexivity].
  now destruct (existsb (String.eqb stock) (columns df)).
Qed.

Lemma valid_among_scale (c : Qc) (df : DataFrame) (t : nat)
    (stocks : list asset) :
  (0 < c)%Qc ->
  valid_among (scale_prices c df) t stocks = valid_among df t stocks.
Proof.
  intros Hc. induction stocks as [|s rest IH]; [reflexivity|].
  cbn [valid_among]. rewrite loc_scale, IH.
  destruct (loc df t s) as [p|e]; cbn [result_map bind]; [|reflexivity].
  now rewrite scale_isna.
Qed.

Lemma add_stock_return_scale (c : Qc) (df : DataFrame) (t : nat) (n : num)
    (portfolio_return : num) (stock : asset) :
  (0 < c)%Qc ->
  add_stock_return (scale_prices c df) t n portfolio_return stock
  = add_stock_return df t n portfolio_return stock.
Proof.
  intros Hc. unfold add_stock_return. rewrite !loc_scale.
  destruct (loc df t stock) as [p0|e]; cbn [result_map bind]; [|reflexivity].
  destruct (loc df (t + 1) stock) as [p1|e]; cbn [result_map bind];
    [|reflexivity].
  now rewrite scale_isna, scale_return.
Qed.

(** X5.  Quoting every price in another unit, that is multiplying the
    whole price table by a positive constant, changes nothing in what
    the sentiment strategy returns or raises.  (The arithmetic is
    exact; the rounding of the scaled prices is outside the model.) *)
Theorem sentiment_strategy_ignores_price_unit (K : Argsort) (c : Qc)
    (price_data sentiment_data : DataFrame) :
  (0 < c)%Qc ->
  sentiment_trading_strategy (scale_prices c price_data) sentiment_data
  = sentiment_trading_strategy price_data sentiment_data.
Proof.
  intros Hc. unfold sentiment_trading_strategy.
  assert (Ebody : forall st t,
             rebalance (scale_prices c price_data) sentiment_data st t
             = rebalance price_data sentiment_data st t).
  { intros st t. unfold rebalance.
    destruct (iloc sentiment_data t) as [row|e]; cbn [bind]; [|reflexivity].
    rewrite valid_among_scale by assumption.
    destruct (valid_among price_data t (top_stocks_of row)) as [valid|e];
      cbn [bind]; [|reflexivity].
    destruct (length valid =? 0); [reflexivity|].
    rewrite (for_each_ext _ (add_stock_return price_data t
                               (of_nat (length valid))));
      [reflexivity|].
    intros r stock. now apply add_stock_return_scale. }
  rewrite (for_each_ext _ _ _ _ Ebody). reflexivity.
Qed.

Lemma sentiment_strategy_ignores_price_unit_witness :
  (0 < Q2Qc 100)%Qc /\
  sentiment_trading_strategy (K := insertion_argsort)
    (scale_prices (Q2Qc 100) Tables.scenario_prices) Tables.scenario_scores
  = sentiment_trading_strategy (K := insertion_argsort)
      Tables.scenario_prices Tables.scenario_scores.
Proof.
  assert (H : (0 < Q2Qc 100)%Qc) by (vm_compute; reflexivity).
  split; [exact H|].
  exact (sentiment_strategy_ignores_price_unit insertion_argsort (Q2Qc 100)
           Tables.scenario_prices Tables.scenario_scores H).
Defined.

(** ** Buy and hold: how the call ends *)

Lemma buy_and_hold_no_rows (price_data : DataFrame) :
  columns price_data <> [] -> len price_data = 0 ->
  buy_and_hold_strategy price_data = Raise IndexError.
Proof.
  intros Hcols Hlen. unfold buy_and_hold_strategy.
  destruct (columns price_data) as [|s rest] eqn:E; [contradiction|].
  cbn [length Nat.eqb]. unfold initial_shares. rewrite E.
  cbn [map_result]. unfold loc at 1, index_at.
  destruct (nth_error (index price_data) 0) eqn:En; [|reflexivity].
  assert (H : nth_error (index price_data) 0 <> None) by congruence.
  apply nth_error_Some in H. unfold len in Hlen. lia.
Qed.

(** X6.  [buy_and_hold_strategy] raises ZeroDivisionError on a table
    without columns and IndexError on a table with columns and no
    rows; on every other table it returns a frame with one value and
    one return per date, dated by the whole index, whose first return
    is 0. *)
Theorem buy_and_hold_outcome (price_data : DataFrame) :
  (columns price_data = [] ->
   buy_and_hold_strategy price_data = Raise ZeroDivisionError) /\
  (columns price_data <> [] -> len price_data = 0 ->
   buy_and_hold_strategy price_data = Raise IndexError) /\
  (columns price_data <> [] -> 0 < len price_data ->
   exists df,
     buy_and_hold_strategy price_data = Ok df /\
     Date df = index price_data /\
     length (Portfolio_Value df) = len price_data /\
     length (Daily_Return df) = len price_data /\
     nth 0 (Daily_Return df) NaN = zero).
Proof.
  split; [|split].
  - intros E. unfold buy_and_hold_strategy. now rewrite E.
  - apply buy_and_hold_no_rows.
  - intros Hcols Hlen.
    destruct (buy_and_hold_eq price_data Hcols Hlen)
      as (values & returns & E & Hv & Hr & Hrec).
    eexists. split; [exact E|]. cbn [Date Portfolio_Value Daily_Return].
    repeat split; try assumption.
    destruct (Hrec 0 Hlen) as [_ H0]. exact H0.
Qed.

Lemma buy_and_hold_outcome_witness :
  buy_and_hold_strategy (new_frame Tables.days2 [])
  = Raise ZeroDivisionError /\
  buy_and_hold_strategy Cases.no_scores = Raise IndexError /\
  exists df,
    buy_and_hold_strategy Tables.scenario_prices = Ok df /\
    Date df = index Tables.scenario_prices /\
    length (Portfolio_Value df) = len Tables.scenario_prices /\
    length (Daily_Return df) = len Tables.scenario_prices /\
    nth 0 (Daily_Return df) NaN = zero.
Proof.
  split; [|split].
  - exact (proj1 (buy_and_hold_outcome (new_frame Tables.days2 []))
             eq_refl).
  - apply (proj1 (proj2 (buy_and_hold_outcome Cases.no_scores)));
      [discriminate|reflexivity].
  - apply (proj2 (proj2 (buy_and_hold_outcome Tables.scenario_prices)));
      [discriminate|unfold len; simpl; lia].
Defined.

(** ** Buy and hold: days without prices, days at cost *)

Lemma holdings_value_all_missing (price_data : DataFrame) (t : nat)
    (shares : list (asset * num)) :
  (forall h, In h shares -> isna (cell price_data t (fst h)) = true) ->
  holdings_value price_data t shares = zero.
Proof.
  unfold holdings_value. generalize zero as acc.
  induction shares as [|h rest IH]; intros acc H; [reflexivity|].
  cbn [fold_left]. rewrite (H h) by now left.
  apply IH. intros h' Hh'. apply H. now right.
Qed.

(** X7.  On a date on which every price is missing the computed total
    is 0 and the fallback fires: after the first date the value of the
    day before is repeated, with return 0 when that value is a real
    number; on the first date the value is the initial capital. *)
Theorem all_missing_day_carries_forward (price_data : DataFrame) (t : nat) :
  columns price_data <> [] ->
  t < len price_data ->
  (forall stock, In stock (columns price_data) ->
                 isna (cell price_data t stock) = true) ->
  exists df,
    buy_and_hold_strategy price_data = Ok df /\
    nth t (Portfolio_Value df) NaN
    = (if 0 <? t then nth (t - 1) (Portfolio_Value df) NaN
       else of_Z INITIAL_CAPITAL) /\
    (0 < t -> forall q, nth (t - 1) (Portfolio_Value df) NaN = Fin q ->
     nth t (Daily_Return df) NaN = zero).
Proof.
  intros Hcols Ht Hna.
  destruct (buy_and_hold_eq price_data Hcols) as
    (values & returns & E & Hv & Hr & Hrec); [lia|].
  eexists. split; [exact E|]. cbn [Portfolio_Value Daily_Return].
  destruct (Hrec t Ht) as [Eval Eret].
  assert (Etotal : holdings_value price_data t (shares_of price_data) = zero).
  { apply holdings_value_all_missing. intros h Hh.
    apply Hna. now apply shares_of_columns. }
  assert (Hcarry : nth t values NaN
                   = if 0 <? t then nth (t - 1) values NaN
                     else of_Z INITIAL_CAPITAL).
  { rewrite Eval. unfold held_value. rewrite Etotal. reflexivity. }
  split; [exact Hcarry|].
  intros Hpos q Hq. rewrite Eret, Hcarry.
  apply Nat.ltb_lt in Hpos. rewrite Hpos, Hq.
  apply zero_return.
  assert (Hall : Forall (fun v => ltb zero v = true) values).
  { apply (hold_values_positive price_data); [assumption|].
    intros t' Ht'. now apply Hrec. }
  rewrite Forall_forall in Hall.
  assert (Hprev : ltb zero (nth (t - 1) values NaN) = true)
    by (apply Hall, nth_In; apply Nat.ltb_lt in Hpos; lia).
  rewrite Hq in Hprev. now apply Qc_ltb_lt in Hprev.
Qed.

Lemma all_missing_day_witness :
  columns Cases.closed_day_prices <> [] /\
  1 < len Cases.closed_day_prices /\
  (forall stock, In stock (columns Cases.closed_day_prices) ->
                 isna (cell Cases.closed_day_prices 1 stock) = true) /\
  exists df,
    buy_and_hold_strategy Cases.closed_day_prices = Ok df /\
    nth 1 (Portfolio_Value df) NaN
    = (if 0 <? 1 then nth (1 - 1) (Portfolio_Value df) NaN
       else of_Z INITIAL_CAPITAL) /\
    (0 < 1 -> forall q, nth (1 - 1) (Portfolio_Value df) NaN = Fin q ->
     nth 1 (Daily_Return df) NaN = zero).
Proof.
  assert (H1 : columns Cases.closed_day_prices <> []) by discriminate.
  assert (H2 : 1 < len Cases.closed_day_prices) by (unfold len; simpl; lia).
  assert (H3 : forall stock, In stock (columns Cases.closed_day_prices) ->
                 isna (cell Cases.closed_day_prices 1 stock) = true).
  { intros stock H. simpl in H. destruct H as [<-|[<-|[]]]; reflexivity. }
  split; [exact H1|]. split; [exact H2|]. split; [exact H3|].
  exact (all_missing_day_carries_forward Cases.closed_day_prices 1 H1 H2 H3).
Defined.

(** ** Buy and hold: the value as a mean of price relatives *)

Lemma dropna_present (xs : list num) :
  Forall (fun x => isna x = false) xs -> dropna xs = xs.
Proof.
  induction 1 as [|x xs Hx _ IH]; [reflexivity|].
  simpl. rewrite Hx. simpl. now rewrite IH.
Qed.

Lemma Qc_mul_pos (a b : Qc) : (0 < a -> 0 < b -> 0 < a * b)%Qc.
Proof. intros Ha Hb. to_Q. now apply Qmult_lt_0_compat. Qed.

Lemma Qc_div_pos (a b : Qc) : (0 < a -> 0 < b -> 0 < a / b)%Qc.
Proof.
  intros Ha Hb. to_Q. apply Qmult_lt_0_compat; [assumption|].
  now apply Qinv_lt_0_compat.
Qed.

Lemma relatives_fold (price_data : DataFrame) (t : nat) (x : Qc)
    (stocks : list asset) :
  (forall stock, In stock stocks ->
     positive_real (cell price_data 0 stock) /\
     positive_real (cell price_data t stock)) ->
  exists r : Qc,
    (0 <= r)%Qc /\ (stocks <> [] -> (0 < r)%Qc) /\
    Forall (fun d => isna d = false)
           (map (price_relative price_data t) stocks) /\
    (forall b, fold_left add (map (price_relative price_data t) stocks)
                         (Fin b) = Fin (b + r)%Qc) /\
    (forall a,
       fold_left
         (fun total holding =>
            if isna (cell price_data t (fst holding)) then total
            else (total + snd holding * cell price_data t (fst holding))%num)
         (map (fun stock => (stock, (Fin x / cell price_data 0 stock)%num))
              stocks)
         (Fin a)
       = Fin (a + x * r)%Qc).
Proof.
  induction stocks as [|s rest IH]; intros H.
  - exists 0%Qc. split; [apply Qcle_refl|]. split; [congruence|].
    split; [constructor|]. split; intros; simpl; f_equal; ring.
  - destruct IH as (r & Hr0 & _ & Hfin & Hsum & Hval).
    { intros stock Hs. apply H. now right. }
    destruct (H s (or_introl eq_refl)) as [(p0 & E0 & Hp0) (pt & Et & Hpt)].
    assert (Hne := Qc_pos_neq0 _ Hp0).
    assert (Hrel : price_relative price_data t s = Fin (pt / p0)%Qc).
    { unfold price_relative. rewrite E0, Et. cbn [div].
      now rewrite (Qc_eqb_neq _ _ Hne). }
    assert (Hq : (0 < pt / p0)%Qc).
    { now apply Qc_div_pos. }
    exists (pt / p0 + r)%Qc.
    assert (Hsumpos : (0 < pt / p0 + r)%Qc).
    { revert Hq Hr0. to_Q. intros. lra. }
    split; [now apply Qclt_le_weak|]. split; [intros _; exact Hsumpos|].
    split; [|split].
    + cbn [map]. constructor; [now rewrite Hrel|assumption].
    + intros b. cbn [map fold_left]. rewrite Hrel. cbn [add].
      rewrite Hsum. f_equal. ring.
    + intros a.
      assert (Eterm : (Fin a + Fin x / Fin p0 * Fin pt)%num
                      = Fin (a + x / p0 * pt)%Qc).
      { cbn [div mul add]. now rewrite (Qc_eqb_neq _ _ Hne). }
      cbn [map fold_left fst snd]. rewrite E0, Et. cbn [isna].
      rewrite Eterm, Hval. f_equal. field. assumption.
Qed.

Lemma per_stock_capital (n : nat) :
  0 < n ->
  (of_Z INITIAL_CAPITAL / of_nat n)%num
  = Fin (Q2Qc (inject_Z INITIAL_CAPITAL) / Q2Qc (inject_Z (Z.of_nat n)))%Qc.
Proof.
  intros Hn. unfold of_nat, of_Z, of_Q. cbn [div].
  now rewrite (Qc_eqb_neq _ _ (Qc_pos_neq0 _ (nat_Qc_pos n Hn))).
Qed.

Lemma capital_pos : (0 < Q2Qc (inject_Z INITIAL_CAPITAL))%Qc.
Proof. to_Q. unfold Qlt. simpl. lia. Qed.

Lemma holdings_value_formula (price_data : DataFrame) (t : nat) :
  columns price_data <> [] ->
  (forall stock, In stock (columns price_data) ->
     positive_real (cell price_data 0 stock) /\
     positive_real (cell price_data t stock)) ->
  holdings_value price_data t (shares_of price_data)
  = (of_Z INITIAL_CAPITAL
     * mean (map (price_relative price_data t) (columns price_data)))%num /\
  ltb zero (holdings_value price_data t (shares_of price_data)) = true.
Proof.
  intros Hcols Hpos.
  assert (Hn : 0 < length (columns price_data))
    by (destruct (columns price_data); [contradiction|simpl; lia]).
  assert (Hnq := nat_Qc_pos _ Hn). assert (Hnn := Qc_pos_neq0 _ Hnq).
  set (n := Q2Qc (inject_Z (Z.of_nat (length (columns price_data))))) in *.
  set (x := (Q2Qc (inject_Z INITIAL_CAPITAL) / n)%Qc).
  destruct (relatives_fold price_data t x (columns price_data) Hpos)
    as (r & _ & Hr & Hfin & Hsum & Hval).
  specialize (Hr Hcols).
  assert (E : holdings_value price_data t (shares_of price_data)
              = Fin (0 + x * r)%Qc).
  { unfold holdings_value, shares_of.
    rewrite (per_stock_capital _ Hn). exact (Hval 0%Qc). }
  assert (Hx : (0 < x)%Qc).
  { apply Qc_div_pos; [apply capital_pos|exact Hnq]. }
  split.
  - rewrite E. unfold mean. rewrite (dropna_present _ Hfin), length_map.
    destruct (Nat.eqb_spec (length (columns price_data)) 0) as [E0|_]; [lia|].
    unfold total. change zero with (Fin 0%Qc). rewrite Hsum.
    unfold of_nat, of_Z, of_Q. fold n. cbn [div mul].
    rewrite (Qc_eqb_neq _ _ Hnn). f_equal. unfold x. field. assumption.
  - rewrite E. change zero with (Fin 0%Qc). apply Qc_ltb_lt.
    assert (H := Qc_mul_pos _ _ Hx Hr).
    revert H. to_Q. intros. lra.
Qed.



Lemma mean_of_ones {A : Type} (l : list A) :
  l <> [] -> mean (map (fun _ => one) l) = one.
Proof.
  intros Hl.
  assert (Hn : 0 < length l) by (destruct l; [contradiction|simpl; lia]).
  assert (Hnn := Qc_pos_neq0 _ (nat_Qc_pos _ Hn)).
  unfold mean. change one with (Fin 1%Qc).
  rewrite dropna_fin_copies, length_map.
  destruct (Nat.eqb_spec (length l) 0) as [E0|_]; [lia|].
  unfold total. change zero with (Fin 0%Qc). rewrite total_fin_copies.
  unfold of_nat, of_Z, of_Q. cbn [div]. rewrite (Qc_eqb_neq _ _ Hnn).
  f_equal. field. assumption.
Qed.

Lemma held_value_at_cost (price_data : DataFrame) (t : nat)
    (previous : num) :
  columns price_data <> [] ->
  (forall stock, In stock (columns price_data) ->
     positive_real (cell price_data 0 stock) /\
     cell price_data t stock = cell price_data 0 stock) ->
  held_value price_data t previous = of_Z INITIAL_CAPITAL.
Proof.
  intros Hcols H'.
  destruct (holdings_value_formula price_data t Hcols) as [Ef Hf].
  { intros stock Hs. destruct (H' stock Hs) as [Hp Ec].
    split; [assumption|]. now rewrite Ec. }
  unfold held_value. rewrite Hf, Ef.
  assert (Eone : map (price_relative price_data t) (columns price_data)
                 = map (fun _ => one) (columns price_data)).
  { apply map_ext_in. intros stock Hs.
    destruct (H' stock Hs) as [(p & Ep & Hp) Ec].
    unfold price_relative. rewrite Ec, Ep. cbn [div].
    rewrite (Qc_eqb_neq _ _ (Qc_pos_neq0 _ Hp)).
    change one with (Fin 1%Qc). f_equal. field.
    now apply Qc_pos_neq0. }
  rewrite Eone, (mean_of_ones _ Hcols).
  unfold one, of_Z, of_Q. cbn [mul]. f_equal; ring.
Qed.

(** X9.  On a date on which every asset has the positive price it had
    on the first date, the buy-and-hold value is exactly the initial
    capital; this holds for the first date itself as soon as all its
    prices are positive reals. *)
Theorem hold_value_at_cost (price_data : DataFrame) (t : nat) :
  columns price_data <> [] ->
  t < len price_data ->
  (forall stock, In stock (columns price_data) ->
     positive_real (cell price_data 0 stock) /\
     cell price_data t stock = cell price_data 0 stock) ->
  exists df,
    buy_and_hold_strategy price_data = Ok df /\
    nth t (Portfolio_Value df) NaN = of_Z INITIAL_CAPITAL /\
    nth 0 (Portfolio_Value df) NaN = of_Z INITIAL_CAPITAL.
Proof.
  intros Hcols Ht Hsame.
  destruct (buy_and_hold_eq price_data Hcols) as
    (values & returns & E & _ & _ & Hrec); [lia|].
  eexists. split; [exact E|]. cbn [Portfolio_Value].
  assert (G : forall t', t' < len price_data ->
            (forall stock, In stock (columns price_data) ->
               positive_real (cell price_data 0 stock) /\
               cell price_data t' stock = cell price_data 0 stock) ->
            nth t' values NaN = of_Z INITIAL_CAPITAL).
  { intros t' Ht' H'. destruct (Hrec t' Ht') as [-> _].
    now apply held_value_at_cost. }
  split; [now apply G|].
  apply G; [lia|].
  intros stock Hs. destruct (Hsame stock Hs) as [Hp _]. now split.
Qed.

Lemma hold_value_at_cost_witness :
  columns Tables.flat_prices <> [] /\
  1 < len Tables.flat_prices /\
  exists df,
    buy_and_hold_strategy Tables.flat_prices = Ok df /\
    nth 1 (Portfolio_Value df) NaN = of_Z INITIAL_CAPITAL /\
    nth 0 (Portfolio_Value df) NaN = of_Z INITIAL_CAPITAL.
Proof.
  assert (H1 : columns Tables.flat_prices <> []) by discriminate.
  assert (H2 : 1 < len Tables.flat_prices) by (unfold len; simpl; lia).
  split; [exact H1|]. split; [exact H2|].
  apply (hold_value_at_cost Tables.flat_prices 1 H1 H2).
  intros stock H. simpl in H.
  destruct H as [<-|[<-|[]]];
    (split; [eexists; (split; [reflexivity|]); to_Q; unfold Qlt; simpl; lia
            |reflexivity]).
Defined.

(** ** Buy and hold in another unit *)

(** A share count bought at prices in another unit. *)
Lemma share_scale (c : Qc) (per p0 : num) :
  (0 < c)%Qc ->
  (per / (Fin c * p0))%num
  = match (per / p0)%num with Fin y => Fin (y / c)%Qc | w => w end.
Proof.
  intros Hc. assert (Hne := Qc_pos_neq0 _ Hc).
  destruct p0 as [b| | |];
    rewrite ?(scale_special c PInf), ?(scale_special c NInf),
            ?(scale_special c NaN) by (assumption || discriminate).
  - destruct per as [x| | |]; cbn [mul div sgn];
      rewrite ?(Qc_eqb_scale c b Hc), ?(sgn_scale c b Hc);
      try reflexivity;
      destruct (Qc_eqb b 0) eqn:Eb.
    + now destruct (x ?= 0)%Qc.
    + f_equal. field. split; [|assumption].
      intros ->. now rewrite Qc_eqb_refl in Eb.
    + reflexivity.
    + now destruct (b ?= 0)%Qc.
    + reflexivity.
    + now destruct (b ?= 0)%Qc.
  - destruct per; try reflexivity. cbn [div].
    change zero with (Fin 0%Qc). cbv beta iota. f_equal. field. assumption.
  - destruct per; try reflexivity. cbn [div].
    change zero with (Fin 0%Qc). cbv beta iota. f_equal. field. assumption.
  - now destruct per.
Qed.

(** The value of a holding is the same in every unit. *)
Lemma holding_scale (c : Qc) (per p0 p : num) :
  (0 < c)%Qc ->
  (per / (Fin c * p0) * (Fin c * p))%num = (per / p0 * p)%num.
Proof.
  intros Hc. assert (Hne := Qc_pos_neq0 _ Hc).
  rewrite (share_scale c per p0 Hc).
  destruct (per / p0)%num as [y| | |]; destruct p as [a| | |];
    rewrite ?(scale_special c PInf), ?(scale_special c NInf),
            ?(scale_special c NaN) by (assumption || discriminate);
    cbn [mul sgn]; rewrite ?(sgn_scale c a Hc), ?(sgn_div_pos y c Hc);
    try reflexivity.
  f_equal. field. assumption.
Qed.

Lemma add_holdings_scale (c : Qc) (price_data : DataFrame) (t : nat)
    (per : num) (stocks : list asset) (acc : num) :
  (0 < c)%Qc ->
  for_each (add_holding (scale_prices c price_data) t)
           (map (fun stock =>
                   (stock, (per / (Fin c * cell price_data 0 stock))%num))
                stocks) acc
  = for_each (add_holding price_data t)
             (map (fun stock => (stock, (per / cell price_data 0 stock)%num))
                  stocks) acc.
Proof.
  intros Hc. revert acc.
  induction stocks as [|s rest IH]; intros acc; [reflexivity|].
  cbn [map for_each]. unfold add_holding at 1 3. cbn [fst snd].
  rewrite loc_scale.
  destruct (loc price_data t s) as [p|e]; cbn [result_map bind];
    [|reflexivity].
  rewrite (scale_isna c p Hc). destruct (isna p); [apply IH|].
  rewrite (holding_scale c per _ p Hc). apply IH.
Qed.

(** X10.  Quoting every price in another unit, that is multiplying the
    whole price table by a positive constant, changes nothing in what
    [buy_and_hold_strategy] returns or raises.  (The arithmetic is
    exact; the rounding of the scaled prices is outside the model.) *)
Theorem buy_and_hold_ignores_price_unit (c : Qc) (price_data : DataFrame) :
  (0 < c)%Qc ->
  buy_and_hold_strategy (scale_prices c price_data)
  = buy_and_hold_strategy price_data.
Proof.
  intros Hc.
  destruct (list_eq_dec string_dec (columns price_data) []) as [E|Hcols].
  { unfold buy_and_hold_strategy. cbn [scale_prices columns]. now rewrite E. }
  destruct (Nat.eq_dec (len price_data) 0) as [E0|Hlen].
  { rewrite !buy_and_hold_no_rows; trivial. }
  assert (Hpos : 0 < len price_data) by lia.
  unfold buy_and_hold_strategy.
  change (columns (scale_prices c price_data)) with (columns price_data).
  change (len (scale_prices c price_data)) with (len price_data).
  change (index (scale_prices c price_data)) with (index price_data).
  destruct (length (columns price_data) =? 0); [reflexivity|].
  cbv zeta. unfold initial_shares.
  change (columns (scale_prices c price_data)) with (columns price_data).
  rewrite (initial_shares_ok (scale_prices c price_data)),
          (initial_shares_ok price_data);
    try assumption; try apply incl_refl.
  cbn [bind scale_prices cell].
  erewrite for_each_ext; [reflexivity|].
  intros [portfolio_value daily_returns] t. unfold revalue.
  now rewrite (add_holdings_scale c price_data t _ _ zero Hc).
Qed.

Lemma buy_and_hold_ignores_price_unit_witness :
  (0 < Q2Qc (1 # 100))%Qc /\
  buy_and_hold_strategy (scale_prices (Q2Qc (1 # 100)) Tables.scenario_prices)
  = buy_and_hold_strategy Tables.scenario_prices.
Proof.
  assert (H : (0 < Q2Qc (1 # 100))%Qc) by reflexivity.
  split; [exact H|].
  exact (buy_and_hold_ignores_price_unit (Q2Qc (1 # 100))
           Tables.scenario_prices H).
Defined.

(** ** The metrics: how deep a drawdown can be *)

Lemma drawdown_above (q m : Qc) :
  (0 < q)%Qc -> (0 < m)%Qc ->
  exists d, ((Fin q - Fin m) / Fin m)%num = Fin d /\ (- (1) < d)%Qc.
Proof.
  intros Hq Hm. cbn [sub neg add div].
  assert (Hne := Qc_pos_neq0 _ Hm).
  rewrite (Qc_eqb_neq _ _ Hne).
  eexists. split; [reflexivity|].
  assert (E : ((q + - m) / m = q / m - 1)%Qc) by (field; assumption).
  rewrite E. assert (H := Qc_div_pos q m Hq Hm).
  revert H. to_Q. intros. lra.
Qed.

Lemma drawdowns_above (m : Qc) (xs : list num) :
  (0 < m)%Qc -> Forall positive_real xs ->
  Forall (fun d => exists q, d = Fin q /\ (- (1) < q)%Qc)
         (zip_with div (zip_with sub xs (cummax_from (Some (Fin m)) xs))
                   (cummax_from (Some (Fin m)) xs)).
Proof.
  intros Hm Hxs. revert m Hm.
  induction Hxs as [|x xs (q & -> & Hq) _ IH]; intros m Hm;
    [constructor|].
  cbn [cummax_from isna zip_with].
  destruct (ltb (Fin m) (Fin q)).
  - constructor; [now apply drawdown_above|now apply IH].
  - constructor; [now apply drawdown_above|now apply IH].
Qed.

Lemma min_fold_above (a : Qc) (ds : list num) :
  (- (1) < a)%Qc ->
  Forall (fun d => exists q, d = Fin q /\ (- (1) < q)%Qc) ds ->
  exists r,
    fold_left (fun m y => if ltb y m then y else m) ds (Fin a) = Fin r /\
    (- (1) < r)%Qc.
Proof.
  intros Ha Hds. revert a Ha.
  induction Hds as [|d ds (b & -> & Hb) _ IH]; intros a Ha;
    [now exists a|].
  cbn [fold_left ltb]. destruct (Qc_ltb b a); now apply IH.
Qed.

Section MetricsBounds.

Context {M : MathLib}.

(** X11.  For a series of positive real values the max_drawdown the
    metrics engine returns is at least -1: a drawdown is never more
    than the whole of the running maximum.  (The bound is stated
    weakly on purpose: the exact quotient stays above -1, but the
    rounded subtraction of the script can absorb a small value, and
    the drawdown is then -1.) *)
Theorem max_drawdown_at_least_minus_one (df : PortfolioFrame)
    (risk_free_rate : num) :
  Portfolio_Value df <> [] ->
  length (Daily_Return df) = length (Portfolio_Value df) ->
  Forall positive_real (Portfolio_Value df) ->
  exists m,
    calculate_metrics df risk_free_rate = Ok m /\
    leb (of_Z (-1)) (Max_Drawdown m) = true.
Proof.
  intros Hne Hlen Hpos.
  destruct (calculate_metrics_ok df risk_free_rate Hne Hlen)
    as (m & Em & _ & Edd).
  exists m. split; [exact Em|]. rewrite Edd. clear Em Edd m.
  destruct (Portfolio_Value df) as [|v vs]; [contradiction|].
  apply Forall_cons_iff in Hpos. destruct Hpos as ((q & -> & Hq) & Hvs).
  unfold cummax. cbn [cummax_from isna zip_with].
  assert (Habove := drawdowns_above q vs Hq Hvs).
  set (ds := zip_with div (zip_with sub vs (cummax_from (Some (Fin q)) vs))
                      (cummax_from (Some (Fin q)) vs)) in *.
  destruct (drawdown_above q q Hq Hq) as (d & Ed & Hd).
  rewrite Ed. unfold series_min. cbn [dropna filter isna negb].
  fold (dropna ds). rewrite (dropna_present ds).
  - destruct (min_fold_above d ds Hd Habove) as (r & -> & Hr).
    unfold of_Z, of_Q. apply leb_fin.
    revert Hr. to_Q. intros. change (inject_Z (-1)) with (- (1))%Q. lra.
  - eapply Forall_impl; [|exact Habove].
    now intros x (b & -> & _).
Qed.

(** X12.  On a frame with a single row the sample standard deviation
    is NaN; NaN passes the test [!= 0], so the Sharpe ratio is NaN, not
    0, and the volatility is NaN as well. *)
Theorem single_row_metrics_are_nan (df : PortfolioFrame)
    (risk_free_rate : num) :
  length (Portfolio_Value df) = 1 ->
  length (Daily_Return df) = 1 ->
  exists m,
    calculate_metrics df risk_free_rate = Ok m /\
    Sharpe_Ratio m = NaN /\
    Volatility m = NaN.
Proof.
  intros Hv Hr.
  assert (Hstd : forall xs : list num, length xs = 1 -> std xs = NaN).
  { intros xs Hxs. unfold std, var.
    assert (Hd : length (dropna xs) <= 1).
    { unfold dropna. rewrite <- Hxs. apply filter_length_le. }
    apply Nat.leb_le in Hd. now rewrite Hd. }
  unfold calculate_metrics.
  destruct (Portfolio_Value df) as [|v vs] eqn:Ev; [discriminate|].
  cbn [iloc_last bind]. rewrite Hr. cbn [Nat.eqb].
  eexists. split; [reflexivity|]. cbn [Sharpe_Ratio Volatility].
  rewrite !Hstd by (rewrite ?length_map; assumption).
  cbn [neb eqb negb]. split; [|reflexivity].
  now destruct (mean _).
Qed.

End MetricsBounds.

Lemma max_drawdown_at_least_witness :
  let df := {| Date := Tables.days3;
               Portfolio_Value := [of_Z 100; of_Z 120; of_Z 90];
               Daily_Return := [zero; of_Q (1 # 5); of_Q (-1 # 4)] |} in
  Portfolio_Value df <> [] /\
  length (Daily_Return df) = length (Portfolio_Value df) /\
  Forall positive_real (Portfolio_Value df) /\
  exists m,
    calculate_metrics (M := eval_math) df default_risk_free_rate = Ok m /\
    leb (of_Z (-1)) (Max_Drawdown m) = true.
Proof.
  intros df.
  assert (H1 : Portfolio_Value df <> []) by discriminate.
  assert (H2 : length (Daily_Return df) = length (Portfolio_Value df))
    by reflexivity.
  assert (H3 : Forall positive_real (Portfolio_Value df)).
  { repeat constructor;
      (eexists; split; [reflexivity|vm_compute; reflexivity]). }
  split; [exact H1|]. split; [exact H2|]. split; [exact H3|].
  exact (max_drawdown_at_least_minus_one (M := eval_math) df
           default_risk_free_rate H1 H2 H3).
Defined.

Lemma single_row_metrics_witness :
  let df := {| Date := ["d0"%string];
               Portfolio_Value := [of_Z INITIAL_CAPITAL];
               Daily_Return := [zero] |} in
  length (Portfolio_Value df) = 1 /\
  length (Daily_Return df) = 1 /\
  exists m,
    calculate_metrics (M := eval_math) df default_risk_free_rate = Ok m /\
    Sharpe_Ratio m = NaN /\
    Volatility m = NaN.
Proof.
  intros df. split; [reflexivity|]. split; [reflexivity|].
  exact (single_row_metrics_are_nan (M := eval_math) df
           default_risk_free_rate eq_refl eq_refl).
Defined.

(** ** The strategies seen through the metrics *)

Section MetricsOfRuns.

Context {M : MathLib}.

Lemma calculate_metrics_fields (df : PortfolioFrame) (risk_free_rate : num) :
  Portfolio_Value df <> [] ->
  length (Daily_Return df) = length (Portfolio_Value df) ->
  exists m,
    calculate_metrics df risk_free_rate = Ok m /\
    Total_Return m
    = ((last_of (Portfolio_Value df) - of_Z INITIAL_CAPITAL)
       / of_Z INITIAL_CAPITAL)%num /\
    Sharpe_Ratio m
    = (let excess_returns :=
         map (fun r => (r - risk_free_rate)%num) (Daily_Return df) in
       if neb (std excess_returns) zero
       then (mean excess_returns / std excess_returns
             * np_sqrt (of_Z 252))%num
       else zero) /\
    Max_Drawdown m
    = series_min
        (zip_with div
           (zip_with sub (Portfolio_Value df) (cummax (Portfolio_Value df)))
           (cummax (Portfolio_Value df))) /\
    Volatility m = (std (Daily_Return df) * np_sqrt (of_Z 252))%num.
Proof.
  intros Hne Hlen. unfold calculate_metrics.
  destruct (Portfolio_Value df) as [|v vs] eqn:Ev; [contradiction|].
  cbn [iloc_last bind].
  destruct (length (Daily_Return df) =? 0) eqn:E.
  { apply Nat.eqb_eq in E. rewrite E in Hlen. discriminate. }
  eexists. split; [reflexivity|]. repeat split; reflexivity.
Qed.

End MetricsOfRuns.

Lemma compound_nonempty (value : num) (returns : list num) :
  compound value returns <> [].
Proof.
  intros E. apply (f_equal (@length num)) in E.
  rewrite compound_length in E. discriminate.
Qed.

(** Real returns compound a real value by a real factor. *)
Lemma growth_real (returns : list num) :
  Forall (fun r => exists q, r = Fin q) returns ->
  exists g : Qc, forall a : Qc,
    last_of (compound (Fin a) returns) = Fin (a * g)%Qc /\
    fold_left (fun acc r => (acc * (one + r))%num) returns (Fin a)
    = Fin (a * g)%Qc.
Proof.
  induction 1 as [|r rest (q & ->) _ (g & IH)].
  - exists 1%Qc. intros a. unfold last_of. cbn [compound last fold_left].
    split; apply f_equal; ring.
  - exists ((1 + q) * g)%Qc. intros a.
    assert (E : (Fin a * (one + Fin q))%num = Fin (a * (1 + q))%Qc)
      by reflexivity.
    destruct (IH (a * (1 + q))%Qc) as [IHl IHf].
    split.
    + cbn [compound]. rewrite E. unfold last_of in *. cbn [last].
      destruct (compound (Fin (a * (1 + q))%Qc) rest) eqn:Ec.
      { now destruct (compound_nonempty _ _ Ec). }
      rewrite IHl. f_equal. ring.
    + cbn [fold_left]. rewrite E, IHf. f_equal. ring.
Qed.

Section RunMetrics.

Context {K : Argsort} {KS : ArgsortSpec K} {M : MathLib}.

(** X13.  When every present price is a positive real, the total return
    the metrics report for the sentiment strategy is the compounded
    daily returns: the product of one plus each recorded return, minus
    one. *)
Theorem total_return_is_compounded_returns
    (price_data sentiment_data : DataFrame) (risk_free_rate : num) :
  aligned price_data sentiment_data ->
  positive_prices price_data ->
  exists out m,
    sentiment_trading_strategy price_data sentiment_data = Ok out /\
    calculate_metrics (portfolio_df out) risk_free_rate = Ok m /\
    Total_Return m = (growth (Daily_Return (portfolio_df out)) - one)%num.
Proof.
  intros Hal Hprices.
  destruct (strategy_trace price_data sentiment_data Hal)
    as (out & E & _ & Hd & Hv & _).
  assert (Hreal : Forall (fun r => exists q, r = Fin q)
                         (tl (Daily_Return (portfolio_df out)))).
  { rewrite Hd. cbn [tl]. apply Forall_forall. intros r Hr.
    apply in_map_iff in Hr. destruct Hr as (t & <- & Ht).
    unfold step_days in Ht. apply filter_In in Ht.
    destruct Ht as [Ht D]. apply in_seq in Ht. apply negb_true_iff in D.
    destruct Hal as (Hlen & Hrows & Hcols).
    destruct (portfolio_return_ge price_data t
                (valid_stocks_at price_data sentiment_data t))
      as (q & -> & _); [now apply degenerate_false_nonempty| |eauto].
    intros stock Hs.
    destruct (valid_stock_facts _ _ _ _ Hcols Hs) as [Hin Hna].
    split.
    - destruct (Hprices t stock ltac:(lia) Hin) as [Ena|Hp]; [|exact Hp].
      rewrite Ena in Hna. discriminate.
    - destruct (Hprices (t + 1) stock ltac:(lia) Hin)
        as [Ena|(p & Ep & Hp)]; [now left|].
      right. exists p. split; [assumption|now apply Qclt_le_weak]. }
  destruct (growth_real _ Hreal) as (g & Hg).
  destruct (calculate_metrics_fields (portfolio_df out) risk_free_rate)
    as (m & Em & Etotal & _).
  { rewrite Hv. apply compound_nonempty. }
  { rewrite Hv, compound_length. rewrite Hd. reflexivity. }
  exists out, m. split; [exact E|]. split; [exact Em|].
  assert (Elast : last_of (Portfolio_Value (portfolio_df out))
                  = Fin (Q2Qc (inject_Z INITIAL_CAPITAL) * g)%Qc).
  { rewrite Hv. apply Hg. }
  assert (Egrowth : growth (Daily_Return (portfolio_df out))
                    = Fin (1 * (1 + 0) * g)%Qc).
  { destruct (Daily_Return (portfolio_df out)) as [|r0 rs];
      [discriminate Hd|].
    injection Hd as -> _. cbn [tl] in Hg.
    unfold growth. cbn [fold_left]. apply Hg. }
  rewrite Etotal, Elast, Egrowth.
  unfold of_Z, of_Q, one. cbn [sub neg add div].
  assert (Hc := Qc_pos_neq0 _ capital_pos).
  rewrite (Qc_eqb_neq _ _ Hc). apply f_equal.
  change (Q2Qc (inject_Z 1)) with 1%Qc. field. exact Hc.
Qed.

End RunMetrics.

Lemma total_return_witness :
  aligned Tables.scenario_prices Tables.scenario_scores /\
  positive_prices Tables.scenario_prices /\
  exists out m,
    sentiment_trading_strategy (K := insertion_argsort)
      Tables.scenario_prices Tables.scenario_scores = Ok out /\
    calculate_metrics (M := eval_math) (portfolio_df out)
      default_risk_free_rate = Ok m /\
    Total_Return m = (growth (Daily_Return (portfolio_df out)) - one)%num.
Proof.
  assert (Hal : aligned Tables.scenario_prices Tables.scenario_scores).
  { repeat split;
      [unfold len; simpl; lia|unfold len; simpl; lia|apply incl_refl]. }
  split; [exact Hal|]. split; [exact scenario_prices_positive|].
  exact (total_return_is_compounded_returns
           (K := insertion_argsort) (KS := insertion_argsort_spec)
           (M := eval_math)
           Tables.scenario_prices Tables.scenario_scores
           default_risk_free_rate Hal scenario_prices_positive).
Defined.

(** ** A market that does not move *)





Section FlatMarket.

Context {M : MathLib}.


End FlatMarket.


(** ** The score table *)

Lemma alternating_draws_spec : RandomStateSpec Cases.alternating_draws.
Proof.
  assert (Hdraw : forall g, in_unit_range (Cases.alternating_draw g)).
  { intros g. unfold Cases.alternating_draw.
    destruct (Nat.even g); split; vm_compute; congruence. }
  split.
  - intros g. apply Hdraw.
  - intros g n. revert g. induction n as [|n IH]; intros g; [reflexivity|].
    cbn [uniform_array Cases.alternating_draws Cases.alternating_array] in *.
    specialize (IH (S g)).
    destruct (Cases.alternating_array (S g) n). cbn [fst length] in *.
    now rewrite IH.
  - intros g n. revert g. induction n as [|n IH]; intros g; [constructor|].
    cbn [uniform_array Cases.alternating_draws Cases.alternating_array] in *.
    specialize (IH (S g)).
    destruct (Cases.alternating_array (S g) n). cbn [fst] in *.
    constructor; [apply Hdraw|assumption].
Qed.

Section ScoreTable.

Context {R : RandomState} {RS : RandomStateSpec R}.

Lemma fill_column_ok (dates : list date) (df : DataFrame) (g : rng)
    (ticker : asset) :
  index df = dates -> In ticker (columns df) ->
  exists df' g',
    fill_column dates (df, g) ticker = Ok (df', g') /\
    index df' = dates /\ columns df' = columns df /\
    (forall t, t < length dates -> unit_score (cell df' t ticker)) /\
    (forall t c, t < length dates ->
                 unit_score (cell df t c) -> unit_score (cell df' t c)).
Proof.
  intros Hidx Hin. unfold fill_column.
  assert (Hl := uniform_array_length g (length dates)).
  assert (Hr := uniform_array_range g (length dates)).
  destruct (uniform_array g (length dates)) as [draws g'].
  cbn [fst] in Hl, Hr. unfold set_column, len.
  rewrite length_map, Hl, Hidx, Nat.eqb_refl.
  apply has_column_In in Hin. rewrite Hin. cbn [bind].
  assert (Hdraw : forall t, t < length dates ->
                            unit_score (nth t (map Fin draws) NaN)).
  { intros t Ht. rewrite (nth_indep _ NaN (Fin 0%Qc))
      by (rewrite length_map; lia).
    rewrite (map_nth Fin). eexists. split; [reflexivity|].
    rewrite Forall_forall in Hr. apply Hr, nth_In. lia. }
  eexists _, _. split; [reflexivity|]. cbn [index columns cell].
  split; [congruence|]. split; [reflexivity|]. split.
  - intros t Ht. rewrite String.eqb_refl. now apply Hdraw.
  - intros t c Ht Hc. destruct (String.eqb c ticker); [|assumption].
    now apply Hdraw.
Qed.

Lemma simulate_news_sentiment_ok (tickers : list asset) (dates : list date)
    (g : rng) :
  exists df g',
    simulate_news_sentiment tickers dates g = Ok (df, g') /\
    index df = dates /\ columns df = tickers /\
    forall t stock, t < length dates -> In stock tickers ->
                    unit_score (cell df t stock).
Proof.
  unfold simulate_news_sentiment.
  destruct (for_each_inv (fill_column dates)
              (fun visited st =>
                 index (fst st) = dates /\ columns (fst st) = tickers /\
                 forall t stock, t < length dates -> In stock visited ->
                                 unit_score (cell (fst st) t stock))
              tickers (new_frame dates tickers, g))
    as ([df g'] & E & Hi & Hc & Hcells).
  - cbn [fst new_frame index columns]. repeat split. intros t stock _ [].
  - intros visited ticker rest [df0 g0] Eitems (Hi & Hc & Hcells).
    cbn [fst] in *.
    destruct (fill_column_ok dates df0 g0 ticker Hi)
      as (df' & g' & E & Hi' & Hc' & Hnew & Hold).
    { rewrite Hc, Eitems. apply in_elt. }
    exists (df', g'). split; [exact E|]. cbn [fst].
    split; [assumption|]. split; [congruence|].
    intros t stock Ht Hs. apply in_app_or in Hs.
    destruct Hs as [Hs|[<-|[]]]; [|now apply Hnew].
    apply Hold; [assumption|]. now apply Hcells.
  - exists df, g'. cbn [fst] in *. repeat split; assumption.
Qed.

Lemma fill_cell_facts (d : date) (df : DataFrame) (g : rng)
    (ticker : asset) :
  let df' := fst (fill_cell d (df, g) ticker) in
  index df' = index df /\ columns df' = columns df /\
  (forall t, nth t (index df) EmptyString = d ->
             unit_score (cell df' t ticker)) /\
  (forall t c, unit_score (cell df t c) -> unit_score (cell df' t c)).
Proof.
  unfold fill_cell. assert (Hr := uniform_range g).
  destruct (uniform g) as [draw g']. cbn [fst] in *.
  cbn [set_cell index columns cell]. repeat split.
  - intros t Ht. rewrite Ht, !String.eqb_refl. cbn [andb].
    eexists. now split.
  - intros t c Hc.
    destruct (String.eqb (nth t (index df) EmptyString) d && String.eqb c ticker);
      [|assumption].
    eexists. now split.
Qed.

Lemma fill_row_facts (d : date) (tickers : list asset) (st : DataFrame * rng) :
  let df' := fst (fold_left (fill_cell d) tickers st) in
  index df' = index (fst st) /\ columns df' = columns (fst st) /\
  (forall t stock, nth t (index (fst st)) EmptyString = d ->
                   In stock tickers -> unit_score (cell df' t stock)) /\
  (forall t c, unit_score (cell (fst st) t c) -> unit_score (cell df' t c)).
Proof.
  cbv zeta. revert st.
  induction tickers as [|ticker rest IH]; intros [df g].
  - cbn [fold_left fst]. repeat split; try tauto. intros t stock _ [].
  - cbn [fold_left].
    destruct (fill_cell_facts d df g ticker) as (Hi & Hc & Hnew & Hold).
    cbv zeta in Hi, Hc, Hnew, Hold.
    destruct (fill_cell d (df, g) ticker) as [df1 g1] eqn:E1.
    cbn [fst] in *.
    destruct (IH (df1, g1)) as (Hi' & Hc' & Hnew' & Hold'). cbn [fst] in *.
    split; [congruence|]. split; [congruence|]. split.
    + intros t stock Ht [<-|Hs].
      * apply Hold'. now apply Hnew.
      * apply Hnew'; [congruence|assumption].
    + intros t c Hcell. now apply Hold', Hold.
Qed.

Lemma fill_rows_facts (ds : list date) (tickers : list asset)
    (st : DataFrame * rng) :
  let df' := fst (fold_left (fun st d => fold_left (fill_cell d) tickers st)
                            ds st) in
  index df' = index (fst st) /\ columns df' = columns (fst st) /\
  (forall t stock, In (nth t (index (fst st)) EmptyString) ds ->
                   In stock tickers -> unit_score (cell df' t stock)) /\
  (forall t c, unit_score (cell (fst st) t c) -> unit_score (cell df' t c)).
Proof.
  cbv zeta. revert st. induction ds as [|d rest IH]; intros st.
  - cbn [fold_left]. repeat split; try tauto. intros t stock [].
  - cbn [fold_left].
    destruct (fill_row_facts d tickers st) as (Hi & Hc & Hnew & Hold).
    cbv zeta in Hi, Hc, Hnew, Hold.
    destruct (IH (fold_left (fill_cell d) tickers st))
      as (Hi' & Hc' & Hnew' & Hold').
    split; [congruence|]. split; [congruence|]. split.
    + intros t stock [Ht|Ht] Hs.
      * apply Hold'. now apply Hnew.
      * apply Hnew'; [congruence|assumption].
    + intros t c Hcell. now apply Hold', Hold.
Qed.

(** X15.  Whichever branch [compute_daily_sentiment] takes, it returns
    a table with the given dates as index and the given tickers as
    columns in which no score is missing: every cell is a real number
    in the range of the draws, from -1 up to but not including 1. *)
Theorem scores_are_complete {News : Type} (tickers : list asset)
    (dates : list date) (news_data : option News) (g : rng) :
  exists df g',
    compute_daily_sentiment tickers dates news_data g = Ok (df, g') /\
    index df = dates /\ columns df = tickers /\
    forall t stock, t < length dates -> In stock tickers ->
                    unit_score (cell df t stock).
Proof.
  destruct news_data as [news|]; cbn [compute_daily_sentiment];
    [|apply simulate_news_sentiment_ok].
  destruct (fill_rows_facts dates tickers (new_frame dates tickers, g))
    as (Hi & Hc & Hnew & _).
  cbv zeta in Hi, Hc, Hnew. cbn [fst new_frame index columns] in *.
  destruct (fold_left _ dates _) as [df g'] eqn:E. cbn [fst] in *.
  exists df, g'. repeat split; try assumption.
  intros t stock Ht Hs. apply Hnew; [|assumption]. now apply nth_In.
Qed.

End ScoreTable.

Lemma scores_are_complete_witness :
  exists df g',
    compute_daily_sentiment (R := Cases.alternating_draws) (News := unit)
      Tables.AB Tables.days3 None 0 = Ok (df, g') /\
    index df = Tables.days3 /\ columns df = Tables.AB /\
    forall t stock, t < length Tables.days3 -> In stock Tables.AB ->
                    unit_score (cell df t stock).
Proof.
  exact (scores_are_complete (R := Cases.alternating_draws)
           (RS := alternating_draws_spec) (News := unit)
           Tables.AB Tables.days3 None 0).
Defined.

(** ** The price table *)

Lemma filter_nil_all {A : Type} (f : A -> bool) (xs : list A) :
  filter f xs = [] -> forall x, In x xs -> f x = false.
Proof.
  intros E x Hx. destruct (f x) eqn:Ef; [|reflexivity].
  assert (H : In x (filter f xs)) by (apply filter_In; now split).
  rewrite E in H. destruct H.
Qed.

(** X16.  The price table [fetch_stock_data] returns has the columns of
    the download and, in order, exactly its rows that hold at least one
    price: no row of the result is entirely missing, each row of the
    result is a row of the download under the same date, and the result
    has no rows exactly when the download has no row with a price. *)
Theorem fetched_rows_have_a_price (P : PriceSource) (tickers : list asset)
    (start_date end_date : date) :
  let raw := yf_download_close tickers start_date end_date in
  let price_data := fetch_stock_data tickers start_date end_date in
  columns price_data = columns raw /\
  len price_data <= len raw /\
  (forall t, t < len price_data -> row_all_na price_data t = false) /\
  (exists source : list nat,
     length source = len price_data /\
     StronglySorted lt source /\
     (forall s, In s source <-> s < len raw /\ row_all_na raw s = false) /\
     forall t, t < len price_data ->
       nth t (index price_data) EmptyString
       = nth (nth t source 0) (index raw) EmptyString /\
       forall stock, cell price_data t stock
                     = cell raw (nth t source 0) stock) /\
  (len price_data = 0 <->
   forall s, s < len raw -> row_all_na raw s = true).
Proof.
  intros raw price_data. subst price_data. unfold fetch_stock_data.
  fold raw. unfold dropna_all, len. cbn [index columns cell].
  set (kept := filter (fun t => negb (row_all_na raw t))
                      (seq 0 (length (index raw)))).
  rewrite length_map.
  assert (Hkept : forall s, In s kept <->
                            s < length (index raw) /\ row_all_na raw s = false).
  { intros s. unfold kept. rewrite filter_In, in_seq, negb_true_iff.
    intuition lia. }
  split; [reflexivity|]. split.
  { unfold kept. etransitivity; [apply filter_length_le|].
    now rewrite length_seq. }
  split.
  { intros t Ht. unfold row_all_na. cbn [columns cell].
    apply (Hkept (nth t kept (length (index raw)))). now apply nth_In. }
  split.
  - exists kept. split; [reflexivity|]. split.
    { unfold kept. apply StronglySorted_filter, StronglySorted_seq. }
    split; [exact Hkept|].
    intros t Ht. split.
    + rewrite (nth_indep _ EmptyString
                 (nth (length (index raw)) (index raw) EmptyString))
        by (rewrite length_map; exact Ht).
      rewrite (map_nth (fun t => nth t (index raw) EmptyString)).
      now rewrite (nth_indep kept _ 0 Ht).
    + intros stock. now rewrite (nth_indep kept _ 0 Ht).
  - split.
    + intros E s Hs. apply length_zero_iff_nil in E.
      apply negb_false_iff.
      apply (filter_nil_all _ _ E). apply in_seq. lia.
    + intros H. apply length_zero_iff_nil. apply filter_none.
      intros s Hs. apply in_seq in Hs. rewrite H by lia. reflexivity.
Qed.

Lemma fetched_rows_witness :
  let price_data :=
    fetch_stock_data (P := Cases.holiday_source)
      Tables.AB START_DATE END_DATE in
  len price_data = 2 /\
  forall t, t < len price_data -> row_all_na price_data t = false.
Proof.
  intros price_data. split; [reflexivity|].
  exact (proj1 (proj2 (proj2
           (fetched_rows_have_a_price Cases.holiday_source
              Tables.AB START_DATE END_DATE)))).
Defined.

(** ** The whole run *)

Section WholeRun.

Context {K : Argsort} {KS : ArgsortSpec K} {M : MathLib}
        {P : PriceSource} {R : RandomState} {RS : RandomStateSpec R}.

(** X17.  [main] returns without metrics when the fetched price table
    is empty.  Otherwise, when the table has a column for each of the
    tickers, no step of [main] raises: the scores are drawn on the
    dates of the price table, both strategies return a frame, the
    metrics of both are computed, and [main] ends with the two metric
    records. *)
Theorem main_outcome (g : rng) :
  let price_data := fetch_stock_data NIFTY_50_TICKERS START_DATE END_DATE in
  (empty price_data = true -> main g = Ok None) /\
  (empty price_data = false ->
   incl NIFTY_50_TICKERS (columns price_data) ->
   exists sentiment_data g' out bh_portfolio sentiment_metrics bh_metrics,
     compute_daily_sentiment (News := unit) NIFTY_50_TICKERS
       (index price_data) None g = Ok (sentiment_data, g') /\
     index sentiment_data = index price_data /\
     sentiment_trading_strategy price_data sentiment_data = Ok out /\
     buy_and_hold_strategy price_data = Ok bh_portfolio /\
     calculate_metrics (portfolio_df out) default_risk_free_rate
     = Ok sentiment_metrics /\
     calculate_metrics bh_portfolio default_risk_free_rate = Ok bh_metrics /\
     main g = Ok (Some (sentiment_metrics, bh_metrics))).
Proof.
  intros price_data. unfold main. fold price_data. split.
  { now intros ->. }
  intros Hne Hcols. rewrite Hne.
  unfold empty in Hne. apply orb_false_iff in Hne.
  destruct Hne as [Hrows Hwidth].
  apply Nat.eqb_neq in Hrows, Hwidth.
  assert (Hlen : 0 < len price_data) by lia.
  assert (Hnonempty : columns price_data <> []).
  { intros E. rewrite E in Hwidth. now apply Hwidth. }
  destruct (simulate_news_sentiment_ok NIFTY_50_TICKERS (index price_data) g)
    as (sentiment_data & g' & Escores & Hidx & Hc & _).
  assert (Hal : aligned price_data sentiment_data).
  { split; [assumption|]. split.
    - unfold len. rewrite Hidx. lia.
    - now rewrite Hc. }
  destruct (strategy_trace price_data sentiment_data Hal)
    as (out & Eout & _ & Hd & Hv & _).
  destruct (calculate_metrics_fields (portfolio_df out) default_risk_free_rate)
    as (sentiment_metrics & Esm & _).
  { rewrite Hv. apply compound_nonempty. }
  { rewrite Hv, compound_length, Hd. reflexivity. }
  destruct (buy_and_hold_eq price_data Hnonempty Hlen)
    as (values & returns & Ebh & Hvl & Hrl & _).
  destruct (calculate_metrics_fields
              {| Date := index price_data;
                 Portfolio_Value := values;
                 Daily_Return := returns |} default_risk_free_rate)
    as (bh_metrics & Ebm & _); cbn [Portfolio_Value Daily_Return].
  { intros E. rewrite E in Hvl. simpl in Hvl. lia. }
  { lia. }
  exists sentiment_data, g', out,
         {| Date := index price_data;
            Portfolio_Value := values;
            Daily_Return := returns |},
         sentiment_metrics, bh_metrics.
  cbn [compute_daily_sentiment].
  split; [exact Escores|]. split; [exact Hidx|]. split; [exact Eout|].
  split; [exact Ebh|]. split; [exact Esm|]. split; [exact Ebm|].
  rewrite Escores. cbn [bind fst]. rewrite Eout. cbn [bind].
  rewrite Ebh. cbn [bind]. rewrite Esm. cbn [bind]. rewrite Ebm.
  reflexivity.
Qed.

End WholeRun.

Lemma main_outcome_witness :
  let price_data :=
    fetch_stock_data (P := Cases.steady_source)
      NIFTY_50_TICKERS START_DATE END_DATE in
  empty price_data = false /\
  incl NIFTY_50_TICKERS (columns price_data) /\
  exists sentiment_metrics bh_metrics,
    main (K := insertion_argsort) (M := eval_math)
         (P := Cases.steady_source) (R := Cases.alternating_draws) 0
    = Ok (Some (sentiment_metrics, bh_metrics)).
Proof.
  intros price_data.
  assert (H1 : empty price_data = false) by reflexivity.
  assert (H2 : incl NIFTY_50_TICKERS (columns price_data))
    by apply incl_refl.
  split; [exact H1|]. split; [exact H2|].
  destruct (main_outcome (K := insertion_argsort)
              (KS := insertion_argsort_spec) (M := eval_math)
              (P := Cases.steady_source) (R := Cases.alternating_draws)
              (RS := alternating_draws_spec) 0) as [_ H].
  destruct (H H1 H2) as (sd & g' & out & bh & sm & bm & _ & _ & _ & _ & _ & _ & E).
  exists sm, bm. exact E.
Defined.

(** ** The weights of the buy-and-hold line *)

Lemma hold_weights_fold (price_data : DataFrame) (t : nat) (x : Qc)
    (stocks : list asset) :
  (0 < x)%Qc ->
  (forall stock, In stock stocks ->
     positive_real (cell price_data 0 stock) /\
     positive_price (cell price_data t stock)) ->
  let shares :=
    map (fun stock => (stock, (Fin x / cell price_data 0 stock)%num)) stocks in
  exists S : Qc,
    (0 <= S)%Qc /\
    ((exists stock, In stock stocks /\
                    isna (cell price_data t stock) = false) -> (0 < S)%Qc) /\
    (forall b, fold_left
                 (fun total holding =>
                    if isna (cell price_data t (fst holding)) then total
                    else (total + snd holding
                                  * cell price_data t (fst holding))%num)
                 shares (Fin b)
               = Fin (b + S)%Qc) /\
    (forall T a, (0 < T)%Qc ->
       fold_left add (map snd (hold_weights price_data t shares (Fin T)))
                 (Fin a)
       = Fin (a + S / T)%Qc /\
       map fst (hold_weights_listed price_data t shares (Fin T))
       = filter (fun stock => negb (isna (cell price_data t stock))) stocks).
Proof.
  intros Hx. induction stocks as [|s rest IH]; intros H; cbv zeta.
  - exists 0%Qc. split; [apply Qcle_refl|]. split.
    { intros (stock & [] & _). }
    split.
    + intros b. cbn [map fold_left]. apply f_equal. ring.
    + intros T a HT. split; [|reflexivity].
      cbn [map hold_weights fold_left]. apply f_equal.
      field. now apply Qc_pos_neq0.
  - destruct IH as (S & HS0 & HSpos & Hval & Hw).
    { intros stock Hs. apply H. now right. }
    destruct (H s (or_introl eq_refl)) as [(p0 & E0 & Hp0) Hpt].
    assert (Hne := Qc_pos_neq0 _ Hp0).
    assert (Eshare : (Fin x / Fin p0)%num = Fin (x / p0)%Qc).
    { cbn [div]. now rewrite (Qc_eqb_neq _ _ Hne). }
    assert (Hshare := Qc_div_pos x p0 Hx Hp0).
    unfold hold_weights_listed, hold_weights in *.
    cbn [map fold_left filter fst snd]. rewrite E0, Eshare.
    destruct Hpt as [Ena|(p & Ep & Hp)].
    + (* no price on day t *)
      rewrite Ena. cbn [isna negb].
      exists S. split; [assumption|]. split.
      { intros (stock & [<-|Hs] & Hpresent).
        - rewrite Ena in Hpresent. discriminate.
        - apply HSpos. now exists stock. }
      split; [exact Hval|].
      intros T a HT. destruct (Hw T (a + 0)%Qc HT) as [Hsum Hlist].
      change (ltb zero zero) with false. cbv iota.
      split; [|exact Hlist].
      change (Fin a + zero)%num with (Fin (a + 0)%Qc).
      rewrite Hsum. apply f_equal. ring.
    + (* a positive price on day t *)
      rewrite Ep. cbn [isna negb mul add].
      assert (Hterm := Qc_mul_pos _ _ Hshare Hp).
      exists (x / p0 * p + S)%Qc.
      assert (Hsum0 : (0 < x / p0 * p + S)%Qc).
      { revert Hterm HS0. to_Q. intros. lra. }
      split; [now apply Qclt_le_weak|]. split; [intros _; exact Hsum0|].
      split.
      { intros b. rewrite Hval. apply f_equal. ring. }
      intros T a HT. assert (HTne := Qc_pos_neq0 _ HT).
      assert (Ew : (Fin (x / p0 * p) / Fin T)%num = Fin (x / p0 * p / T)%Qc).
      { cbn [div]. now rewrite (Qc_eqb_neq _ _ HTne). }
      rewrite Ew. cbn [add snd fst].
      destruct (Hw T (a + x / p0 * p / T)%Qc HT) as [Hsum Hlist].
      assert (Hpos : ltb zero (Fin (x / p0 * p / T)%Qc) = true).
      { change zero with (Fin 0%Qc). apply Qc_ltb_lt.
        now apply Qc_div_pos. }
      rewrite Hpos. cbn [map fst]. rewrite Hlist, Hsum.
      split; [|reflexivity]. apply f_equal. field. now split.
Qed.

(** X18.  On a date on which an asset has a price, all first-date
    prices being positive reals and the present prices of the date
    positive, the weights of the buy-and-hold line add up to 1, and the
    line lists exactly the assets that have a price on that date. *)
Theorem hold_weights_sum_to_one (price_data : DataFrame) (t : nat) :
  columns price_data <> [] ->
  t < len price_data ->
  (forall stock, In stock (columns price_data) ->
     positive_real (cell price_data 0 stock) /\
     positive_price (cell price_data t stock)) ->
  (exists stock, In stock (columns price_data) /\
                 isna (cell price_data t stock) = false) ->
  exists df,
    buy_and_hold_strategy price_data = Ok df /\
    let value := nth t (Portfolio_Value df) NaN in
    total (map snd (hold_weights price_data t (shares_of price_data) value))
    = one /\
    map fst (hold_weights_listed price_data t (shares_of price_data) value)
    = filter (fun stock => negb (isna (cell price_data t stock)))
             (columns price_data).
Proof.
  intros Hcols Ht Hprices Hsome.
  destruct (buy_and_hold_eq price_data Hcols) as
    (values & returns & E & _ & _ & Hrec); [lia|].
  eexists. split; [exact E|]. cbn [Portfolio_Value]. cbv zeta.
  destruct (Hrec t Ht) as [-> _].
  assert (Hn : 0 < length (columns price_data))
    by (destruct (columns price_data); [contradiction|simpl; lia]).
  assert (Hx : (0 < Q2Qc (inject_Z INITIAL_CAPITAL)
                    / Q2Qc (inject_Z (Z.of_nat (length (columns price_data)))))%Qc).
  { apply Qc_div_pos; [apply capital_pos|now apply nat_Qc_pos]. }
  destruct (hold_weights_fold price_data t _ (columns price_data) Hx Hprices)
    as (S & _ & HS & Hval & Hw).
  cbv zeta in Hval, Hw. specialize (HS Hsome).
  unfold held_value, holdings_value, shares_of.
  rewrite (per_stock_capital _ Hn).
  change zero with (Fin 0%Qc). rewrite (Hval 0%Qc).
  assert (HT : (0 < 0 + S)%Qc) by (revert HS; to_Q; intros; lra).
  cbn [ltb]. rewrite (proj2 (Qc_ltb_lt _ _) HT).
  destruct (Hw (0 + S)%Qc 0%Qc HT) as [Hsum Hlist].
  split; [|exact Hlist].
  unfold total. change zero with (Fin 0%Qc). rewrite Hsum.
  change one with (Fin 1%Qc). apply f_equal. field.
  now apply Qc_pos_neq0.
Qed.

Lemma hold_weights_witness :
  columns Cases.thin_day_prices <> [] /\
  1 < len Cases.thin_day_prices /\
  (exists stock, In stock (columns Cases.thin_day_prices) /\
                 isna (cell Cases.thin_day_prices 1 stock) = false) /\
  exists df,
    buy_and_hold_strategy Cases.thin_day_prices = Ok df /\
    let value := nth 1 (Portfolio_Value df) NaN in
    total (map snd (hold_weights Cases.thin_day_prices 1
                      (shares_of Cases.thin_day_prices) value))
    = one /\
    map fst (hold_weights_listed Cases.thin_day_prices 1
               (shares_of Cases.thin_day_prices) value)
    = filter (fun stock => negb (isna (cell Cases.thin_day_prices 1 stock)))
             (columns Cases.thin_day_prices).
Proof.
  assert (H1 : columns Cases.thin_day_prices <> []) by discriminate.
  assert (H2 : 1 < len Cases.thin_day_prices) by (unfold len; simpl; lia).
  assert (H3 : forall stock, In stock (columns Cases.thin_day_prices) ->
             positive_real (cell Cases.thin_day_prices 0 stock) /\
             positive_price (cell Cases.thin_day_prices 1 stock)).
  { intros stock H. simpl in H. destruct H as [<-|[<-|[]]].
    - split; [|right]; eexists; (split; [reflexivity|]);
        to_Q; unfold Qlt; simpl; lia.
    - split; [|now left]. eexists. split; [reflexivity|].
      to_Q. unfold Qlt. simpl. lia. }
  assert (H4 : exists stock, In stock (columns Cases.thin_day_prices) /\
                 isna (cell Cases.thin_day_prices 1 stock) = false).
  { exists "A"%string. split; [simpl; now left|reflexivity]. }
  split; [exact H1|]. split; [exact H2|]. split; [exact H4|].
  exact (hold_weights_sum_to_one Cases.thin_day_prices 1 H1 H2 H3 H4).
Defined.

(** ** The return of a step and the date it is filed under *)

Lemma mean_return_fold (price_data : DataFrame) (t : nat) (n : Qc)
    (stocks : list asset) :
  (0 < n)%Qc ->
  (forall stock, In stock stocks ->
     positive_real (cell price_data t stock) /\
     exists q, cell price_data (t + 1) stock = Fin q) ->
  exists S : Qc,
    (forall a,
       fold_left
         (fun portfolio_return stock =>
            if isna (cell price_data (t + 1) stock) then portfolio_return
            else (portfolio_return
                  + stock_return_at price_data t stock / Fin n)%num)
         stocks (Fin a)
       = Fin (a + S / n)%Qc) /\
    (forall b, fold_left add (map (stock_return_at price_data t) stocks)
                         (Fin b) = Fin (b + S)%Qc) /\
    Forall (fun r => isna r = false)
           (map (stock_return_at price_data t) stocks).
Proof.
  intros Hn. assert (Hnn := Qc_pos_neq0 _ Hn).
  induction stocks as [|s rest IH]; intros H.
  - exists 0%Qc. split; [|split; [|constructor]]; intros;
      cbn [map fold_left]; apply f_equal; [field; assumption|ring].
  - destruct IH as (S & Hret & Hsum & Hreal).
    { intros stock Hs. apply H. now right. }
    destruct (H s (or_introl eq_refl)) as [(p0 & E0 & Hp0) (p1 & E1)].
    assert (Hne := Qc_pos_neq0 _ Hp0).
    assert (Er : stock_return_at price_data t s = Fin ((p1 + - p0) / p0)%Qc).
    { unfold stock_return_at. rewrite E0, E1. cbn [sub neg add div].
      now rewrite (Qc_eqb_neq _ _ Hne). }
    exists ((p1 + - p0) / p0 + S)%Qc. split; [|split].
    + intros a. cbn [fold_left]. rewrite E1 at 1. cbn [isna].
      rewrite Er. cbn [div add]. rewrite (Qc_eqb_neq _ _ Hnn).
      rewrite Hret. apply f_equal. field. now split.
    + intros b. cbn [map fold_left]. rewrite Er. cbn [add].
      rewrite Hsum. apply f_equal. ring.
    + cbn [map]. constructor; [now rewrite Er|assumption].
Qed.

Lemma portfolio_return_is_mean (price_data : DataFrame) (t : nat)
    (valid_stocks : list asset) :
  valid_stocks <> [] ->
  (forall stock, In stock valid_stocks ->
     positive_real (cell price_data t stock) /\
     exists q, cell price_data (t + 1) stock = Fin q) ->
  portfolio_return_at price_data t valid_stocks
  = mean (map (stock_return_at price_data t) valid_stocks).
Proof.
  intros Hne H.
  assert (Hlen : 0 < length valid_stocks)
    by (destruct valid_stocks; [contradiction|simpl; lia]).
  assert (Hn := nat_Qc_pos _ Hlen).
  destruct (mean_return_fold price_data t _ valid_stocks Hn H)
    as (S & Hret & Hsum & Hreal).
  unfold portfolio_return_at, mean.
  rewrite (dropna_present _ Hreal), length_map.
  destruct (Nat.eqb_spec (length valid_stocks) 0) as [E0|_]; [lia|].
  unfold total, of_nat, of_Z, of_Q. change zero with (Fin 0%Qc).
  rewrite (Hret 0%Qc), (Hsum 0%Qc). cbn [div].
  rewrite (Qc_eqb_neq _ _ (Qc_pos_neq0 _ Hn)).
  apply f_equal. field. now apply Qc_pos_neq0.
Qed.

Lemma nth_filter_seq (f : nat -> bool) (n a i : nat) :
  i < length (filter f (seq a n)) ->
  let t := nth i (filter f (seq a n)) 0 in
  a + i <= t /\
  (t = a + i <-> forall s, a <= s -> s < t -> f s = true).
Proof.
  cbv zeta. revert a i. induction n as [|n IH]; intros a i Hi.
  - simpl in Hi. lia.
  - cbn [seq filter] in *. destruct (f a) eqn:Ea.
    + destruct i as [|i]; cbn [nth].
      * split; [lia|]. split; [intros _ s; lia|lia].
      * cbn [length] in Hi. destruct (IH (S a) i ltac:(lia)) as [Hle Hiff].
        split; [lia|]. split.
        -- intros E s Hs Hst.
           destruct (Nat.eq_dec s a) as [->|Hsa]; [assumption|].
           apply Hiff; lia.
        -- intros H. assert (nth i (filter f (seq (S a) n)) 0 = S a + i);
             [|lia].
           apply Hiff. intros s Hs Hst. apply H; lia.
    + destruct (IH (S a) i Hi) as [Hle Hiff].
      split; [lia|]. split; [lia|].
      intros H. specialize (H a ltac:(lia) ltac:(lia)). congruence.
Qed.

Section StepFacts.

Context {K : Argsort} {KS : ArgsortSpec K}.

(** X19.  The return recorded for a step whose held assets all have a
    positive price on the day and a price on the next day is the plain
    mean of the returns of the held assets: the portfolio is weighted
    equally. *)
Theorem step_return_is_mean_return (price_data sentiment_data : DataFrame)
    (i : nat) :
  aligned price_data sentiment_data ->
  i < length (step_days price_data sentiment_data) ->
  let t := nth i (step_days price_data sentiment_data) 0 in
  (forall stock, In stock (valid_stocks_at price_data sentiment_data t) ->
     positive_real (cell price_data t stock) /\
     exists q, cell price_data (t + 1) stock = Fin q) ->
  exists out,
    sentiment_trading_strategy price_data sentiment_data = Ok out /\
    nth i (holdings_out out) []
    = valid_stocks_at price_data sentiment_data t /\
    nth (S i) (Daily_Return (portfolio_df out)) NaN
    = mean (map (stock_return_at price_data t)
                (nth i (holdings_out out) [])).
Proof.
  intros Hal Hi t Hprices.
  destruct (strategy_trace price_data sentiment_data Hal)
    as (out & E & Hh & Hd & _).
  exists out. split; [exact E|].
  assert (Eheld : nth i (holdings_out out) []
                  = valid_stocks_at price_data sentiment_data t).
  { rewrite Hh.
    rewrite (nth_indep _ [] (valid_stocks_at price_data sentiment_data 0))
      by (now rewrite length_map).
    apply (map_nth (valid_stocks_at price_data sentiment_data)). }
  split; [exact Eheld|].
  rewrite Eheld, Hd. cbn [nth].
  rewrite (nth_indep _ NaN
             ((fun t => portfolio_return_at price_data t
                          (valid_stocks_at price_data sentiment_data t)) 0))
    by (now rewrite length_map).
  rewrite (map_nth (fun t => portfolio_return_at price_data t
                               (valid_stocks_at price_data sentiment_data t))).
  fold t. apply portfolio_return_is_mean; [|assumption].
  apply degenerate_false_nonempty.
  assert (Ht : In t (step_days price_data sentiment_data))
    by now apply nth_In.
  unfold step_days in Ht. apply filter_In in Ht.
  now apply negb_true_iff.
Qed.

(** X20.  The sentiment strategy files the value of a step under the
    wrong date once a day has been skipped.  Row [i + 1] of the
    returned frame belongs to the step of day [t], the day of the
    [i]-th holdings record: its return is the return of the assets
    held on day [t] from the prices of day [t] to those of day
    [t + 1], and its value is the value of row [i] grown by that
    return.  The row is dated by the date at position [i + 1], the
    frame being dated by the leading dates of the price table.  That
    position is [t + 1] exactly when no day before [t] was degenerate;
    otherwise, the dates being distinct, the row carries an earlier
    date than the one its prices belong to. *)
Theorem values_are_filed_under_leading_dates
    (price_data sentiment_data : DataFrame) :
  aligned price_data sentiment_data ->
  exists out,
    sentiment_trading_strategy price_data sentiment_data = Ok out /\
    Date (portfolio_df out)
    = firstn (length (Portfolio_Value (portfolio_df out)))
             (index price_data) /\
    length (Portfolio_Value (portfolio_df out))
    = S (length (holdings_out out)) /\
    length (holdings_out out)
    = length (step_days price_data sentiment_data) /\
    forall i, i < length (holdings_out out) ->
      let t := nth i (step_days price_data sentiment_data) 0 in
      t < len price_data - 1 /\
      nth i (holdings_out out) []
      = valid_stocks_at price_data sentiment_data t /\
      nth i (holdings_out out) [] <> [] /\
      nth (S i) (Daily_Return (portfolio_df out)) NaN
      = portfolio_return_at price_data t (nth i (holdings_out out) []) /\
      nth (S i) (Portfolio_Value (portfolio_df out)) NaN
      = (nth i (Portfolio_Value (portfolio_df out)) NaN
         * (one + nth (S i) (Daily_Return (portfolio_df out)) NaN))%num /\
      nth (S i) (Date (portfolio_df out)) EmptyString
      = nth (S i) (index price_data) EmptyString /\
      i <= t /\
      (i = t <-> forall s, s < t ->
                   degenerate price_data sentiment_data s = false) /\
      (NoDup (index price_data) ->
       (exists s, s < t /\
                  degenerate price_data sentiment_data s = true) ->
       nth (S i) (Date (portfolio_df out)) EmptyString
       <> nth (S t) (index price_data) EmptyString).
Proof.
  intros Hal.
  destruct (strategy_trace price_data sentiment_data Hal)
    as (out & E & Hh & Hd & Hv & Hdate & _).
  exists out. split; [exact E|].
  assert (Hheld : length (holdings_out out)
                  = length (step_days price_data sentiment_data))
    by (now rewrite Hh, length_map).
  assert (Hlen : length (Portfolio_Value (portfolio_df out))
                 = S (length (step_days price_data sentiment_data))).
  { rewrite Hv, compound_length, Hd. cbn [tl]. now rewrite length_map. }
  split; [now rewrite Hlen|]. split; [now rewrite Hlen, Hheld|].
  split; [exact Hheld|].
  intros i Hi t. rewrite Hheld in Hi.
  assert (Ht : In t (step_days price_data sentiment_data))
    by now apply nth_In.
  unfold step_days in Ht. apply filter_In in Ht.
  destruct Ht as [Ht D]. apply in_seq in Ht. apply negb_true_iff in D.
  assert (Eheld : nth i (holdings_out out) []
                  = valid_stocks_at price_data sentiment_data t).
  { rewrite Hh.
    rewrite (nth_indep _ [] (valid_stocks_at price_data sentiment_data 0))
      by (now rewrite length_map).
    apply (map_nth (valid_stocks_at price_data sentiment_data)). }
  assert (Eret : nth (S i) (Daily_Return (portfolio_df out)) NaN
                 = portfolio_return_at price_data t
                     (valid_stocks_at price_data sentiment_data t)).
  { rewrite Hd. cbn [nth].
    rewrite (nth_indep _ NaN
               ((fun t => portfolio_return_at price_data t
                            (valid_stocks_at price_data sentiment_data t)) 0))
      by (now rewrite length_map).
    apply (map_nth (fun t => portfolio_return_at price_data t
                               (valid_stocks_at price_data sentiment_data t))). }
  assert (Edate : nth (S i) (Date (portfolio_df out)) EmptyString
                  = nth (S i) (index price_data) EmptyString).
  { rewrite Hdate.
    rewrite <- (firstn_skipn (S (length (step_days price_data sentiment_data)))
                  (index price_data)) at 2.
    assert (Hb := step_days_bound price_data sentiment_data).
    destruct Hal as (Hpos & _).
    rewrite app_nth1; [reflexivity|].
    rewrite length_firstn. fold (len price_data). lia. }
  destruct (nth_filter_seq
              (fun t => negb (degenerate price_data sentiment_data t))
              (len price_data - 1) 0 i Hi) as [Hle Hiff].
  cbv zeta in Hle, Hiff. cbn [Nat.add] in Hle, Hiff.
  fold (step_days price_data sentiment_data) in Hle, Hiff. fold t in Hle, Hiff.
  assert (Hsame : i = t <-> forall s, s < t ->
                    degenerate price_data sentiment_data s = false).
  { split.
    - intros Eq s Hs. apply negb_true_iff, Hiff; [congruence|lia|exact Hs].
    - intros H. symmetry. apply Hiff. intros s _ Hs.
      apply negb_true_iff. now apply H. }
  split; [lia|]. split; [exact Eheld|]. split.
  { rewrite Eheld. now apply degenerate_false_nonempty. }
  split; [now rewrite Eheld|]. split.
  { rewrite Hv, Hd. cbn [tl nth].
    apply compound_nth. now rewrite length_map. }
  split; [exact Edate|]. split; [exact Hle|]. split; [exact Hsame|].
  intros Hnodup (s & Hs & Ds) Eq. rewrite Edate in Eq.
  apply (proj1 (NoDup_nth (index price_data) EmptyString) Hnodup) in Eq;
    fold (len price_data); try lia.
  assert (i = t) by lia.
  rewrite (proj1 Hsame H s Hs) in Ds. discriminate.
Qed.

End StepFacts.

Lemma step_return_witness :
  aligned Tables.scenario_prices Tables.scenario_scores /\
  0 < length (step_days (K := insertion_argsort)
                Tables.scenario_prices Tables.scenario_scores) /\
  exists out,
    sentiment_trading_strategy (K := insertion_argsort)
      Tables.scenario_prices Tables.scenario_scores = Ok out /\
    nth 0 (holdings_out out) []
    = valid_stocks_at (K := insertion_argsort)
        Tables.scenario_prices Tables.scenario_scores 0 /\
    nth 1 (Daily_Return (portfolio_df out)) NaN
    = mean (map (stock_return_at Tables.scenario_prices 0)
                (nth 0 (holdings_out out) [])).
Proof.
  assert (Hal : aligned Tables.scenario_prices Tables.scenario_scores).
  { repeat split;
      [unfold len; simpl; lia|unfold len; simpl; lia|apply incl_refl]. }
  assert (Hi : 0 < length (step_days (K := insertion_argsort)
                             Tables.scenario_prices Tables.scenario_scores))
    by (vm_compute; lia).
  split; [exact Hal|]. split; [exact Hi|].
  apply (step_return_is_mean_return (K := insertion_argsort)
           (KS := insertion_argsort_spec)
           Tables.scenario_prices Tables.scenario_scores 0 Hal Hi).
  intros stock H. vm_compute in H.
  destruct H as [<-|[<-|[]]];
    (split; eexists; (split; [reflexivity|]); to_Q; unfold Qlt; simpl; lia)
    || (split; [eexists; (split; [reflexivity|]); to_Q; unfold Qlt; simpl; lia
               |eexists; reflexivity]).
Defined.

Lemma leading_dates_witness :
  aligned Tables.late_prices Tables.scenario_scores /\
  NoDup (index Tables.late_prices) /\
  degenerate (K := insertion_argsort)
    Tables.late_prices Tables.scenario_scores 0 = true /\
  nth 0 (step_days (K := insertion_argsort)
           Tables.late_prices Tables.scenario_scores) 0 = 1 /\
  exists out,
    sentiment_trading_strategy (K := insertion_argsort)
      Tables.late_prices Tables.scenario_scores = Ok out /\
    nth 1 (Daily_Return (portfolio_df out)) NaN
    = portfolio_return_at Tables.late_prices 1 (nth 0 (holdings_out out) []) /\
    nth 1 (Date (portfolio_df out)) EmptyString
    = nth 1 (index Tables.late_prices) EmptyString /\
    nth 1 (Date (portfolio_df out)) EmptyString
    <> nth 2 (index Tables.late_prices) EmptyString.
Proof.
  assert (Hal : aligned Tables.late_prices Tables.scenario_scores).
  { repeat split;
      [unfold len; simpl; lia|unfold len; simpl; lia|apply incl_refl]. }
  assert (Hnodup : NoDup (index Tables.late_prices)).
  { repeat constructor; simpl; intuition discriminate. }
  assert (Hskip : degenerate (K := insertion_argsort)
                    Tables.late_prices Tables.scenario_scores 0 = true)
    by (vm_compute; reflexivity).
  assert (Hday : nth 0 (step_days (K := insertion_argsort)
                          Tables.late_prices Tables.scenario_scores) 0 = 1)
    by (vm_compute; reflexivity).
  split; [exact Hal|]. split; [exact Hnodup|]. split; [exact Hskip|].
  split; [exact Hday|].
  destruct (values_are_filed_under_leading_dates (K := insertion_argsort)
              (KS := insertion_argsort_spec)
              Tables.late_prices Tables.scenario_scores Hal)
    as (out & E & _ & _ & Hheld & Hrows).
  exists out. split; [exact E|].
  assert (Hi : 0 < length (holdings_out out))
    by (rewrite Hheld; vm_compute; lia).
  specialize (Hrows 0 Hi). cbv zeta in Hrows. rewrite Hday in Hrows.
  destruct Hrows as (_ & _ & _ & Hret & _ & Hdate & _ & _ & Hwrong).
  split; [exact Hret|]. split; [exact Hdate|].
  apply Hwrong; [exact Hnodup|]. exists 0. split; [lia|exact Hskip].
Defined.

(** ** What the sentiment strategy reads of the scores *)

Lemma for_each_ext_in {S A : Type} (body body' : S -> A -> result S)
    (items : list A) (s : S) :
  (forall s x, In x items -> body s x = body' s x) ->
  for_each body items s = for_each body' items s.
Proof.
  revert s. induction items as [|x rest IH]; intros s H; [reflexivity|].
  cbn [for_each]. rewrite (H s x) by now left.
  destruct (body' s x); cbn [bind]; [|reflexivity].
  apply IH. intros s' y Hy. apply H. now right.
Qed.

(** X21.  The step of day [t] reads the scores of day [t] only, and
    there is no step on the last date: two score tables with the same
    columns that agree on every date but the last price date, whatever
    rows they have from there on, give the same result. *)
Theorem scores_from_last_date_unread (K : Argsort)
    (price_data scores scores' : DataFrame) :
  columns scores = columns scores' ->
  len price_data - 1 <= len scores ->
  len price_data - 1 <= len scores' ->
  (forall t stock, t < len price_data - 1 ->
                   cell scores t stock = cell scores' t stock) ->
  sentiment_trading_strategy price_data scores
  = sentiment_trading_strategy price_data scores'.
Proof.
  intros Hcols Hlen Hlen' Hcells. unfold sentiment_trading_strategy.
  rewrite (for_each_ext_in (rebalance price_data scores)
             (rebalance price_data scores')); [reflexivity|].
  intros st t Ht. apply in_seq in Ht. unfold rebalance, iloc.
  destruct (Nat.ltb_spec t (len scores)) as [_|]; [|lia].
  destruct (Nat.ltb_spec t (len scores')) as [_|]; [|lia].
  assert (E : row_of scores t = row_of scores' t).
  { unfold row_of. rewrite Hcols. apply map_ext.
    intros c. rewrite Hcells by lia. reflexivity. }
  now rewrite E.
Qed.

Lemma scores_from_last_date_witness :
  columns Tables.scenario_scores = columns Cases.late_news_scores /\
  len Tables.scenario_prices - 1 <= len Tables.scenario_scores /\
  len Tables.scenario_prices - 1 <= len Cases.late_news_scores /\
  sentiment_trading_strategy (K := insertion_argsort)
    Tables.scenario_prices Tables.scenario_scores
  = sentiment_trading_strategy (K := insertion_argsort)
      Tables.scenario_prices Cases.late_news_scores.
Proof.
  assert (H1 : columns Tables.scenario_scores
               = columns Cases.late_news_scores) by reflexivity.
  assert (H2 : len Tables.scenario_prices - 1 <= len Tables.scenario_scores)
    by (unfold len; simpl; lia).
  assert (H3 : len Tables.scenario_prices - 1 <= len Cases.late_news_scores)
    by (unfold len; simpl; lia).
  split; [exact H1|]. split; [exact H2|]. split; [exact H3|].
  apply (scores_from_last_date_unread insertion_argsort
           Tables.scenario_prices Tables.scenario_scores
           Cases.late_news_scores H1 H2 H3).
  intros t stock Ht. unfold len in Ht. simpl in Ht.
  destruct t as [|[|t]]; [reflexivity|reflexivity|lia].
Defined.

(** ** The total return of buy and hold *)

Section HoldMetrics.

Context {M : MathLib}.

(** X22.  When every asset has a positive price on the first and on
    the last date, the total return the metrics report for buy-and-hold
    is the mean over the assets of the last price relative to the
    first, minus one: the average of the assets' own total returns. *)
Theorem hold_total_return_is_mean_asset_return (price_data : DataFrame)
    (risk_free_rate : num) :
  columns price_data <> [] ->
  0 < len price_data ->
  (forall stock, In stock (columns price_data) ->
     positive_real (cell price_data 0 stock) /\
     positive_real (cell price_data (len price_data - 1) stock)) ->
  exists df m,
    buy_and_hold_strategy price_data = Ok df /\
    calculate_metrics df risk_free_rate = Ok m /\
    Total_Return m
    = (mean (map (price_relative price_data (len price_data - 1))
                 (columns price_data)) - one)%num.
Proof.
  intros Hcols Hlen Hpos.
  destruct (buy_and_hold_eq price_data Hcols Hlen)
    as (values & returns & E & Hv & Hr & Hrec).
  destruct (calculate_metrics_fields
              {| Date := index price_data;
                 Portfolio_Value := values;
                 Daily_Return := returns |} risk_free_rate)
    as (m & Em & Etotal & _); cbn [Portfolio_Value Daily_Return] in *.
  { intros Enil. rewrite Enil in Hv. simpl in Hv. lia. }
  { lia. }
  eexists _, m. split; [exact E|]. split; [exact Em|].
  rewrite Etotal, last_of_nth, Hv.
  destruct (Hrec (len price_data - 1) ltac:(lia)) as [-> _].
  destruct (holdings_value_formula price_data (len price_data - 1) Hcols Hpos)
    as [Ef Hf].
  unfold held_value. rewrite Hf, Ef.
  assert (Hn : 0 < length (columns price_data))
    by (destruct (columns price_data); [contradiction|simpl; lia]).
  destruct (relatives_fold price_data (len price_data - 1) 0%Qc
              (columns price_data) Hpos) as (r & _ & _ & Hfin & Hsum & _).
  unfold mean. rewrite (dropna_present _ Hfin), length_map.
  destruct (Nat.eqb_spec (length (columns price_data)) 0) as [E0|_]; [lia|].
  unfold total. change zero with (Fin 0%Qc). rewrite Hsum.
  assert (Hnn := Qc_pos_neq0 _ (nat_Qc_pos _ Hn)).
  assert (Hc := Qc_pos_neq0 _ capital_pos).
  unfold of_nat, of_Z, of_Q, one. cbn [div mul sub neg add].
  rewrite (Qc_eqb_neq _ _ Hnn). cbn [mul sub neg add div].
  rewrite (Qc_eqb_neq _ _ Hc). apply f_equal.
  change (Q2Qc (inject_Z 1)) with 1%Qc. field. now split.
Qed.

End HoldMetrics.

Lemma hold_total_return_witness :
  columns Tables.scenario_prices <> [] /\
  0 < len Tables.scenario_prices /\
  exists df m,
    buy_and_hold_strategy Tables.scenario_prices = Ok df /\
    calculate_metrics (M := eval_math) df default_risk_free_rate = Ok m /\
    Total_Return m
    = (mean (map (price_relative Tables.scenario_prices
                    (len Tables.scenario_prices - 1))
                 (columns Tables.scenario_prices)) - one)%num.
Proof.
  assert (H1 : columns Tables.scenario_prices <> []) by discriminate.
  assert (H2 : 0 < len Tables.scenario_prices) by (unfold len; simpl; lia).
  split; [exact H1|]. split; [exact H2|].
  apply (hold_total_return_is_mean_asset_return (M := eval_math)
           Tables.scenario_prices default_risk_free_rate H1 H2).
  intros stock H. simpl in H.
  destruct H as [<-|[<-|[<-|[]]]];
    (split; eexists; (split; [reflexivity|]); to_Q; unfold Qlt; simpl; lia).
Defined.
